(** * Whalebone MCP server: response shaping, request construction, dispatch

    A shallow embedding of [WhaleboneClient] and of the tool-call handler of
    the server, followed by the properties of the response shaper
    ([limitResults], [truncateObject], [enforceResponseSize],
    [processResponse]), of the query construction in [makeRequest] and of
    the error boundary of the [CallToolRequestSchema] handler.

    Representation choices.
    - A JavaScript string is a [string]; one character stands for one code
      unit, so [String.length] is [str.length].
    - A number is given by the decimal digits [Number::toString] starts
      from, the shortest ones that identify it: [JNum z] is the integer
      with the digits of [z], and [JDec m e] the number with the digits of
      [m] and the decimal exponent [e], for a fraction or a magnitude that
      is not written as an integer.  The shaper never inspects a number, it
      only copies and prints it; [Js.numberText] lays the digits out as
      [Number::toString] does, in plain or in exponent form.
    - An object is the list of its own entries in [Object.entries] order,
      each key once.  A loop
      [for (const [k, v] of Object.entries(o)) r[k] = f(v)] assigns the
      entries to a fresh object in that order ([Json.assign]): every key
      becomes an own property of [r], except [__proto__], for which the
      assignment runs the accessor of [Object.prototype] and stores nothing
      (it may change the prototype of [r], which neither [Object.entries]
      nor [JSON.stringify] looks at).
    - The URL class and [fetch] belong to the runtime.  A [network] says what
      [new URL] makes of a string (a parsed URL, or the message of the error
      it throws) and what [fetch] does with a request.
    - [number] fields of the configuration hold what [parseInt] returned:
      [Some z] for an integer, [None] for [NaN] or an absent field; an
      absent [enableTruncation] reads as [false], as [!undefined] does.
    - The item budget of [enforceResponseSize] is computed in exact integer
      arithmetic; module [Doubles] replays it on binary64 numbers and
      [maxItemsFor_agrees_with_doubles] compares the two. *)

From Stdlib Require Import ZArith List String Ascii Bool Lia.
From Stdlib Require DecimalString DecimalFacts.
From Stdlib Require Floats Uint63.
Import ListNotations.
#[local] Set Warnings "-register-all".
Local Open Scope string_scope.
Local Open Scope Z_scope.

(* ================================================================== *)
(** * JavaScript primitives *)
(* ================================================================== *)

Module Js.

(** The decimal digits of a positive integer. *)
Definition digitsOf (p : positive) : string :=
  DecimalString.NilZero.string_of_uint (Pos.to_uint p).

(** [n] zeros. *)
Fixpoint zeros (n : nat) : string :=
  match n with
  | O => EmptyString
  | S n' => String "0" (zeros n')
  end.

(** [m * 10^e] with the trailing zeros of [m] moved into the exponent. *)
Fixpoint stripZeros (fuel : nat) (m : positive) (e : Z) : positive * Z :=
  match fuel with
  | O => (m, e)
  | S fuel' =>
      if Z.pos m mod 10 =? 0
      then match Z.pos m / 10 with
           | Z.pos m' => stripZeros fuel' m' (e + 1)
           | _ => (m, e)
           end
      else (m, e)
  end.

(** The first [n] units of a string, and the rest. *)
Fixpoint splitAt (n : nat) (s : string) : string * string :=
  match n, s with
  | S n', String c rest =>
      let (a, b) := splitAt n' rest in (String c a, b)
  | _, _ => (EmptyString, s)
  end.

(** [Number::toString] for the positive number whose shortest decimal
    digits are [digits] and whose value is below [10^n] and at least
    [10^(n-1)]. *)
Definition positiveText (digits : string) (n : Z) : string :=
  let k := Z.of_nat (String.length digits) in
  if (k <=? n) && (n <=? 21) then digits ++ zeros (Z.to_nat (n - k))
  else if (0 <? n) && (n <=? 21) then
    let (whole, fraction) := splitAt (Z.to_nat n) digits in
    whole ++ "." ++ fraction
  else if (-6 <? n) && (n <=? 0) then
    "0." ++ zeros (Z.to_nat (- n)) ++ digits
  else
    let (first, others) := splitAt 1 digits in
    let mantissa :=
      match others with
      | EmptyString => first
      | _ => first ++ "." ++ others
      end in
    let exponent := n - 1 in
    mantissa ++ "e" ++ (if exponent <? 0 then "-" else "+")
      ++ DecimalString.NilZero.string_of_int (Z.to_int (Z.abs exponent)).

(** [Number.prototype.toString] on the number [m * 10^e]; zero prints as
    [0]. *)
Definition numberText (m e : Z) : string :=
  match m with
  | Z0 => "0"
  | Z.pos p =>
      let (d, e') := stripZeros (Pos.size_nat p) p e in
      positiveText (digitsOf d) (Z.of_nat (String.length (digitsOf d)) + e')
  | Z.neg p =>
      let (d, e') := stripZeros (Pos.size_nat p) p e in
      "-" ++ positiveText (digitsOf d)
                          (Z.of_nat (String.length (digitsOf d)) + e')
  end.

(** [Number.prototype.toString] on an integer (also what a template
    literal and [JSON.stringify] print for it): the plain decimal digits
    below [10^21], the exponent form from there on. *)
Definition numberToString (z : Z) : string :=
  if Z.abs z <? 10 ^ 21
  then DecimalString.NilZero.string_of_int (Z.to_int z)
  else numberText z 0.

(** [Boolean.prototype.toString]. *)
Definition booleanToString (b : bool) : string :=
  if b then "true" else "false".

(** [s.substring(0, n)] for [0 <= n]. *)
Definition substring0 (n : nat) (s : string) : string :=
  String.substring 0 n s.

(** [hay.includes(needle)]. *)
Fixpoint includes (needle hay : string) : bool :=
  String.prefix needle hay
  || match hay with
     | EmptyString => false
     | String _ rest => includes needle rest
     end.

(** [a.slice(0, e)]: a negative [e] counts from the end of the array. *)
Definition slice0 {A : Type} (a : list A) (e : Z) : list A :=
  let len := Z.of_nat (List.length a) in
  let k := (if e <? 0 then Z.max (len + e) 0 else Z.min e len)%Z in
  firstn (Z.to_nat k) a.

(** [x || d] on a number: [0] and [NaN] are falsy. *)
Definition numberOr (x : option Z) (d : Z) : Z :=
  match x with
  | Some 0 | None => d
  | Some z => z
  end.

Definition hexDigit (upper : bool) (n : nat) : ascii :=
  match n with
  | 0%nat => "0" | 1%nat => "1" | 2%nat => "2" | 3%nat => "3"
  | 4%nat => "4" | 5%nat => "5" | 6%nat => "6" | 7%nat => "7"
  | 8%nat => "8" | 9%nat => "9"
  | 10%nat => if upper then "A" else "a"
  | 11%nat => if upper then "B" else "b"
  | 12%nat => if upper then "C" else "c"
  | 13%nat => if upper then "D" else "d"
  | 14%nat => if upper then "E" else "e"
  | _ => if upper then "F" else "f"
  end%char.

(** Two hexadecimal digits of a value below 256. *)
Definition hexByte (upper : bool) (n : nat) : string :=
  String (hexDigit upper (n / 16)) (String (hexDigit upper (n mod 16)) "").

End Js.

(* ================================================================== *)
(** * JSON values and [JSON.stringify] *)
(* ================================================================== *)

Module Json.

Inductive json : Type :=
| JNull
| JBool (b : bool)
| JNum (z : Z)
| JDec (m e : Z)
| JStr (s : string)
| JArr (items : list json)
| JObj (entries : list (string * json)).

(** [Array.isArray]. *)
Definition isArray (v : json) : bool :=
  match v with JArr _ => true | _ => false end.

(** [o[k]] on a value: [None] is [undefined]. *)
Fixpoint lookup (k : string) (es : list (string * json)) : option json :=
  match es with
  | [] => None
  | (k', v) :: rest => if String.eqb k k' then Some v else lookup k rest
  end.

Definition field (k : string) (v : json) : option json :=
  match v with JObj es => lookup k es | _ => None end.

(** [o[key] = value] on an object [o] that has no own property [key]:
    the property is added last; for the key [__proto__] the accessor of
    [Object.prototype] runs instead and [o] gets no own property. *)
Definition assign (o : list (string * json)) (key : string) (value : json)
  : list (string * json) :=
  if String.eqb key "__proto__" then o else (o ++ [(key, value)])%list.

(** The quotation mark, code unit 34. *)
Definition dquote : ascii := "034"%char.

(** One code unit inside a quoted JSON string (QuoteJSONString). *)
Definition quoteChar (c : ascii) : string :=
  let n := nat_of_ascii c in
  match n with
  | 8%nat => "\b"
  | 9%nat => "\t"
  | 10%nat => "\n"
  | 12%nat => "\f"
  | 13%nat => "\r"
  | 34%nat => String "\" (String dquote "")
  | 92%nat => "\\"
  | _ => if (n <? 32)%nat then "\u00" ++ Js.hexByte false n
         else String c ""
  end.

Fixpoint quoteBody (s : string) : string :=
  match s with
  | EmptyString => ""
  | String c rest => quoteChar c ++ quoteBody rest
  end.

Definition quote (s : string) : string :=
  String dquote (quoteBody s ++ String dquote "").

(** The bracketed form of SerializeJSONArray / SerializeJSONObject:
    [stepback] is the indentation outside, [gap] the indentation unit. *)
Definition bracket (gap stepback opening closing : string)
           (partial : list string) : string :=
  match partial with
  | [] => opening ++ closing
  | _ =>
      if String.eqb gap "" then
        opening ++ String.concat "," partial ++ closing
      else
        let indent := stepback ++ gap in
        let nl := String "010" "" in
        opening ++ nl ++ indent
                ++ String.concat ("," ++ nl ++ indent) partial
                ++ nl ++ stepback ++ closing
  end.

(** SerializeJSONProperty on a parsed JSON value. *)
Fixpoint serialize (gap indent : string) (v : json) {struct v} : string :=
  match v with
  | JNull => "null"
  | JBool b => Js.booleanToString b
  | JNum z => Js.numberToString z
  | JDec m e => Js.numberText m e
  | JStr s => quote s
  | JArr items =>
      bracket gap indent "[" "]"
              (map (serialize gap (indent ++ gap)) items)
  | JObj entries =>
      bracket gap indent "{" "}"
              (map (fun kv : string * json =>
                      let (k, x) := kv in
                      quote k ++ ":" ++ (if String.eqb gap "" then "" else " ")
                            ++ serialize gap (indent ++ gap) x)
                   entries)
  end.

(** [JSON.stringify(v)]. *)
Definition stringify (v : json) : string := serialize "" "" v.

(** [JSON.stringify(v, null, 2)]. *)
Definition stringifyPretty (v : json) : string := serialize "  " "" v.

End Json.

Import Json.

(* ================================================================== *)
(** * Response shaper of [WhaleboneClient] *)
(* ================================================================== *)

Module Shaper.

(** [interface WhaleboneConfig]. *)
Record WhaleboneConfig : Type := {
  accessKey : string;
  secretKey : string;
  baseUrl : string;
  maxResults : option Z;
  maxResponseSize : option Z;
  enableTruncation : bool
}.

Definition DEFAULT_MAX_RESULTS : Z := 50.
Definition DEFAULT_MAX_RESPONSE_SIZE : Z := 50000.
Definition MAX_STRING_LENGTH : nat := 1000.

(** The suffix [truncateString] appends to a shortened string. *)
Definition TRUNCATION_MARKER : string := "... [truncated]".

(** The wrapper that stands for a shortened array. *)
Definition wrapper (results : list json) (total returned : Z)
           (message : string) : json :=
  JObj [ ("results", JArr results);
         ("total_available", JNum total);
         ("returned", JNum returned);
         ("truncated", JBool true);
         ("message", JStr message) ].

(** The template literal of [limitResults]. *)
Definition limitMessage (maxResults total : Z) : string :=
  "Results limited to " ++ Js.numberToString maxResults
    ++ " items out of " ++ Js.numberToString total
    ++ " total. Use pagination parameters to access more results.".

(** The template literal of [enforceResponseSize]. *)
Definition sizeMessage (shown total : Z) : string :=
  "Response truncated due to size constraints. Showing "
    ++ Js.numberToString shown ++ " of " ++ Js.numberToString total
    ++ " items.".

(** [Math.floor(maxSize / itemSize * 0.8)] where
    [itemSize = Math.floor(len / n)], for the serialized length [len] of
    an array of [n] elements.  The arithmetic is exact here; the source
    computes on doubles, and [Doubles.maxItemsDouble] below replays that.
    An empty array has [itemSize = Infinity], so the quotient is [0]; a
    non-empty one has [itemSize >= 2] ([itemSize_at_least_2]). *)
Definition maxItemsFor (maxSize len n : Z) : Z :=
  if n =? 0 then 0
  else
    let itemSize := len / n in
    (4 * maxSize) / (5 * itemSize).

Section WithConfig.

Variable config : WhaleboneConfig.

(** [this.config.maxResults || DEFAULT_MAX_RESULTS], the default value
    of the second parameter of [limitResults]. *)
Definition maxResultsOf : Z :=
  Js.numberOr (maxResults config) DEFAULT_MAX_RESULTS.

(** [this.config.maxResponseSize || DEFAULT_MAX_RESPONSE_SIZE]. *)
Definition maxResponseSizeOf : Z :=
  Js.numberOr (maxResponseSize config) DEFAULT_MAX_RESPONSE_SIZE.

Definition truncateString (str : string) (maxLength : nat) : string :=
  if negb (enableTruncation config)
     || (String.length str <=? maxLength)%nat
  then str
  else Js.substring0 maxLength str ++ TRUNCATION_MARKER.

Fixpoint truncateObject (obj : json) {struct obj} : json :=
  if negb (enableTruncation config) then obj
  else
    match obj with
    | JStr s => JStr (truncateString s MAX_STRING_LENGTH)
    | JArr items => JArr (map truncateObject items)
    | JObj entries =>
        JObj (fold_left (fun truncated (kv : string * json) =>
                           let (key, value) := kv in
                           assign truncated key (truncateObject value))
                        entries [])
    | _ => obj
    end.

Fixpoint limitResults (data : json) (maxResults : Z) {struct data}
  : json :=
  match data with
  | JArr items =>
      let limited := Js.slice0 items maxResults in
      if Z.of_nat (List.length items) >? maxResults then
        wrapper limited
                (Z.of_nat (List.length items))
                (Z.of_nat (List.length limited))
                (limitMessage maxResults (Z.of_nat (List.length items)))
      else JArr limited
  | JObj entries =>
      JObj (fold_left (fun result (kv : string * json) =>
                         let (key, value) := kv in
                         if isArray value
                         then assign result key
                                     (limitResults value maxResults)
                         else assign result key value)
                      entries [])
  | _ => data
  end.

Definition enforceResponseSize (data : json) : json :=
  let jsonString := stringify data in
  let maxSize := maxResponseSizeOf in
  if Z.of_nat (String.length jsonString) <=? maxSize then data
  else
    match data with
    | JArr items =>
        let maxItems :=
          maxItemsFor maxSize
                      (Z.of_nat (String.length jsonString))
                      (Z.of_nat (List.length items)) in
        wrapper (Js.slice0 items (Z.max 1 maxItems))
                (Z.of_nat (List.length items))
                (Z.max 1 maxItems)
                (sizeMessage (Z.max 1 maxItems)
                             (Z.of_nat (List.length items)))
    | _ => truncateObject data
    end.

Definition processResponse (data : json) : json :=
  let processed := limitResults data maxResultsOf in
  let processed := truncateObject processed in
  let processed := enforceResponseSize processed in
  processed.

End WithConfig.

(** The configuration the server builds when no environment variable is
    set. *)
Definition defaultConfig : WhaleboneConfig :=
  {| accessKey := "";
     secretKey := "";
     baseUrl := "https://api.whalebone.io/whalebone/2";
     maxResults := Some DEFAULT_MAX_RESULTS;
     maxResponseSize := Some DEFAULT_MAX_RESPONSE_SIZE;
     enableTruncation := true |}.

End Shaper.

Import Shaper.

(* ================================================================== *)
(** * The arithmetic of stage 3 on doubles *)
(* ================================================================== *)

(** [enforceResponseSize] computes its item budget on IEEE binary64
    numbers.  This module replays that computation on primitive floats, so
    that the exact-arithmetic [maxItemsFor] can be compared with it. *)
Module Doubles.

Import Floats.

(** The double of an integer below 2^63 in absolute value. *)
Definition ofInteger (z : Z) : float :=
  if z <? 0
  then PrimFloat.opp (PrimFloat.of_uint63 (Uint63.of_Z (- z)))
  else PrimFloat.of_uint63 (Uint63.of_Z z).

(** The integer [Math.floor] returns on a finite double; [None] on an
    infinity or [NaN], which [Math.floor] returns as they are. *)
Definition floorOf (x : float) : option Z :=
  match Prim2SF x with
  | S754_zero _ => Some 0
  | S754_finite s m e =>
      let n := if s then Z.neg m else Z.pos m in
      Some (if 0 <=? e then n * 2 ^ e else n / 2 ^ (- e))
  | _ => None
  end.

(** [Math.floor]. *)
Definition mathFloor (x : float) : float :=
  match floorOf x with
  | Some z => ofInteger z
  | None => x
  end.

(** The double nearest to 0.8, the literal of the source. *)
Definition pointEight : float := 0x1.999999999999ap-1%float.

(** [Math.floor(maxSize / Math.floor(len / n) * 0.8)]. *)
Definition maxItemsDouble (maxSize len n : Z) : option Z :=
  let itemSize := mathFloor (PrimFloat.div (ofInteger len) (ofInteger n)) in
  floorOf (PrimFloat.mul (PrimFloat.div (ofInteger maxSize) itemSize)
                         pointEight).

(** Budgets, serialized lengths and element counts to compare on: small
    values, where the exact quotient is often an integer, and values
    around the default budget.  An array of [n] elements is at least
    [2 n + 1] units long. *)
Definition samples : list (Z * Z * Z) :=
  let budgets :=
    (map Z.of_nat (seq 0 40)
       ++ [-7; -1; 1000; 4999; 5000; 49999; 50000; 50001; 2 ^ 31; 2 ^ 40])%list in
  let lengths :=
    (map Z.of_nat (seq 1 30)
       ++ [1000; 50001; 50251; 50901; 55151; 123456])%list in
  let counts := (map Z.of_nat (seq 0 13) ++ [50])%list in
  flat_map (fun m =>
    flat_map (fun l =>
      flat_map (fun n => if 2 * n + 1 <=? l then [(m, l, n)] else [])
               counts)
             lengths)
           budgets.

Definition agrees (sample : Z * Z * Z) : bool :=
  let '(maxSize, len, n) := sample in
  match maxItemsDouble maxSize len n with
  | Some z => z =? maxItemsFor maxSize len n
  | None => false
  end.

End Doubles.
(* ================================================================== *)
(** * API gateway: [makeRequest] and the client methods *)
(* ================================================================== *)

Module Gateway.

(** A scalar argument value; a number is an integer or is given by its
    digits and decimal exponent, as in [json]. *)
Inductive scalar : Type :=
| SStr (s : string)
| SNum (z : Z)
| SDec (m e : Z)
| SBool (b : bool).

(** The value of one argument: absent, null, a scalar or a sequence. *)
Inductive arg : Type :=
| AUndefined
| ANull
| AScalar (v : scalar)
| ASeq (items : list scalar).

(** An argument bag, as [Object.entries] lists it. *)
Definition bag : Type := list (string * arg).

(** [v.toString()]. *)
Definition scalarToString (v : scalar) : string :=
  match v with
  | SStr s => s
  | SNum z => Js.numberToString z
  | SDec m e => Js.numberText m e
  | SBool b => Js.booleanToString b
  end.

(** The list behind [url.searchParams]. *)
Definition searchParams : Type := list (string * string).

(** [url.searchParams.append(key, value)]. *)
Definition append (sp : searchParams) (key value : string) : searchParams :=
  (sp ++ [(key, value)])%list.

(** The callback [makeRequest] passes to [Object.entries(params).forEach];
    it is the same in the server without the response shaper. *)
Definition addParam (sp : searchParams) (kv : string * arg) : searchParams :=
  let (key, value) := kv in
  match value with
  | AUndefined | ANull => sp
  | ASeq items =>
      fold_left (fun sp v => append sp key (scalarToString v)) items sp
  | AScalar v => append sp key (scalarToString v)
  end.

Definition addParams (sp : searchParams) (params : bag) : searchParams :=
  fold_left addParam params sp.

(** Percent-encoding of one code unit by the
    application/x-www-form-urlencoded serializer. *)
Definition formEncodeChar (c : ascii) : string :=
  let n := nat_of_ascii c in
  if ((48 <=? n) && (n <=? 57) || (65 <=? n) && (n <=? 90)
      || (97 <=? n) && (n <=? 122)
      || (n =? 42) || (n =? 45) || (n =? 46) || (n =? 95))%nat
  then String c ""
  else if (n =? 32)%nat then "+"
  else if (n <? 128)%nat then "%" ++ Js.hexByte true n
  else "%" ++ Js.hexByte true (192 + n / 64)
           ++ "%" ++ Js.hexByte true (128 + n mod 64).

Fixpoint formEncode (s : string) : string :=
  match s with
  | EmptyString => ""
  | String c rest => formEncodeChar c ++ formEncode rest
  end.

(** [url.searchParams.toString()]. *)
Definition serializeParams (sp : searchParams) : string :=
  String.concat "&"
    (map (fun kv : string * string =>
            let (k, v) := kv in formEncode k ++ "=" ++ formEncode v)
         sp).

(** What [new URL(s)] returns: the serialized scheme, authority and path,
    the query ([None] when the string has none), the list of pairs
    [url.searchParams] holds for that query, and the fragment. *)
Record parsedUrl : Type := {
  beforeQuery : string;
  query : option string;
  pairs : searchParams;
  fragment : option string
}.

(** The URL that is its own serialization and has neither query nor
    fragment; [new URL] returns it for an absolute URL in normal form,
    such as the default base URL followed by an endpoint. *)
Definition literalUrl (s : string) : parsedUrl :=
  {| beforeQuery := s; query := None; pairs := []; fragment := None |}.

(** The query of the URL once the list behind [url.searchParams] is [sp].
    Every [append] runs the update steps of the list, which set the query
    to the serialized list, or to none when that is empty; the list only
    grows, so it is longer than the parsed one exactly when [append] ran.
    A URL nothing was appended to keeps the query it was parsed with. *)
Definition queryWith (u : parsedUrl) (sp : searchParams) : option string :=
  if (List.length sp <=? List.length (pairs u))%nat then query u
  else if String.eqb (serializeParams sp) "" then None
  else Some (serializeParams sp).

(** [url.toString()] once the list behind [url.searchParams] is [sp]. *)
Definition urlToString (u : parsedUrl) (sp : searchParams) : string :=
  beforeQuery u
    ++ match queryWith u sp with
       | Some q => "?" ++ q
       | None => ""
       end
    ++ match fragment u with
       | Some f => "#" ++ f
       | None => ""
       end.

Record request : Type := {
  url : string;
  method : string;
  headers : list (string * string)
}.

(** What [fetch] resolves to: [body] is the outcome of [response.json()],
    the parsed value or the message of the error it rejects with. *)
Record response : Type := {
  status : Z;
  statusText : string;
  body : string + json
}.

(** [response.ok]. *)
Definition ok (r : response) : bool :=
  (200 <=? status r) && (status r <=? 299).

(** An asynchronous computation of the client: it returns, throws an
    [Error] with a message, constructs a [URL] or awaits [fetch]. *)
Inductive prog (A : Type) : Type :=
| Ret (a : A)
| Throw (message : string)
| NewURL (input : string) (k : parsedUrl -> prog A)
| Fetch (req : request) (k : response -> prog A).

Arguments Ret {A} a.
Arguments Throw {A} message.
Arguments NewURL {A} input k.
Arguments Fetch {A} req k.

Fixpoint bind {A B : Type} (p : prog A) (f : A -> prog B) : prog B :=
  match p with
  | Ret a => f a
  | Throw m => Throw m
  | NewURL input k => NewURL input (fun u => bind (k u) f)
  | Fetch req k => Fetch req (fun r => bind (k r) f)
  end.

(** How a computation ends. *)
Inductive outcome (A : Type) : Type :=
| Returned (a : A)
| Thrown (message : string).

Arguments Returned {A} a.
Arguments Thrown {A} message.

(** The runtime and the network behind it: what [new URL] does with a
    string, throw a [TypeError] with a message or return the parsed URL,
    and what [fetch] does with a request, reject with a message or resolve
    to a response.  A network applied to a request is its [fetch]. *)
Record network : Type := {
  newURL : string -> string + parsedUrl;
  fetch :> request -> string + response
}.

(** Runs a computation against a network, logging the requests sent. *)
Fixpoint run {A : Type} (net : network) (p : prog A) (log : list request)
  : outcome A * list request :=
  match p with
  | Ret a => (Returned a, log)
  | Throw m => (Thrown m, log)
  | NewURL input k =>
      match newURL net input with
      | inl m => (Thrown m, log)
      | inr u => run net (k u) log
      end
  | Fetch req k =>
      match net req with
      | inl m => (Thrown m, (log ++ [req])%list)
      | inr r => run net (k r) (log ++ [req])%list
      end
  end.

Section WithConfig.

Variable config : WhaleboneConfig.

(** The request [makeRequest] hands to [fetch] for the URL object [u]:
    the parameters are appended to the list of [u]. *)
Definition requestOf (u : parsedUrl) (params : bag) : request :=
  {| url := urlToString u (addParams (pairs u) params);
     method := "GET";
     headers := [ ("Wb-Access-Key", accessKey config);
                  ("Wb-Secret-Key", secretKey config);
                  ("Content-Type", "application/json") ] |}.

(** The request for a base URL and endpoint that [new URL] takes as they
    are written. *)
Definition requestFor (endpoint : string) (params : bag) : request :=
  requestOf (literalUrl (baseUrl config ++ endpoint)) params.

Definition apiErrorMessage (r : response) : string :=
  "Whalebone API error: " ++ Js.numberToString (status r)
    ++ " " ++ statusText r.

Definition makeRequest (endpoint : string) (params : bag) : prog json :=
  NewURL (baseUrl config ++ endpoint)
         (fun u =>
            Fetch (requestOf u params)
                  (fun r =>
                     if negb (ok r) then Throw (apiErrorMessage r)
                     else match body r with
                          | inl m => Throw m
                          | inr rawData =>
                              Ret (processResponse config rawData)
                          end)).

Definition searchEvents (params : bag) := makeRequest "/events/search" params.
Definition getEventsTimeline (params : bag) := makeRequest "/events/timeline" params.
Definition getEventsStats (params : bag) := makeRequest "/events/stats" params.
Definition getDnsTimeline (params : bag) := makeRequest "/dns/timeline" params.
Definition getDnssecTimeline (params : bag) := makeRequest "/dnssec/timeline" params.
Definition getIocCount := makeRequest "/ioc/count" [].
Definition getResolverMetrics (params : bag) := makeRequest "/resolver/metrics" params.
Definition getDomainAnalysis (fqdn : arg) := makeRequest "/domain/analysis" [("fqdn", fqdn)].

End WithConfig.

End Gateway.

Import Gateway.

(* ================================================================== *)
(** * The [CallToolRequestSchema] handler *)
(* ================================================================== *)

Module Server.

(** [toolArgs[k]]. *)
Fixpoint getArg (k : string) (toolArgs : bag) : arg :=
  match toolArgs with
  | [] => AUndefined
  | (k', v) :: rest => if String.eqb k k' then v else getArg k rest
  end.

(** Truthiness of an argument value. *)
Definition truthy (v : arg) : bool :=
  match v with
  | AUndefined | ANull => false
  | AScalar (SStr s) => negb (String.eqb s "")
  | AScalar (SNum z) => negb (z =? 0)
  | AScalar (SDec m _) => negb (m =? 0)
  | AScalar (SBool b) => b
  | ASeq _ => true
  end.

(** [args || {}] for the optional [arguments] of a request. *)
Definition argumentsOrEmpty (args : option bag) : bag :=
  match args with Some a => a | None => [] end.

Definition TIP : string :=
  String "010" (String "010"
    "Tip: Try using more specific filters (date ranges, domains, IPs) or pagination to get smaller result sets.").

Definition helpfulError (errorMessage : string) : string :=
  if Js.includes "too large" errorMessage
     || Js.includes "truncated" errorMessage
  then errorMessage ++ TIP
  else errorMessage.

Definition textContent (text : string) : json :=
  JArr [ JObj [ ("type", JStr "text"); ("text", JStr text) ] ].

Definition successPayload (result : json) : json :=
  JObj [ ("content", textContent (stringifyPretty result)) ].

Definition errorPayload (errorMessage : string) : json :=
  JObj [ ("content", textContent ("Error: " ++ helpfulError errorMessage));
         ("isError", JBool true) ].

Section WithConfig.

Variable config : WhaleboneConfig.

(** The [switch] of the handler. *)
Definition dispatch (name : string) (toolArgs : bag) : prog json :=
  if String.eqb name "search_events" then searchEvents config toolArgs
  else if String.eqb name "get_events_timeline" then getEventsTimeline config toolArgs
  else if String.eqb name "get_events_stats" then getEventsStats config toolArgs
  else if String.eqb name "get_dns_timeline" then getDnsTimeline config toolArgs
  else if String.eqb name "get_dnssec_timeline" then getDnssecTimeline config toolArgs
  else if String.eqb name "get_ioc_count" then getIocCount config
  else if String.eqb name "get_resolver_metrics" then getResolverMetrics config toolArgs
  else if String.eqb name "analyze_domain" then
    if negb (truthy (getArg "fqdn" toolArgs))
    then Throw "fqdn parameter is required"
    else getDomainAnalysis config (getArg "fqdn" toolArgs)
  else Throw ("Unknown tool: " ++ name).

(** The body of the [try] block. *)
Definition tryBlock (name : string) (args : option bag) : prog json :=
  let toolArgs := argumentsOrEmpty args in
  bind (dispatch name toolArgs) (fun result => Ret (successPayload result)).

(** The handler: the reply it resolves to and the requests it sent. *)
Definition callTool (net : network) (name : string) (args : option bag)
  : json * list request :=
  match run net (tryBlock name args) [] with
  | (Returned reply, log) => (reply, log)
  | (Thrown errorMessage, log) => (errorPayload errorMessage, log)
  end.

End WithConfig.

End Server.

Import Server.
(* ================================================================== *)
(** * Vocabulary of the statements *)
(* ================================================================== *)

Module Spec.

(** [Number.MAX_SAFE_INTEGER]. *)
Definition MAX_SAFE_INTEGER : Z := 2 ^ 53 - 1.

(** A configuration whose two limits are usable as counts: [maxResults] is
    a positive safe integer and [maxResponseSize] a safe integer. *)
Definition usableLimits (config : WhaleboneConfig) : Prop :=
  0 < maxResultsOf config <= MAX_SAFE_INTEGER
  /\ maxResponseSizeOf config <= MAX_SAFE_INTEGER.

(** [jsonString.length] as an integer. *)
Definition size (v : json) : Z := Z.of_nat (String.length (stringify v)).

(** The items a response preserves: the elements of a sequence at the top
    or directly under the top-level object (the [results] of a wrapper
    among them), the other values of the top-level object, or the response
    itself when it is a scalar. *)
Definition preservedItems (out : json) : list json :=
  match out with
  | JArr items => items
  | JObj entries =>
      flat_map (fun kv : string * json =>
                  match snd kv with
                  | JArr items => items
                  | other => [other]
                  end)
               entries
  | _ => [out]
  end.

(** No string inside [v] is longer than [MAX_STRING_LENGTH]. *)
Fixpoint shortStrings (v : json) : bool :=
  match v with
  | JStr s => (String.length s <=? MAX_STRING_LENGTH)%nat
  | JArr items => forallb shortStrings items
  | JObj entries => forallb (fun kv => shortStrings (snd kv)) entries
  | _ => true
  end.

(** The limiting rule of stage 1 for one sequence. *)
Definition limitSequence (items : list json) (maxResults : Z) : json :=
  if Z.of_nat (List.length items) >? maxResults then
    wrapper (Js.slice0 items maxResults)
            (Z.of_nat (List.length items))
            (Z.of_nat (List.length (Js.slice0 items maxResults)))
            (limitMessage maxResults (Z.of_nat (List.length items)))
  else JArr (Js.slice0 items maxResults).

(** What stage 1 makes of a value directly under the top-level object. *)
Definition limitValue (maxResults : Z) (value : json) : json :=
  match value with
  | JArr items => limitSequence items maxResults
  | other => other
  end.

(** Stage 1 read as a walk of exactly one level: the rule applies to the
    value itself and to the values directly under a top-level object. *)
Definition limitOneLevel (data : json) (maxResults : Z) : json :=
  match data with
  | JArr items => limitSequence items maxResults
  | JObj entries =>
      JObj (map (fun kv : string * json =>
                   match snd kv with
                   | JArr items => (fst kv, limitSequence items maxResults)
                   | other => (fst kv, other)
                   end)
                entries)
  | _ => data
  end.

(** A value stage 1 has nothing to do on: no sequence at the top or
    directly under a top-level object is longer than [maxResults]. *)
Definition withinCount (maxResults : Z) (v : json) : Prop :=
  match v with
  | JArr items => Z.of_nat (List.length items) <= maxResults
  | JObj entries =>
      Forall (fun kv : string * json =>
                match snd kv with
                | JArr items => Z.of_nat (List.length items) <= maxResults
                | _ => True
                end)
             entries
  | _ => True
  end.

(** A key that [o[key] = value] stores as an own property of [o]. *)
Definition ownKey (key : string) : bool :=
  negb (String.eqb key "__proto__").

(** The entries a copying loop stores in the object it builds. *)
Definition stored (entries : list (string * json))
  : list (string * json) :=
  filter (fun kv => ownKey (fst kv)) entries.

(** No object inside [v], at any depth, has the key [__proto__]. *)
Fixpoint plainKeys (v : json) : bool :=
  match v with
  | JArr items => forallb plainKeys items
  | JObj entries =>
      forallb (fun kv => ownKey (fst kv) && plainKeys (snd kv)) entries
  | _ => true
  end.

(** The value itself, when it is an object, has no key [__proto__]. *)
Definition plainTop (v : json) : bool :=
  match v with
  | JObj entries => forallb (fun kv => ownKey (fst kv)) entries
  | _ => true
  end.

(** The own entries of a top-level object that a copying loop stores
    again; any other value is itself. *)
Definition ownEntries (data : json) : json :=
  match data with
  | JObj entries => JObj (stored entries)
  | _ => data
  end.

(** The query pairs one argument contributes, in the words of the
    interface description: nothing for an absent or null value, one pair
    for a scalar, one pair per element for a sequence. *)
Definition pairsOf (kv : string * arg) : searchParams :=
  match snd kv with
  | AUndefined | ANull => []
  | AScalar v => [(fst kv, scalarToString v)]
  | ASeq items => map (fun v => (fst kv, scalarToString v)) items
  end.

(** [n] copies of the code unit [c]. *)
Fixpoint replicate (n : nat) (c : ascii) : string :=
  match n with
  | O => EmptyString
  | S n' => String c (replicate n' c)
  end.

(** The value stages 1 and 2 hand to stage 3. *)
Definition staged (config : WhaleboneConfig) (data : json) : json :=
  truncateObject config (limitResults data (maxResultsOf config)).

(** The size invariant as the data model words it: the shaped response
    fits [maxResponseSize], or some single preserved item is by itself
    larger than that budget. *)
Definition fitsOrHasOversizedItem (config : WhaleboneConfig) (data : json)
  : Prop :=
  let out := processResponse config data in
  size out <= maxResponseSizeOf config
  \/ exists item, In item (preservedItems out)
                  /\ maxResponseSizeOf config < size item.

(** The default configuration with truncation switched off
    ([WHALEBONE_ENABLE_TRUNCATION=false]). *)
Definition truncationOff : WhaleboneConfig :=
  {| accessKey := accessKey defaultConfig;
     secretKey := secretKey defaultConfig;
     baseUrl := baseUrl defaultConfig;
     maxResults := maxResults defaultConfig;
     maxResponseSize := maxResponseSize defaultConfig;
     enableTruncation := false |}.

(** An object of sixty fields, each a string of exactly 1000 units. *)
Definition sixtyNotes : json :=
  JObj (map (fun i => ("note" ++ Js.numberToString (Z.of_nat i),
                       JStr (replicate 1000 "a")))
            (seq 0 60)).

(** An array of fifty elements: two rows of twenty-five strings of 1000
    units each, then forty-eight zeros. *)
Definition twoLargeRows : json :=
  let row := JArr (repeat (JStr (replicate 1000 "a")) 25) in
  JArr (row :: row :: repeat (JNum 0) 48).

(** An array of fifty strings of 1100 units each. *)
Definition fiftyLongStrings : json :=
  JArr (repeat (JStr (replicate 1100 "a")) 50).

(** An array of sixty numbers. *)
Definition sixtyNumbers : json :=
  JArr (map (fun i => JNum (Z.of_nat i)) (seq 0 60)).

(** The argument bag
    [{domain: "example.com", device_id: ["a","b"], limit: undefined}]. *)
Definition exampleBag : bag :=
  [ ("domain", AScalar (SStr "example.com"));
    ("device_id", ASeq [SStr "a"; SStr "b"]);
    ("limit", AUndefined) ].

(** [new URL] on the strings of the examples: an [https] URL without
    query or fragment is taken as it is written, and a string without a
    scheme is refused. *)
Definition exampleURL (input : string) : string + parsedUrl :=
  if String.prefix "https://" input then inr (literalUrl input)
  else inl "Invalid URL".

(** A network whose every answer is [503 Service Unavailable]. *)
Definition unavailable : network :=
  {| newURL := exampleURL;
     fetch := fun _ => inr {| status := 503;
                              statusText := "Service Unavailable";
                              body := inl "Unexpected token" |} |}.

End Spec.

Import Spec.

(* ================================================================== *)
(** * The tool catalogue and the [ListToolsRequestSchema] handler *)
(* ================================================================== *)

Module Catalogue.

(** [const tools: Tool[]]: name, description and input schema of every
    tool the server offers. *)
Definition tools : list json :=
  [
    JObj [
      ("name", JStr "search_events");
      ("description", JStr "Search for security events detected by Whalebone. Results are automatically limited to prevent context overflow.");
      ("inputSchema",
        JObj [
          ("type", JStr "object");
          ("properties",
            JObj [
              ("client_ip",
                JObj [
                  ("type", JStr "string");
                  ("description", JStr "Source IP address (supports * wildcard)") ]);
              ("threat_type",
                JObj [
                  ("type", JStr "string");
                  ("enum", JArr [JStr "c&c"; JStr "blacklist";
                    JStr "malware"; JStr "phishing"; JStr "spam";
                    JStr "coinminer"; JStr "compromised"]);
                  ("description", JStr "Type of threat to filter by") ]);
              ("resolver_id",
                JObj [
                  ("type", JStr "integer");
                  ("description", JStr "ID of the resolver") ]);
              ("domain",
                JObj [
                  ("type", JStr "string");
                  ("description", JStr "Domain name (supports * wildcard)") ]);
              ("device_id",
                JObj [
                  ("type", JStr "array");
                  ("items", JObj [("type", JStr "string")]);
                  ("description", JStr "Device identifiers") ]);
              ("subscription_id",
                JObj [
                  ("type", JStr "string");
                  ("description", JStr "Subscription identifier") ]);
              ("action",
                JObj [
                  ("type", JStr "string");
                  ("enum", JArr [JStr "log"; JStr "block"; JStr "allow"]);
                  ("description", JStr "Event action") ]);
              ("days",
                JObj [
                  ("type", JStr "integer");
                  ("minimum", JNum 1);
                  ("maximum", JNum 220);
                  ("default", JNum 1);
                  ("description", JStr "Number of days to look back (default: 1)") ]);
              ("hours",
                JObj [
                  ("type", JStr "integer");
                  ("minimum", JNum 1);
                  ("maximum", JNum 5280);
                  ("description", JStr "Number of hours to look back") ]);
              ("scroll",
                JObj [
                  ("type", JStr "boolean");
                  ("default", JBool false);
                  ("description", JStr "Enable scrolling for large result sets (not recommended for context efficiency)") ]);
              ("sort",
                JObj [
                  ("type", JStr "string");
                  ("enum", JArr [JStr "asc"; JStr "desc"]);
                  ("default", JStr "desc");
                  ("description", JStr "Sort order (newest first by default)") ]) ]) ]) ];
    JObj [
      ("name", JStr "get_events_timeline");
      ("description", JStr "Get timeline of security events");
      ("inputSchema",
        JObj [
          ("type", JStr "object");
          ("properties",
            JObj [
              ("client_ip",
                JObj [
                  ("type", JStr "string");
                  ("description", JStr "Source IP address (supports * wildcard)") ]);
              ("threat_type",
                JObj [
                  ("type", JStr "string");
                  ("enum", JArr [JStr "c&c"; JStr "blacklist";
                    JStr "malware"; JStr "phishing"; JStr "spam";
                    JStr "coinminer"; JStr "compromised"]);
                  ("description", JStr "Type of threat to filter by") ]);
              ("resolver_id",
                JObj [
                  ("type", JStr "integer");
                  ("description", JStr "ID of the resolver") ]);
              ("domain",
                JObj [
                  ("type", JStr "string");
                  ("description", JStr "Domain name (supports * wildcard)") ]);
              ("device_id",
                JObj [
                  ("type", JStr "array");
                  ("items", JObj [("type", JStr "string")]);
                  ("description", JStr "Device identifiers") ]);
              ("subscription_id",
                JObj [
                  ("type", JStr "string");
                  ("description", JStr "Subscription identifier") ]);
              ("action",
                JObj [
                  ("type", JStr "string");
                  ("enum", JArr [JStr "log"; JStr "block"; JStr "allow"]);
                  ("description", JStr "Event action") ]);
              ("days",
                JObj [
                  ("type", JStr "integer");
                  ("minimum", JNum 1);
                  ("maximum", JNum 220);
                  ("description", JStr "Number of days to look back") ]);
              ("hours",
                JObj [
                  ("type", JStr "integer");
                  ("minimum", JNum 1);
                  ("maximum", JNum 5280);
                  ("description", JStr "Number of hours to look back") ]);
              ("aggregate",
                JObj [
                  ("type", JStr "string");
                  ("enum", JArr [JStr "client_ip"; JStr "action";
                    JStr "threat_type"; JStr "resolver_id"; JStr "domain";
                    JStr "device_id"; JStr "subscription_id";
                    JStr "country"]);
                  ("description", JStr "Aggregate timeline buckets by parameter") ]);
              ("interval",
                JObj [
                  ("type", JStr "string");
                  ("enum", JArr [JStr "hour"; JStr "day"; JStr "week";
                    JStr "month"]);
                  ("description", JStr "Timeline bucket size") ]) ]) ]) ];
    JObj [
      ("name", JStr "get_events_stats");
      ("description", JStr "Get aggregated statistics for security events");
      ("inputSchema",
        JObj [
          ("type", JStr "object");
          ("properties",
            JObj [
              ("client_ip",
                JObj [
                  ("type", JStr "string");
                  ("description", JStr "Source IP address (supports * wildcard)") ]);
              ("threat_type",
                JObj [
                  ("type", JStr "string");
                  ("enum", JArr [JStr "c&c"; JStr "blacklist";
                    JStr "malware"; JStr "phishing"; JStr "spam";
                    JStr "coinminer"; JStr "compromised"]);
                  ("description", JStr "Type of threat to filter by") ]);
              ("resolver_id",
                JObj [
                  ("type", JStr "integer");
                  ("description", JStr "ID of the resolver") ]);
              ("domain",
                JObj [
                  ("type", JStr "string");
                  ("description", JStr "Domain name (supports * wildcard)") ]);
              ("device_id",
                JObj [
                  ("type", JStr "array");
                  ("items", JObj [("type", JStr "string")]);
                  ("description", JStr "Device identifiers") ]);
              ("subscription_id",
                JObj [
                  ("type", JStr "string");
                  ("description", JStr "Subscription identifier") ]);
              ("action",
                JObj [
                  ("type", JStr "string");
                  ("enum", JArr [JStr "log"; JStr "block"; JStr "allow"]);
                  ("description", JStr "Event action") ]);
              ("days",
                JObj [
                  ("type", JStr "integer");
                  ("minimum", JNum 1);
                  ("maximum", JNum 220);
                  ("description", JStr "Number of days to look back") ]);
              ("hours",
                JObj [
                  ("type", JStr "integer");
                  ("minimum", JNum 1);
                  ("maximum", JNum 5280);
                  ("description", JStr "Number of hours to look back") ]);
              ("aggregate",
                JObj [
                  ("type", JStr "string");
                  ("enum", JArr [JStr "client_ip"; JStr "action";
                    JStr "threat_type"; JStr "resolver_id"; JStr "domain";
                    JStr "device_id"; JStr "subscription_id";
                    JStr "country"]);
                  ("description", JStr "Aggregate statistics by parameter") ]) ]) ]) ];
    JObj [
      ("name", JStr "get_dns_timeline");
      ("description", JStr "Get DNS traffic timeline. Results are automatically limited and aggregated for context efficiency.");
      ("inputSchema",
        JObj [
          ("type", JStr "object");
          ("properties",
            JObj [
              ("client_ip",
                JObj [
                  ("type", JStr "string");
                  ("description", JStr "Source IP address (supports * wildcard)") ]);
              ("query_type",
                JObj [
                  ("type", JStr "string");
                  ("enum", JArr [JStr "a"; JStr "aaaa"; JStr "afsdb";
                    JStr "apl"; JStr "caa"; JStr "cdnskey"; JStr "cds";
                    JStr "cert"; JStr "cname"; JStr "dhcid"; JStr "dlv";
                    JStr "dname"; JStr "dnskey"; JStr "ds"; JStr "hip";
                    JStr "ipseckey"; JStr "key"; JStr "kx"; JStr "loc";
                    JStr "mx"; JStr "naptr"; JStr "ns"; JStr "nsec";
                    JStr "nsec3"; JStr "nsec3param"; JStr "openpgpkey";
                    JStr "ptr"; JStr "rrsig"; JStr "rp"; JStr "sig";
                    JStr "soa"; JStr "srv"; JStr "sshfp"; JStr "ta";
                    JStr "tkey"; JStr "tlsa"; JStr "tsig"; JStr "txt";
                    JStr "uri"; JStr "aname"]);
                  ("description", JStr "Type of DNS query") ]);
              ("domain",
                JObj [
                  ("type", JStr "string");
                  ("description", JStr "Second level domain name (supports * wildcard)") ]);
              ("query",
                JObj [
                  ("type", JStr "string");
                  ("description", JStr "Complete query string (supports * wildcard)") ]);
              ("days",
                JObj [
                  ("type", JStr "integer");
                  ("minimum", JNum 1);
                  ("maximum", JNum 14);
                  ("default", JNum 1);
                  ("description", JStr "Number of days to look back (default: 1)") ]);
              ("hours",
                JObj [
                  ("type", JStr "integer");
                  ("minimum", JNum 1);
                  ("maximum", JNum 336);
                  ("description", JStr "Number of hours to look back") ]);
              ("resolver_id",
                JObj [
                  ("type", JStr "integer");
                  ("description", JStr "ID of the resolver") ]);
              ("device_id",
                JObj [
                  ("type", JStr "array");
                  ("items", JObj [("type", JStr "string")]);
                  ("description", JStr "Device identifiers") ]);
              ("answer",
                JObj [
                  ("type", JStr "string");
                  ("description", JStr "Filter by answer content (supports * wildcard)") ]);
              ("dga",
                JObj [
                  ("type", JStr "boolean");
                  ("description", JStr "Filter only DGA domains") ]);
              ("tld",
                JObj [
                  ("type", JStr "string");
                  ("description", JStr "Filter by TLD (supports * wildcard)") ]);
              ("aggregate",
                JObj [
                  ("type", JStr "string");
                  ("enum", JArr [JStr "client_ip"; JStr "tld"; JStr "domain";
                    JStr "query"; JStr "answer"; JStr "query_type";
                    JStr "device_id"; JStr "country"]);
                  ("default", JStr "query_type");
                  ("description", JStr "Aggregate timeline buckets by parameter (default: query_type for efficiency)") ]);
              ("interval",
                JObj [
                  ("type", JStr "string");
                  ("enum", JArr [JStr "hour"; JStr "day"; JStr "week";
                    JStr "month"]);
                  ("default", JStr "hour");
                  ("description", JStr "Timeline bucket size (default: hour)") ]) ]) ]) ];
    JObj [
      ("name", JStr "get_dnssec_timeline");
      ("description", JStr "Get DNSSEC traffic timeline");
      ("inputSchema",
        JObj [
          ("type", JStr "object");
          ("properties",
            JObj [
              ("query_type",
                JObj [
                  ("type", JStr "string");
                  ("enum", JArr [JStr "a"; JStr "aaaa"; JStr "afsdb";
                    JStr "apl"; JStr "caa"; JStr "cdnskey"; JStr "cds";
                    JStr "cert"; JStr "cname"; JStr "dhcid"; JStr "dlv";
                    JStr "dname"; JStr "dnskey"; JStr "ds"; JStr "hip";
                    JStr "ipseckey"; JStr "key"; JStr "kx"; JStr "loc";
                    JStr "mx"; JStr "naptr"; JStr "ns"; JStr "nsec";
                    JStr "nsec3"; JStr "nsec3param"; JStr "openpgpkey";
                    JStr "ptr"; JStr "rrsig"; JStr "rp"; JStr "sig";
                    JStr "soa"; JStr "srv"; JStr "sshfp"; JStr "ta";
                    JStr "tkey"; JStr "tlsa"; JStr "tsig"; JStr "txt";
                    JStr "uri"; JStr "aname"]);
                  ("description", JStr "Type of DNS query") ]);
              ("domain",
                JObj [
                  ("type", JStr "string");
                  ("description", JStr "Second level domain name (supports * wildcard)") ]);
              ("query",
                JObj [
                  ("type", JStr "string");
                  ("description", JStr "Complete query string (supports * wildcard)") ]);
              ("days",
                JObj [
                  ("type", JStr "integer");
                  ("minimum", JNum 1);
                  ("maximum", JNum 14);
                  ("description", JStr "Number of days to look back") ]);
              ("hours",
                JObj [
                  ("type", JStr "integer");
                  ("minimum", JNum 1);
                  ("maximum", JNum 336);
                  ("description", JStr "Number of hours to look back") ]);
              ("resolver_id",
                JObj [
                  ("type", JStr "integer");
                  ("description", JStr "ID of the resolver") ]);
              ("tld",
                JObj [
                  ("type", JStr "string");
                  ("description", JStr "Filter by TLD (supports * wildcard)") ]);
              ("aggregate",
                JObj [
                  ("type", JStr "string");
                  ("enum", JArr [JStr "tld"; JStr "domain"; JStr "query";
                    JStr "query_type"]);
                  ("description", JStr "Aggregate timeline buckets by parameter") ]);
              ("interval",
                JObj [
                  ("type", JStr "string");
                  ("enum", JArr [JStr "hour"; JStr "day"; JStr "week";
                    JStr "month"]);
                  ("description", JStr "Timeline bucket size") ]) ]) ]) ];
    JObj [
      ("name", JStr "get_ioc_count");
      ("description", JStr "Get counts of active Indicators of Compromise (IOCs) per threat type");
      ("inputSchema",
        JObj [("type", JStr "object"); ("properties", JObj [])]) ];
    JObj [
      ("name", JStr "get_resolver_metrics");
      ("description", JStr "Get timeline metrics of client resolvers");
      ("inputSchema",
        JObj [
          ("type", JStr "object");
          ("properties",
            JObj [
              ("resolver_id",
                JObj [
                  ("type", JStr "integer");
                  ("description", JStr "ID of the resolver") ]);
              ("days",
                JObj [
                  ("type", JStr "integer");
                  ("minimum", JNum 1);
                  ("maximum", JNum 220);
                  ("description", JStr "Number of days to look back") ]);
              ("hours",
                JObj [
                  ("type", JStr "integer");
                  ("minimum", JNum 1);
                  ("maximum", JNum 5280);
                  ("description", JStr "Number of hours to look back") ]);
              ("interval",
                JObj [
                  ("type", JStr "string");
                  ("enum", JArr [JStr "hour"; JStr "day"; JStr "week";
                    JStr "month"]);
                  ("description", JStr "Timeline interval size") ]) ]) ]) ];
    JObj [
      ("name", JStr "analyze_domain");
      ("description", JStr "Get domain analysis including threats and content categories");
      ("inputSchema",
        JObj [
          ("type", JStr "object");
          ("properties",
            JObj [
              ("fqdn",
                JObj [
                  ("type", JStr "string");
                  ("description", JStr "Fully Qualified Domain Name (max 253 characters)") ]) ]);
          ("required", JArr [JStr "fqdn"]) ]) ]
  ].

(** The reply of the [ListToolsRequestSchema] handler, [{ tools }]. *)
Definition listTools : json := JObj [("tools", JArr tools)].

(** [tool.name]; [None] when the field is not a string. *)
Definition toolName (tool : json) : option string :=
  match field "name" tool with
  | Some (JStr name) => Some name
  | _ => None
  end.

(** The strings of an array of strings. *)
Definition stringsOf (v : json) : list string :=
  match v with
  | JArr items =>
      flat_map (fun item => match item with JStr s => [s] | _ => [] end)
               items
  | _ => []
  end.

(** [tool.inputSchema.required], empty when the schema has none. *)
Definition requiredOf (tool : json) : list string :=
  match field "inputSchema" tool with
  | Some schema =>
      match field "required" schema with
      | Some required => stringsOf required
      | None => []
      end
  | None => []
  end.

(** The names in the catalogue, in its order. *)
Definition toolNames : list string :=
  flat_map (fun tool => match toolName tool with
                        | Some name => [name]
                        | None => []
                        end)
           tools.

End Catalogue.

(* ================================================================== *)
(** * The server without the response shaper ([src/index.ts]) *)
(* ================================================================== *)

Module Plain.

(** [interface WhaleboneConfig] of this version: no limits. *)
Record WhaleboneConfig : Type := {
  accessKey : string;
  secretKey : string;
  baseUrl : string
}.

Section WithConfig.

Variable config : WhaleboneConfig.

(** The request [makeRequest] hands to [fetch] for the URL object [u]:
    the parameters are appended to the list of [u]. *)
Definition requestOf (u : parsedUrl) (params : bag) : request :=
  {| url := urlToString u (addParams (pairs u) params);
     method := "GET";
     headers := [ ("Wb-Access-Key", accessKey config);
                  ("Wb-Secret-Key", secretKey config);
                  ("Content-Type", "application/json") ] |}.

(** [makeRequest] returns the parsed body as it is. *)
Definition makeRequest (endpoint : string) (params : bag) : prog json :=
  NewURL (baseUrl config ++ endpoint)
         (fun u =>
            Fetch (requestOf u params)
                  (fun r =>
                     if negb (ok r)
                     then Throw ("Whalebone API error: "
                                   ++ Js.numberToString (status r)
                                   ++ " " ++ statusText r)
                     else match body r with
                          | inl m => Throw m
                          | inr rawData => Ret rawData
                          end)).

Definition searchEvents (params : bag) := makeRequest "/events/search" params.
Definition getEventsTimeline (params : bag) := makeRequest "/events/timeline" params.
Definition getEventsStats (params : bag) := makeRequest "/events/stats" params.
Definition getDnsTimeline (params : bag) := makeRequest "/dns/timeline" params.
Definition getDnssecTimeline (params : bag) := makeRequest "/dnssec/timeline" params.
Definition getIocCount := makeRequest "/ioc/count" [].
Definition getResolverMetrics (params : bag) := makeRequest "/resolver/metrics" params.
Definition getDomainAnalysis (fqdn : arg) := makeRequest "/domain/analysis" [("fqdn", fqdn)].
Definition getAuditLogs (params : bag) := makeRequest "/audit/logs" params.
Definition getIdpIncidents (params : bag) := makeRequest "/idp/incidents" params.

(** The [switch] of the handler: ten tools. *)
Definition dispatch (name : string) (toolArgs : bag) : prog json :=
  if String.eqb name "search_events" then searchEvents toolArgs
  else if String.eqb name "get_events_timeline" then getEventsTimeline toolArgs
  else if String.eqb name "get_events_stats" then getEventsStats toolArgs
  else if String.eqb name "get_dns_timeline" then getDnsTimeline toolArgs
  else if String.eqb name "get_dnssec_timeline" then getDnssecTimeline toolArgs
  else if String.eqb name "get_ioc_count" then getIocCount
  else if String.eqb name "get_resolver_metrics" then getResolverMetrics toolArgs
  else if String.eqb name "analyze_domain" then
    if negb (truthy (getArg "fqdn" toolArgs))
    then Throw "fqdn parameter is required"
    else getDomainAnalysis (getArg "fqdn" toolArgs)
  else if String.eqb name "get_audit_logs" then getAuditLogs toolArgs
  else if String.eqb name "get_idp_incidents" then getIdpIncidents toolArgs
  else Throw ("Unknown tool: " ++ name).

(** The error reply of this version: the message, without a tip. *)
Definition errorPayload (errorMessage : string) : json :=
  JObj [ ("content", textContent ("Error: " ++ errorMessage));
         ("isError", JBool true) ].

Definition tryBlock (name : string) (args : option bag) : prog json :=
  let toolArgs := argumentsOrEmpty args in
  bind (dispatch name toolArgs) (fun result => Ret (successPayload result)).

Definition callTool (net : network) (name : string) (args : option bag)
  : json * list request :=
  match run net (tryBlock name args) [] with
  | (Returned reply, log) => (reply, log)
  | (Thrown errorMessage, log) => (errorPayload errorMessage, log)
  end.

End WithConfig.

(** The part of a configuration this version reads. *)
Definition ofConfig (config : Shaper.WhaleboneConfig) : WhaleboneConfig :=
  {| accessKey := Shaper.accessKey config;
     secretKey := Shaper.secretKey config;
     baseUrl := Shaper.baseUrl config |}.

End Plain.

(* ================================================================== *)
(** * Vocabulary of the further statements *)
(* ================================================================== *)

Module Shape.

(** A value with the content of every string erased: what is left is the
    kind of every value, the length of every array, and the keys of every
    object in their order. *)
Fixpoint skeleton (v : json) : json :=
  match v with
  | JStr _ => JStr EmptyString
  | JArr items => JArr (map skeleton items)
  | JObj entries =>
      JObj (map (fun kv : string * json => (fst kv, skeleton (snd kv)))
                entries)
  | _ => v
  end.

(** The value with every entry whose key is [__proto__] left out, at
    every depth. *)
Fixpoint withoutProto (v : json) : json :=
  match v with
  | JArr items => JArr (map withoutProto items)
  | JObj entries =>
      JObj (stored (map (fun kv : string * json =>
                           (fst kv, withoutProto (snd kv)))
                        entries))
  | _ => v
  end.

(** No string value inside [v] is longer than [n] units. *)
Fixpoint stringsWithin (n : nat) (v : json) : bool :=
  match v with
  | JStr s => (String.length s <=? n)%nat
  | JArr items => forallb (stringsWithin n) items
  | JObj entries => forallb (fun kv => stringsWithin n (snd kv)) entries
  | _ => true
  end.

(** The length of a shortened string: 1000 kept units and the marker. *)
Definition MARKED_LENGTH : nat :=
  (MAX_STRING_LENGTH + String.length TRUNCATION_MARKER)%nat.

(** [hay] holds [needle] as a substring. *)
Definition contains (needle hay : string) : Prop :=
  exists before after, hay = before ++ needle ++ after.

(** A configuration with [maxResponseSize] 28 and the default
    [maxResults]. *)
Definition tinyBudget : Shaper.WhaleboneConfig :=
  {| Shaper.accessKey := "";
     Shaper.secretKey := "";
     Shaper.baseUrl := "https://api.whalebone.io/whalebone/2";
     maxResults := Some 50;
     maxResponseSize := Some 28;
     enableTruncation := true |}.

(** Ten numbers, 29 units when serialized. *)
Definition tenNumbers : list json :=
  map JNum [1; 2; 10; 11; 12; 13; 14; 15; 16; 17].

(** A network that answers every request with [200 OK] and the given
    body. *)
Definition answering (rawData : json) : network :=
  {| newURL := exampleURL;
     fetch := fun _ => inr {| status := 200; statusText := "OK";
                              body := inr rawData |} |}.

(** A network on which every [fetch] is rejected. *)
Definition unreachable : network :=
  {| newURL := exampleURL;
     fetch := fun _ => inl "fetch failed" |}.

(** What the [try] block of a call does once it is known which request it
    sent: the outcome is decided by the answer to that request alone. *)
Definition outcomeOf (config : WhaleboneConfig) (answer : string + response)
  : outcome json :=
  match answer with
  | inl m => Thrown m
  | inr r =>
      if negb (ok r) then Thrown (apiErrorMessage r)
      else match body r with
           | inl m => Thrown m
           | inr rawData =>
               Returned (successPayload (processResponse config rawData))
           end
  end.

(** How the outcome of the plain client becomes that of the shaping one. *)
Definition shapedOutcome (config : Shaper.WhaleboneConfig)
           (o : outcome json * list request) : outcome json * list request :=
  match o with
  | (Returned rawData, log) => (Returned (processResponse config rawData), log)
  | (Thrown m, log) => (Thrown m, log)
  end.

End Shape.

Import Shape.

(* ================================================================== *)
(** * Strings and numbers *)
(* ================================================================== *)

Lemma length_append (s t : string) :
  String.length (s ++ t) = (String.length s + String.length t)%nat.
Proof.
  induction s as [|c s IH]; simpl; [reflexivity|]. now rewrite IH.
Qed.

Lemma append_assoc (s t u : string) : ((s ++ t) ++ u = s ++ (t ++ u))%string.
Proof.
  induction s as [|c s IH]; simpl; [reflexivity|]. now rewrite IH.
Qed.

Lemma substring0_length (n : nat) (s : string) :
  (n <= String.length s)%nat -> String.length (Js.substring0 n s) = n.
Proof.
  unfold Js.substring0. revert s.
  induction n as [|n IH]; intros [|c s] H; simpl in *; try reflexivity; try lia.
  rewrite IH; [reflexivity | lia].
Qed.

Lemma substring0_append (n : nat) (s t : string) :
  (n <= String.length s)%nat ->
  Js.substring0 n (Js.substring0 n s ++ t) = Js.substring0 n s.
Proof.
  unfold Js.substring0. revert s.
  induction n as [|n IH]; intros [|c s] H; simpl in *; try lia.
  - destruct t; reflexivity.
  - destruct t; reflexivity.
  - rewrite IH; [reflexivity | lia].
Qed.

Lemma substring0_prefix (n : nat) (s : string) :
  String.prefix (Js.substring0 n s) s = true.
Proof.
  unfold Js.substring0. revert s.
  induction n as [|n IH]; intros [|c s]; simpl; try reflexivity.
  destruct (ascii_dec c c) as [_|E]; [apply IH | now elim E].
Qed.

Lemma replicate_length (n : nat) (c : ascii) :
  String.length (replicate n c) = n.
Proof. induction n; simpl; congruence. Qed.

(** Decimal digits: no more of them than binary digits. *)
Lemma nb_digits_double_bounds (d : Decimal.uint) :
  (Decimal.nb_digits (Decimal.Little.double d) <= S (Decimal.nb_digits d))%nat
  /\ (Decimal.nb_digits (Decimal.Little.succ_double d)
      <= S (Decimal.nb_digits d))%nat.
Proof.
  induction d as [|d [IH1 IH2]|d [IH1 IH2]|d [IH1 IH2]|d [IH1 IH2]
                  |d [IH1 IH2]|d [IH1 IH2]|d [IH1 IH2]|d [IH1 IH2]
                  |d [IH1 IH2]|d [IH1 IH2]];
    simpl; split; lia.
Qed.

Lemma nb_digits_to_little_uint (p : positive) :
  (Decimal.nb_digits (Pos.to_little_uint p) <= Pos.size_nat p)%nat.
Proof.
  induction p as [p IH|p IH|]; simpl.
  - pose proof (proj2 (nb_digits_double_bounds (Pos.to_little_uint p))). lia.
  - pose proof (proj1 (nb_digits_double_bounds (Pos.to_little_uint p))). lia.
  - lia.
Qed.

Lemma size_nat_bound (p : positive) (n : nat) :
  Z.pos p < 2 ^ Z.of_nat n -> (Pos.size_nat p <= n)%nat.
Proof.
  revert n. induction p as [p IH|p IH|]; intros n H; simpl.
  - destruct n as [|n]; [simpl in H; lia|].
    rewrite Nat2Z.inj_succ, Z.pow_succ_r in H by lia.
    specialize (IH n). lia.
  - destruct n as [|n]; [simpl in H; lia|].
    rewrite Nat2Z.inj_succ, Z.pow_succ_r in H by lia.
    specialize (IH n). lia.
  - destruct n as [|n]; [simpl in H; lia | lia].
Qed.

Lemma string_of_uint_length (d : Decimal.uint) :
  String.length (DecimalString.NilEmpty.string_of_uint d) = Decimal.nb_digits d.
Proof. induction d; simpl; congruence. Qed.

Lemma numberToString_length (z : Z) :
  0 <= z <= MAX_SAFE_INTEGER ->
  (String.length (Js.numberToString z) <= 53)%nat.
Proof.
  intros [H0 H1]. unfold Js.numberToString.
  assert (Hsmall : (Z.abs z <? 10 ^ 21) = true).
  { apply Z.ltb_lt. unfold MAX_SAFE_INTEGER in H1.
    rewrite Z.abs_eq by lia.
    assert (2 ^ 53 - 1 < 10 ^ 21) by reflexivity. lia. }
  rewrite Hsmall.
  destruct z as [|p|p]; [simpl; lia | | lia].
  simpl. unfold DecimalString.NilZero.string_of_uint, Pos.to_uint.
  assert (Hd : (Decimal.nb_digits (Decimal.rev (Pos.to_little_uint p)) <= 53)%nat).
  { rewrite DecimalFacts.nb_digits_rev.
    pose proof (nb_digits_to_little_uint p).
    assert (Pos.size_nat p <= 53)%nat; [|lia].
    apply size_nat_bound. unfold MAX_SAFE_INTEGER in H1.
    change (2 ^ Z.of_nat 53) with (2 ^ 53). lia. }
  destruct (Decimal.rev (Pos.to_little_uint p));
    [simpl; lia | rewrite string_of_uint_length; exact Hd ..].
Qed.

(* ================================================================== *)
(** * Induction on JSON values *)
(* ================================================================== *)

Lemma json_induction (P : json -> Prop) :
  P JNull ->
  (forall b, P (JBool b)) ->
  (forall z, P (JNum z)) ->
  (forall m e, P (JDec m e)) ->
  (forall s, P (JStr s)) ->
  (forall items, Forall P items -> P (JArr items)) ->
  (forall entries, Forall (fun kv => P (snd kv)) entries -> P (JObj entries)) ->
  forall v, P v.
Proof.
  intros HNull HBool HNum HDec HStr HArr HObj.
  fix IH 1. intros [ | b | z | m e | s | items | entries ].
  - exact HNull.
  - apply HBool.
  - apply HNum.
  - apply HDec.
  - apply HStr.
  - apply HArr. revert items. fix IHitems 1. intros [|x items].
    + constructor.
    + constructor; [apply IH | apply IHitems].
  - apply HObj. revert entries. fix IHentries 1. intros [|[k x] entries].
    + constructor.
    + constructor; [apply IH | apply IHentries].
Qed.

(* ================================================================== *)
(** * Stage 2: string truncation *)
(* ================================================================== *)

Section ShaperFacts.

Variable config : WhaleboneConfig.

Lemma truncateString_disabled (s : string) (n : nat) :
  enableTruncation config = false -> truncateString config s n = s.
Proof. intros H. unfold truncateString. now rewrite H. Qed.

Lemma truncateString_short (s : string) (n : nat) :
  (String.length s <= n)%nat -> truncateString config s n = s.
Proof.
  intros H. unfold truncateString.
  apply Nat.leb_le in H. rewrite H. now rewrite orb_true_r.
Qed.

Lemma truncateString_long (s : string) (n : nat) :
  enableTruncation config = true -> (n < String.length s)%nat ->
  truncateString config s n = Js.substring0 n s ++ TRUNCATION_MARKER.
Proof.
  intros He H. unfold truncateString. rewrite He. simpl.
  apply Nat.leb_gt in H. now rewrite H.
Qed.

Lemma truncateString_idempotent (s : string) (n : nat) :
  truncateString config (truncateString config s n) n
  = truncateString config s n.
Proof.
  destruct (enableTruncation config) eqn:He.
  - destruct (Nat.le_gt_cases (String.length s) n) as [H|H].
    + rewrite (truncateString_short s n H). now apply truncateString_short.
    + rewrite (truncateString_long s n He H).
      rewrite truncateString_long; auto.
      * rewrite substring0_append; [reflexivity | lia].
      * rewrite length_append, substring0_length by lia. simpl. lia.
  - now rewrite !truncateString_disabled.
Qed.

Lemma truncateObject_disabled (v : json) :
  enableTruncation config = false -> truncateObject config v = v.
Proof. intros H. destruct v; simpl; now rewrite H. Qed.

Lemma stored_map_In (f : json -> json) (entries : list (string * json))
      (k : string) (v : json) :
  In (k, v) (stored (map (fun kv => (fst kv, f (snd kv))) entries)) ->
  ownKey k = true /\ exists v', In (k, v') entries /\ v = f v'.
Proof.
  unfold stored. rewrite filter_In, in_map_iff.
  intros [([k' v'] & E & Hin) Hk]. simpl in *. injection E as <- <-.
  split; [exact Hk|]. now exists v'.
Qed.

(** The copying loop of [truncateObject]. *)
Lemma truncateObject_object (entries : list (string * json)) :
  enableTruncation config = true ->
  truncateObject config (JObj entries)
  = JObj (stored (map (fun kv => (fst kv, truncateObject config (snd kv)))
                      entries)).
Proof.
  intros He. simpl. rewrite He. simpl. f_equal.
  rewrite <- (app_nil_l (stored _)). generalize (@nil (string * json)).
  induction entries as [|[k v] entries IH]; intros acc; simpl.
  - now rewrite app_nil_r.
  - rewrite IH. unfold assign, stored. simpl. unfold ownKey.
    destruct (String.eqb k "__proto__"); simpl;
      [reflexivity | now rewrite <- app_assoc].
Qed.

Lemma truncateObject_array (items : list json) :
  enableTruncation config = true ->
  truncateObject config (JArr items) = JArr (map (truncateObject config) items).
Proof. intros He. simpl. now rewrite He. Qed.

Lemma stored_stored (entries : list (string * json)) :
  stored (stored entries) = stored entries.
Proof.
  unfold stored. induction entries as [|[k v] entries IH]; simpl;
    [reflexivity|].
  destruct (ownKey k) eqn:E; simpl; rewrite ?E, IH; reflexivity.
Qed.

Lemma stored_map (f : json -> json) (entries : list (string * json)) :
  stored (map (fun kv => (fst kv, f (snd kv))) entries)
  = map (fun kv => (fst kv, f (snd kv))) (stored entries).
Proof.
  unfold stored. induction entries as [|[k v] entries IH]; simpl;
    [reflexivity|].
  destruct (ownKey k); simpl; now rewrite IH.
Qed.

Lemma stored_plain (entries : list (string * json)) :
  forallb (fun kv => ownKey (fst kv)) entries = true ->
  stored entries = entries.
Proof.
  unfold stored. induction entries as [|[k v] entries IH]; simpl;
    [reflexivity|].
  intros H. apply andb_true_iff in H. destruct H as [Hk H].
  rewrite Hk. now rewrite IH.
Qed.

Lemma stored_plainTop (entries : list (string * json)) :
  forallb (fun kv => ownKey (fst kv)) (stored entries) = true.
Proof.
  unfold stored. apply forallb_forall. intros kv H.
  now apply filter_In in H.
Qed.

Lemma truncateObject_idempotent (v : json) :
  truncateObject config (truncateObject config v) = truncateObject config v.
Proof.
  destruct (enableTruncation config) eqn:He;
    [| now rewrite !truncateObject_disabled].
  induction v as [ | b | z | dm de | s | items IH | entries IH ] using json_induction;
    try (simpl; rewrite ?He; simpl; rewrite ?He; reflexivity).
  - simpl. rewrite He. simpl. rewrite He. simpl.
    now rewrite truncateString_idempotent.
  - rewrite !truncateObject_array by exact He.
    f_equal. rewrite map_map. apply map_ext_in.
    intros x Hx. rewrite Forall_forall in IH. now apply IH.
  - rewrite !truncateObject_object by exact He. f_equal.
    rewrite (stored_map (truncateObject config)), stored_stored.
    rewrite <- (stored_map (truncateObject config)).
    rewrite map_map. simpl. f_equal. apply map_ext_in.
    intros [k x] Hx. rewrite Forall_forall in IH. simpl.
    f_equal. exact (IH (k, x) Hx).
Qed.

Lemma truncateObject_shortStrings (v : json) :
  shortStrings v = true -> plainKeys v = true -> truncateObject config v = v.
Proof.
  destruct (enableTruncation config) eqn:He;
    [| intros _ _; now apply truncateObject_disabled].
  induction v as [ | b | z | dm de | s | items IH | entries IH ] using json_induction;
    try (simpl; rewrite ?He; reflexivity).
  - simpl. rewrite He. simpl. intros H _.
    apply Nat.leb_le in H. now rewrite truncateString_short.
  - rewrite truncateObject_array by exact He. simpl. intros H Hp.
    f_equal. rewrite <- (map_id items) at 2. apply map_ext_in.
    intros x Hx. rewrite Forall_forall in IH. rewrite forallb_forall in H, Hp.
    auto.
  - rewrite truncateObject_object by exact He. simpl. intros H Hp.
    f_equal. rewrite forallb_forall in H, Hp. rewrite Forall_forall in IH.
    rewrite stored_plain.
    + rewrite <- (map_id entries) at 2. apply map_ext_in.
      intros [k x] Hx. simpl. f_equal.
      specialize (Hp _ Hx). apply andb_true_iff in Hp.
      apply (IH (k, x) Hx); [exact (H (k, x) Hx) | apply Hp].
    + apply forallb_forall. intros kv Hin. apply in_map_iff in Hin.
      destruct Hin as (kv' & <- & Hin). simpl.
      specialize (Hp _ Hin). apply andb_true_iff in Hp. apply Hp.
Qed.

Lemma truncateObject_isArray (v : json) :
  isArray (truncateObject config v) = isArray v.
Proof. destruct v; simpl; destruct (enableTruncation config); reflexivity. Qed.

Lemma truncateObject_plainTop (v : json) :
  plainTop v = true -> plainTop (truncateObject config v) = true.
Proof.
  destruct (enableTruncation config) eqn:He;
    [| now rewrite truncateObject_disabled].
  destruct v; try (simpl; rewrite ?He; simpl; reflexivity).
  intros _. rewrite truncateObject_object by exact He. simpl.
  apply stored_plainTop.
Qed.

End ShaperFacts.

(* ================================================================== *)
(** * Stage 1: result-count limiting *)
(* ================================================================== *)

Lemma slice0_nonneg {A : Type} (a : list A) (e : Z) :
  0 <= e -> Js.slice0 a e = firstn (Z.to_nat e) a.
Proof.
  intros H. unfold Js.slice0.
  destruct (Z.ltb_spec e 0) as [Hlt|_]; [lia|].
  destruct (Z.le_gt_cases e (Z.of_nat (List.length a))) as [Hle|Hgt].
  - now rewrite Z.min_l.
  - rewrite Z.min_r, Nat2Z.id by lia.
    rewrite firstn_all. symmetry. apply firstn_all2. lia.
Qed.

Lemma slice0_all {A : Type} (a : list A) (e : Z) :
  Z.of_nat (List.length a) <= e -> Js.slice0 a e = a.
Proof.
  intros H. rewrite slice0_nonneg by lia. apply firstn_all2. lia.
Qed.

Lemma slice0_length_le {A : Type} (a : list A) (e : Z) :
  (List.length (Js.slice0 a e) <= List.length a)%nat.
Proof. unfold Js.slice0. rewrite length_firstn. lia. Qed.

Lemma slice0_length {A : Type} (a : list A) (e : Z) :
  0 <= e <= Z.of_nat (List.length a) ->
  Z.of_nat (List.length (Js.slice0 a e)) = e.
Proof.
  intros H. rewrite slice0_nonneg by lia. rewrite length_firstn. lia.
Qed.

Lemma slice0_In {A : Type} (a : list A) (e : Z) (x : A) :
  In x (Js.slice0 a e) -> In x a.
Proof.
  unfold Js.slice0. intros H.
  rewrite <- (firstn_skipn (Z.to_nat
    (if e <? 0 then Z.max (Z.of_nat (List.length a) + e) 0
     else Z.min e (Z.of_nat (List.length a)))) a).
  apply in_or_app. now left.
Qed.

Lemma limitResults_array (items : list json) (maxResults : Z) :
  limitResults (JArr items) maxResults = limitSequence items maxResults.
Proof. reflexivity. Qed.

(** The copying loop of [limitResults]. *)
Lemma limitResults_object (entries : list (string * json)) (maxResults : Z) :
  limitResults (JObj entries) maxResults
  = JObj (stored (map (fun kv => (fst kv, limitValue maxResults (snd kv)))
                      entries)).
Proof.
  simpl. f_equal.
  rewrite <- (app_nil_l (stored _)). generalize (@nil (string * json)).
  induction entries as [|[k v] entries IH]; intros acc; simpl.
  - now rewrite app_nil_r.
  - rewrite IH. unfold assign, stored. simpl. unfold ownKey.
    destruct v; simpl; destruct (String.eqb k "__proto__"); simpl;
      rewrite <- ?app_assoc; reflexivity.
Qed.

Lemma limitOneLevel_object (entries : list (string * json)) (maxResults : Z) :
  limitOneLevel (JObj entries) maxResults
  = JObj (map (fun kv => (fst kv, limitValue maxResults (snd kv))) entries).
Proof.
  simpl. f_equal. apply map_ext. intros [k v]. now destruct v.
Qed.

Lemma limitResults_limitOneLevel (data : json) (maxResults : Z) :
  plainTop data = true ->
  limitResults data maxResults = limitOneLevel data maxResults.
Proof.
  destruct data as [ | b | z | dm de | s | items | entries ]; try reflexivity.
  intros H. rewrite limitResults_object, limitOneLevel_object.
  rewrite stored_plain; [reflexivity|].
  simpl in H. rewrite forallb_forall in *. intros kv Hin.
  apply in_map_iff in Hin. destruct Hin as (kv' & <- & Hin). simpl. auto.
Qed.

Lemma limitSequence_withinCount (items : list json) (maxResults : Z) :
  0 <= maxResults -> withinCount maxResults (limitSequence items maxResults).
Proof.
  intros H. unfold limitSequence.
  destruct (Z.gtb_spec (Z.of_nat (List.length items)) maxResults) as [Hgt|Hle].
  - simpl. repeat constructor; simpl.
    rewrite slice0_length; lia.
  - simpl. pose proof (slice0_length_le items maxResults). lia.
Qed.

Lemma limitResults_withinCount (data : json) (maxResults : Z) :
  0 <= maxResults -> withinCount maxResults (limitResults data maxResults).
Proof.
  intros H.
  destruct data as [ | b | z | dm de | s | items | entries ];
    try (simpl; exact I).
  - now apply limitSequence_withinCount.
  - rewrite limitResults_object. simpl.
    apply Forall_forall. intros [k v] Hin. apply stored_map_In in Hin.
    destruct Hin as (_ & v' & _ & ->). simpl.
    destruct v' as [ | b | z | dm de | s | items | es ]; simpl; auto.
    unfold limitSequence.
    destruct (Z.gtb_spec (Z.of_nat (List.length items)) maxResults); simpl; auto.
    pose proof (slice0_length_le items maxResults). lia.
Qed.

Lemma limitResults_plainTop (data : json) (maxResults : Z) :
  plainTop (limitResults data maxResults) = true.
Proof.
  destruct data as [ | b | z | dm de | s | items | entries ];
    try reflexivity.
  - rewrite limitResults_array. unfold limitSequence.
    destruct (_ >? _); reflexivity.
  - rewrite limitResults_object. simpl. apply stored_plainTop.
Qed.

Lemma withinCount_limitResults (data : json) (maxResults : Z) :
  withinCount maxResults data -> plainTop data = true ->
  limitResults data maxResults = data.
Proof.
  intros H Hp. rewrite limitResults_limitOneLevel by exact Hp.
  destruct data as [ | b | z | dm de | s | items | entries ]; simpl in *; auto.
  - unfold limitSequence.
    destruct (Z.gtb_spec (Z.of_nat (List.length items)) maxResults); [lia|].
    now rewrite slice0_all.
  - f_equal. rewrite <- (map_id entries) at 2. apply map_ext_in.
    intros [k v] Hin. rewrite Forall_forall in H. specialize (H _ Hin).
    simpl in *. destruct v as [ | b | z | dm de | s | items | es ]; auto.
    unfold limitSequence.
    destruct (Z.gtb_spec (Z.of_nat (List.length items)) maxResults); [lia|].
    now rewrite slice0_all.
Qed.

Lemma withinCount_truncateObject (config : WhaleboneConfig) (maxResults : Z)
      (v : json) :
  withinCount maxResults v -> withinCount maxResults (truncateObject config v).
Proof.
  destruct (enableTruncation config) eqn:He;
    [| now rewrite truncateObject_disabled].
  destruct v as [ | b | z | dm de | s | items | entries ];
    try (simpl; rewrite He; simpl; auto; fail).
  - rewrite truncateObject_array by exact He. simpl. now rewrite length_map.
  - rewrite truncateObject_object by exact He. simpl.
    intros H. apply Forall_forall. intros [k v] Hin.
    apply stored_map_In in Hin. destruct Hin as (_ & v' & Hin & ->).
    rewrite Forall_forall in H. specialize (H _ Hin). simpl in *.
    destruct v' as [ | b | z | dm de | s | items | es ];
      try (simpl; rewrite ?He; simpl; auto; fail).
    rewrite truncateObject_array by exact He. now rewrite length_map.
Qed.

(* ================================================================== *)
(** * Stage 3: total-size enforcement *)
(* ================================================================== *)

Lemma maxItemsFor_bound (maxSize len n : Z) :
  0 <= len -> 0 <= n ->
  Z.max 1 (maxItemsFor maxSize len n) <= Z.max 1 maxSize.
Proof.
  intros Hlen Hn. unfold maxItemsFor.
  destruct (Z.eqb_spec n 0) as [_|Hn0]; [lia|].
  assert (Hi : 0 <= len / n) by (apply Z.div_pos; lia).
  destruct (Z.eq_dec (len / n) 0) as [E|E].
  - rewrite E. simpl. rewrite Z.div_0_r_ext by reflexivity. lia.
  - destruct (Z.le_gt_cases 0 maxSize) as [Hm|Hm].
    + assert (4 * maxSize / (5 * (len / n)) <= maxSize); [|lia].
      apply Z.div_le_upper_bound; nia.
    + assert (4 * maxSize / (5 * (len / n)) < 0); [|lia].
      apply Z.div_lt_upper_bound; nia.
Qed.

Lemma sizeMessage_length (shown total : Z) :
  0 <= shown <= MAX_SAFE_INTEGER -> 0 <= total <= MAX_SAFE_INTEGER ->
  (String.length (sizeMessage shown total) <= MAX_STRING_LENGTH)%nat.
Proof.
  intros Hs Ht. unfold sizeMessage, MAX_STRING_LENGTH.
  rewrite !length_append.
  pose proof (numberToString_length shown Hs).
  pose proof (numberToString_length total Ht).
  simpl. lia.
Qed.

(** On every sample the computation on doubles returns the integer of
    the exact computation. *)
Lemma maxItemsFor_agrees_with_doubles :
  forallb Doubles.agrees Doubles.samples = true.
Proof. vm_compute. reflexivity. Qed.

Lemma digitsOf_nonempty (p : positive) :
  (1 <= String.length (Js.digitsOf p))%nat.
Proof.
  unfold Js.digitsOf, DecimalString.NilZero.string_of_uint.
  destruct (Pos.to_uint p); simpl; lia.
Qed.

Lemma positiveText_nonempty (digits : string) (n : Z) :
  (1 <= String.length digits)%nat ->
  (1 <= String.length (Js.positiveText digits n))%nat.
Proof.
  intros H. unfold Js.positiveText.
  destruct (_ && _); [rewrite length_append; lia|].
  destruct (_ && _).
  { destruct (Js.splitAt _ _) as [whole fraction].
    rewrite !length_append. simpl. lia. }
  destruct (_ && _); [simpl; lia|].
  destruct (Js.splitAt 1 digits) as [first others].
  rewrite !length_append. simpl. lia.
Qed.

Lemma numberText_nonempty (m e : Z) :
  (1 <= String.length (Js.numberText m e))%nat.
Proof.
  unfold Js.numberText. destruct m as [|p|p]; [simpl; lia | |].
  - destruct (Js.stripZeros _ _ _) as [d e'].
    apply positiveText_nonempty, digitsOf_nonempty.
  - destruct (Js.stripZeros _ _ _) as [d e']. simpl. lia.
Qed.

Lemma numberToString_nonempty (z : Z) :
  (1 <= String.length (Js.numberToString z))%nat.
Proof.
  unfold Js.numberToString.
  destruct (_ <? _); [| apply numberText_nonempty].
  destruct z as [|p|p]; simpl; try lia.
  unfold DecimalString.NilZero.string_of_uint.
  destruct (Pos.to_uint p); simpl; lia.
Qed.

Lemma quote_length (s : string) : (2 <= String.length (quote s))%nat.
Proof. unfold quote. simpl. rewrite length_append. simpl. lia. Qed.

Lemma bracket_length (opening closing : string) (partial : list string) :
  (String.length opening + String.length closing
   <= String.length (bracket "" "" opening closing partial))%nat.
Proof.
  destruct partial as [|x partial]; unfold bracket.
  - rewrite length_append. lia.
  - rewrite String.eqb_refl, !length_append. lia.
Qed.

Lemma stringify_nonempty (v : json) : (1 <= String.length (stringify v))%nat.
Proof.
  destruct v as [ | b | z | dm de | s | items | entries ]; unfold stringify; simpl.
  - lia.
  - destruct b; simpl; lia.
  - apply numberToString_nonempty.
  - apply numberText_nonempty.
  - pose proof (quote_length s). lia.
  - pose proof (bracket_length "[" "]" (map (serialize "" "") items)) as H.
    simpl in H. lia.
  - match goal with |- (1 <= String.length (bracket _ _ _ _ ?l))%nat =>
      pose proof (bracket_length "{" "}" l) as H
    end.
    simpl in H. lia.
Qed.

Lemma concat_comma_length (parts : list string) :
  (forall s, In s parts -> (1 <= String.length s)%nat) ->
  (2 * List.length parts <= String.length (String.concat "," parts) + 1)%nat.
Proof.
  induction parts as [|x [|y rest] IH]; intros Hall; simpl in *; try lia.
  - specialize (Hall x (or_introl eq_refl)). lia.
  - rewrite length_append.
    assert (Hx : (1 <= String.length x)%nat) by (apply Hall; auto).
    assert (Hrest : forall s, y = s \/ In s rest -> (1 <= String.length s)%nat)
      by (intros s Hs; apply Hall; auto).
    specialize (IH Hrest). simpl. lia.
Qed.

(** A serialized array of [n] elements is at least [2 n + 1] units long. *)
Lemma array_size_lower_bound (items : list json) :
  2 * Z.of_nat (List.length items) + 1 <= size (JArr items).
Proof.
  unfold size, stringify.
  change (serialize "" "" (JArr items))
    with (bracket "" "" "[" "]" (map (serialize "" "") items)).
  assert (Hparts : forall s, In s (map (serialize "" "") items) ->
                             (1 <= String.length s)%nat).
  { intros s Hs. apply in_map_iff in Hs. destruct Hs as (v & <- & _).
    apply stringify_nonempty. }
  pose proof (concat_comma_length _ Hparts) as Hc. rewrite length_map in Hc.
  unfold bracket.
  destruct (map (serialize "" "") items) as [|p ps] eqn:Em.
  - destruct items; [simpl; lia | discriminate Em].
  - rewrite String.eqb_refl, !length_append.
    change (String.length "[") with 1%nat.
    change (String.length "]") with 1%nat. lia.
Qed.

(** So [itemSize], the floor of the average, is never [0] for a non-empty
    array: the division by it in [maxItemsFor] is a division by at least 2. *)
Lemma itemSize_at_least_2 (items : list json) :
  items <> [] ->
  2 <= size (JArr items) / Z.of_nat (List.length items).
Proof.
  intros Hne. pose proof (array_size_lower_bound items).
  assert (0 < Z.of_nat (List.length items))
    by (destruct items; [congruence | simpl; lia]).
  apply Z.div_le_lower_bound; lia.
Qed.

Lemma map_fixed_In {A : Type} (f : A -> A) (l : list A) :
  map f l = l -> forall x, In x l -> f x = x.
Proof.
  induction l as [|a l IH]; simpl; intros E x Hx; [contradiction|].
  injection E as Ea El. destruct Hx as [<-|Hx]; [exact Ea | now apply IH].
Qed.

Lemma map_fixed_slice0 {A : Type} (f : A -> A) (l : list A) (e : Z) :
  map f l = l -> map f (Js.slice0 l e) = Js.slice0 l e.
Proof.
  intros E. rewrite <- (map_id (Js.slice0 l e)) at 2. apply map_ext_in.
  intros x Hx. apply (map_fixed_In f l E). now apply slice0_In in Hx.
Qed.

Section Stage3.

Variable config : WhaleboneConfig.

Lemma enforceResponseSize_fits (v : json) :
  size v <= maxResponseSizeOf config -> enforceResponseSize config v = v.
Proof.
  intros H. unfold enforceResponseSize. unfold size in H.
  apply Z.leb_le in H. now rewrite H.
Qed.

Lemma enforceResponseSize_array (items : list json) :
  maxResponseSizeOf config < size (JArr items) ->
  enforceResponseSize config (JArr items)
  = let shown :=
      Z.max 1 (maxItemsFor (maxResponseSizeOf config) (size (JArr items))
                           (Z.of_nat (List.length items))) in
    wrapper (Js.slice0 items shown) (Z.of_nat (List.length items)) shown
            (sizeMessage shown (Z.of_nat (List.length items))).
Proof.
  intros H. unfold enforceResponseSize. unfold size in *.
  apply Z.leb_gt in H. now rewrite H.
Qed.

Lemma enforceResponseSize_other (v : json) :
  maxResponseSizeOf config < size v -> isArray v = false ->
  enforceResponseSize config v = truncateObject config v.
Proof.
  intros H Ha. unfold enforceResponseSize. unfold size in *.
  apply Z.leb_gt in H. rewrite H. destruct v; try reflexivity. discriminate.
Qed.

Lemma truncateObject_wrapper (items : list json) (total returned e : Z)
      (message : string) :
  truncateObject config (JArr items) = JArr items ->
  (String.length message <= MAX_STRING_LENGTH)%nat ->
  truncateObject config (wrapper (Js.slice0 items e) total returned message)
  = wrapper (Js.slice0 items e) total returned message.
Proof.
  intros Hfix Hlen.
  destruct (enableTruncation config) eqn:He;
    [| now rewrite truncateObject_disabled].
  rewrite truncateObject_array in Hfix by exact He. injection Hfix as Hmap.
  unfold wrapper. rewrite truncateObject_object by exact He.
  cbn [map stored filter fst snd ownKey String.eqb Ascii.eqb Bool.eqb negb].
  rewrite truncateObject_array by exact He.
  rewrite (map_fixed_slice0 _ _ e Hmap).
  cbn [truncateObject]. rewrite He. cbn [negb].
  now rewrite truncateString_short.
Qed.

(** What stage 3 returns for a value that stages 1 and 2 leave alone is
    again left alone by all three stages. *)
Lemma enforceResponseSize_settled (v : json) :
  usableLimits config ->
  withinCount (maxResultsOf config) v ->
  truncateObject config v = v ->
  let w := enforceResponseSize config v in
  withinCount (maxResultsOf config) w
  /\ truncateObject config w = w
  /\ enforceResponseSize config w = w.
Proof.
  intros [[HM0 HM1] HS] Hcount Hfix. simpl.
  destruct (Z.le_gt_cases (size v) (maxResponseSizeOf config)) as [Hfit|Hbig].
  - rewrite (enforceResponseSize_fits v Hfit).
    repeat split; auto. now apply enforceResponseSize_fits.
  - destruct v as [ | b | z | dm de | s | items | entries ].
    6: {
      rewrite (enforceResponseSize_array items) by lia. cbv zeta.
      set (shown := Z.max 1 _).
      assert (Hshown : 1 <= shown <= MAX_SAFE_INTEGER).
      { subst shown. split; [lia|].
        pose proof (maxItemsFor_bound (maxResponseSizeOf config)
                      (size (JArr items)) (Z.of_nat (List.length items))).
        unfold size in *. unfold MAX_SAFE_INTEGER in *. lia. }
      simpl in Hcount.
      assert (Hmsg : (String.length
                        (sizeMessage shown (Z.of_nat (List.length items)))
                      <= MAX_STRING_LENGTH)%nat)
        by (apply sizeMessage_length; lia).
      assert (Hw : truncateObject config
                     (wrapper (Js.slice0 items shown)
                        (Z.of_nat (List.length items)) shown
                        (sizeMessage shown (Z.of_nat (List.length items))))
                   = wrapper (Js.slice0 items shown)
                       (Z.of_nat (List.length items)) shown
                       (sizeMessage shown (Z.of_nat (List.length items))))
        by now apply truncateObject_wrapper.
      repeat split.
      - simpl. repeat constructor; simpl.
        pose proof (slice0_length_le items shown). lia.
      - exact Hw.
      - match goal with |- enforceResponseSize _ ?w = _ =>
          destruct (Z.le_gt_cases (size w) (maxResponseSizeOf config))
            as [Hfit|Hbig']
        end.
        + now apply enforceResponseSize_fits.
        + rewrite enforceResponseSize_other; auto. }
    all: rewrite enforceResponseSize_other by (auto; lia);
      rewrite Hfix; repeat split; auto;
      rewrite enforceResponseSize_other by (auto; lia); exact Hfix.
Qed.

Lemma enforceResponseSize_plainTop (v : json) :
  plainTop v = true -> plainTop (enforceResponseSize config v) = true.
Proof.
  intros Hp.
  destruct (Z.le_gt_cases (size v) (maxResponseSizeOf config)) as [Hfit|Hbig].
  - now rewrite enforceResponseSize_fits.
  - destruct (isArray v) eqn:Ha.
    + destruct v; try discriminate Ha.
      now rewrite enforceResponseSize_array.
    + rewrite enforceResponseSize_other by assumption.
      now apply truncateObject_plainTop.
Qed.

End Stage3.

(* ================================================================== *)
(** * The pipeline *)
(* ================================================================== *)

Section Pipeline.

Variable config : WhaleboneConfig.

Lemma processResponse_staged (data : json) :
  processResponse config data = enforceResponseSize config (staged config data).
Proof. reflexivity. Qed.

Lemma staged_settled (data : json) :
  0 <= maxResultsOf config ->
  withinCount (maxResultsOf config) (staged config data)
  /\ truncateObject config (staged config data) = staged config data.
Proof.
  intros H. split.
  - apply withinCount_truncateObject. now apply limitResults_withinCount.
  - apply truncateObject_idempotent.
Qed.

Lemma processResponse_plainTop (data : json) :
  plainTop (processResponse config data) = true.
Proof.
  rewrite processResponse_staged. apply enforceResponseSize_plainTop.
  unfold staged. apply truncateObject_plainTop, limitResults_plainTop.
Qed.

(** Stage 2 on a wrapper, field by field. *)
Lemma truncateObject_wrapper_shape (results : list json)
      (total returned : Z) (message : string) :
  truncateObject config (wrapper results total returned message)
  = JObj [ ("results", truncateObject config (JArr results));
           ("total_available", JNum total);
           ("returned", JNum returned);
           ("truncated", JBool true);
           ("message", JStr (truncateString config message
                                            MAX_STRING_LENGTH)) ].
Proof.
  destruct (enableTruncation config) eqn:He.
  - unfold wrapper. rewrite truncateObject_object by exact He.
    cbn [map stored filter fst snd ownKey String.eqb Ascii.eqb Bool.eqb negb].
    cbn [truncateObject]. rewrite He. reflexivity.
  - rewrite !truncateObject_disabled by exact He.
    now rewrite truncateString_disabled.
Qed.

(** Over a top-level array longer than [maxResults] the three stages give
    the stage-1 wrapper passed through stage 2. *)
Lemma processResponse_longer_array (items : list json) :
  maxResultsOf config < Z.of_nat (List.length items) ->
  processResponse config (JArr items)
  = truncateObject config
      (wrapper (Js.slice0 items (maxResultsOf config))
               (Z.of_nat (List.length items))
               (Z.of_nat (List.length (Js.slice0 items (maxResultsOf config))))
               (limitMessage (maxResultsOf config)
                             (Z.of_nat (List.length items)))).
Proof.
  intros H. rewrite processResponse_staged. unfold staged.
  rewrite limitResults_array. unfold limitSequence.
  destruct (Z.gtb_spec (Z.of_nat (List.length items)) (maxResultsOf config));
    [|lia].
  match goal with |- enforceResponseSize _ ?w = _ =>
    destruct (Z.le_gt_cases (size w) (maxResponseSizeOf config)) as [Hf|Hb]
  end.
  - now apply enforceResponseSize_fits.
  - rewrite enforceResponseSize_other; auto.
    + apply truncateObject_idempotent.
    + now rewrite truncateObject_isArray.
Qed.

(** Over a top-level array longer than [maxResults] the three stages give
    the stage-1 wrapper with every kept element passed through stage 2. *)
Lemma processResponse_long_array (items : list json) :
  0 <= maxResultsOf config < Z.of_nat (List.length items) ->
  processResponse config (JArr items)
  = truncateObject config
      (wrapper (firstn (Z.to_nat (maxResultsOf config)) items)
               (Z.of_nat (List.length items))
               (maxResultsOf config)
               (limitMessage (maxResultsOf config)
                             (Z.of_nat (List.length items)))).
Proof.
  intros H. rewrite processResponse_staged. unfold staged.
  rewrite limitResults_array. unfold limitSequence.
  destruct (Z.gtb_spec (Z.of_nat (List.length items)) (maxResultsOf config));
    [|lia].
  rewrite slice0_length by lia. rewrite slice0_nonneg by lia.
  match goal with |- enforceResponseSize _ ?w = _ =>
    destruct (Z.le_gt_cases (size w) (maxResponseSizeOf config)) as [Hf|Hb]
  end.
  - now apply enforceResponseSize_fits.
  - rewrite enforceResponseSize_other; auto.
    + apply truncateObject_idempotent.
    + now rewrite truncateObject_isArray.
Qed.

End Pipeline.

(* ================================================================== *)
(** * Properties of the response shaper *)
(* ================================================================== *)

(** C3. Idempotence of the pipeline: for a configuration with usable
    limits, shaping an already shaped response returns it unchanged,
    whatever the JSON value was, the oversized-object fallback of stage 3
    included. *)
Theorem processResponse_idempotent (config : WhaleboneConfig) (data : json) :
  usableLimits config ->
  processResponse config (processResponse config data)
  = processResponse config data.
Proof.
  intros Hu.
  assert (H0 : 0 <= maxResultsOf config) by (destruct Hu as [[? ?] ?]; lia).
  destruct (staged_settled config data H0) as [Hcount Hfix].
  destruct (enforceResponseSize_settled config (staged config data)
              Hu Hcount Hfix) as (Hc & Ht & He).
  rewrite (processResponse_staged config data).
  rewrite processResponse_staged. unfold staged at 1.
  rewrite (withinCount_limitResults _ _ Hc).
  - rewrite Ht. exact He.
  - rewrite <- processResponse_staged. apply processResponse_plainTop.
Qed.

Lemma processResponse_idempotent_witness :
  usableLimits defaultConfig
  /\ processResponse defaultConfig (processResponse defaultConfig sixtyNumbers)
     = processResponse defaultConfig sixtyNumbers.
Proof.
  assert (H : usableLimits defaultConfig)
    by (repeat split; vm_compute; (reflexivity || discriminate)).
  split; [exact H | exact (processResponse_idempotent defaultConfig sixtyNumbers H)].
Defined.

(** C4, as worded: the [results] of the wrapper the shaper returns are not
    always the first [maxResults] elements of the input.  Of fifty-one
    strings of 1001 units the shaper keeps fifty, each cut by stage 2 to
    1000 units and the marker. *)
Lemma long_sequence_results_changed :
  let items := repeat (JStr (replicate 1001 "a")) 51 in
  maxResultsOf defaultConfig < Z.of_nat (List.length items)
  /\ field "results" (processResponse defaultConfig (JArr items))
     <> Some (JArr (firstn 50 items)).
Proof.
  intros items. split; [vm_compute; reflexivity|].
  intros H.
  assert (E : option_map size
                (field "results" (processResponse defaultConfig (JArr items)))
              = option_map size (Some (JArr (firstn 50 items))))
    by now rewrite H.
  vm_compute in E. discriminate E.
Qed.

(** C4, amended.  For a sequence longer than [maxResults] the shaper
    returns the wrapper of stage 1 passed through stage 2:
    [total_available] is the original length, [truncated] is true,
    [returned] is the number of elements kept and [results] holds the kept
    elements, in their order, each passed through stage 2.  For a
    non-negative [maxResults] the kept elements are the first [maxResults]
    ones and [returned] is [maxResults].  [results] holds the kept
    elements unchanged when truncation is off, or when no string inside
    them is longer than 1000 units and no object inside them has the key
    [__proto__]. *)
Theorem long_sequence_wrapper (config : WhaleboneConfig)
        (items : list json) :
  maxResultsOf config < Z.of_nat (List.length items) ->
  let kept := Js.slice0 items (maxResultsOf config) in
  let out := processResponse config (JArr items) in
  limitResults (JArr items) (maxResultsOf config)
  = wrapper kept (Z.of_nat (List.length items))
            (Z.of_nat (List.length kept))
            (limitMessage (maxResultsOf config)
                          (Z.of_nat (List.length items)))
  /\ out = truncateObject config
             (limitResults (JArr items) (maxResultsOf config))
  /\ field "total_available" out
     = Some (JNum (Z.of_nat (List.length items)))
  /\ field "truncated" out = Some (JBool true)
  /\ field "returned" out = Some (JNum (Z.of_nat (List.length kept)))
  /\ field "results" out = Some (truncateObject config (JArr kept))
  /\ (0 <= maxResultsOf config ->
      kept = firstn (Z.to_nat (maxResultsOf config)) items
      /\ Z.of_nat (List.length kept) = maxResultsOf config)
  /\ (enableTruncation config = true ->
      field "results" out = Some (JArr (map (truncateObject config) kept)))
  /\ (enableTruncation config = false
      \/ (shortStrings (JArr kept) = true /\ plainKeys (JArr kept) = true) ->
      field "results" out = Some (JArr kept)).
Proof.
  intros Hlt kept out.
  assert (H1 : limitResults (JArr items) (maxResultsOf config)
               = wrapper kept (Z.of_nat (List.length items))
                   (Z.of_nat (List.length kept))
                   (limitMessage (maxResultsOf config)
                      (Z.of_nat (List.length items)))).
  { rewrite limitResults_array. unfold limitSequence.
    destruct (Z.gtb_spec (Z.of_nat (List.length items))
                (maxResultsOf config)); [reflexivity | lia]. }
  assert (Hout : out = truncateObject config
                         (limitResults (JArr items) (maxResultsOf config))).
  { subst out. rewrite H1. now apply processResponse_longer_array. }
  assert (Hresults : field "results" out
                     = Some (truncateObject config (JArr kept))).
  { rewrite Hout, H1, truncateObject_wrapper_shape. reflexivity. }
  split; [exact H1|]. split; [exact Hout|].
  split; [rewrite Hout, H1, truncateObject_wrapper_shape; reflexivity|].
  split; [rewrite Hout, H1, truncateObject_wrapper_shape; reflexivity|].
  split; [rewrite Hout, H1, truncateObject_wrapper_shape; reflexivity|].
  split; [exact Hresults|].
  split; [| split].
  - intros H0. subst kept. split.
    + now apply slice0_nonneg.
    + apply slice0_length. lia.
  - intros He. rewrite Hresults. now rewrite truncateObject_array.
  - intros [Hoff | [Hshort Hplain]]; rewrite Hresults; f_equal.
    + now apply truncateObject_disabled.
    + now apply truncateObject_shortStrings.
Qed.

Lemma long_sequence_wrapper_witness :
  let items := [JNum 1; JStr "b"; JNull; JNum 4] in
  let config := {| accessKey := ""; secretKey := "";
                   baseUrl := "https://api.whalebone.io/whalebone/2";
                   maxResults := Some 2;
                   maxResponseSize := Some DEFAULT_MAX_RESPONSE_SIZE;
                   enableTruncation := true |} in
  maxResultsOf config < Z.of_nat (List.length items)
  /\ field "results" (processResponse config (JArr items))
     = Some (JArr [JNum 1; JStr "b"])
  /\ field "returned" (processResponse config (JArr items)) = Some (JNum 2)
  /\ field "total_available" (processResponse config (JArr items))
     = Some (JNum 4).
Proof.
  intros items config.
  assert (H1 : maxResultsOf config < Z.of_nat (List.length items))
    by (vm_compute; reflexivity).
  pose proof (long_sequence_wrapper config items H1)
    as (_ & _ & Ht & _ & Hn & _ & _ & _ & Hr).
  split; [exact H1 | split; [| split; [exact Hn | exact Ht]]].
  apply Hr. right. split; reflexivity.
Defined.

(** C5, as worded: the whole shaper is not the identity on every sequence
    of at most [maxResults] elements.  One string of 1001 units in a
    one-element array is shortened by stage 2. *)
Lemma short_sequence_changed :
  let items := [JStr (replicate 1001 "a")] in
  Z.of_nat (List.length items) <= maxResultsOf defaultConfig
  /\ processResponse defaultConfig (JArr items) <> JArr items.
Proof.
  intros items. split; [vm_compute; discriminate|].
  intros H.
  assert (E : size (processResponse defaultConfig (JArr items))
              = size (JArr items)) by now rewrite H.
  vm_compute in E. discriminate E.
Qed.

(** C5, amended.  On a sequence of at most [maxResults] elements stage 1 is
    the identity.  The whole shaper returns it unchanged exactly when
    stage 2 leaves it unchanged and its serialization fits
    [maxResponseSize]; stage 2 leaves it unchanged when truncation is off,
    or when no string inside is longer than 1000 units and no object
    inside has the key [__proto__]. *)
Theorem short_sequence_identity (config : WhaleboneConfig)
        (items : list json) :
  Z.of_nat (List.length items) <= maxResultsOf config ->
  limitResults (JArr items) (maxResultsOf config) = JArr items
  /\ (processResponse config (JArr items) = JArr items
      <-> truncateObject config (JArr items) = JArr items
          /\ size (JArr items) <= maxResponseSizeOf config)
  /\ (enableTruncation config = false
      \/ (shortStrings (JArr items) = true
          /\ plainKeys (JArr items) = true) ->
      size (JArr items) <= maxResponseSizeOf config ->
      processResponse config (JArr items) = JArr items).
Proof.
  intros Hlen.
  assert (H1 : limitResults (JArr items) (maxResultsOf config) = JArr items)
    by now apply withinCount_limitResults.
  assert (Hback : truncateObject config (JArr items) = JArr items ->
                  size (JArr items) <= maxResponseSizeOf config ->
                  processResponse config (JArr items) = JArr items).
  { intros Hfix Hfit. rewrite processResponse_staged. unfold staged.
    rewrite H1, Hfix. now apply enforceResponseSize_fits. }
  split; [exact H1|]. split; [split|].
  - intros H. rewrite processResponse_staged in H. unfold staged in H.
    rewrite H1 in H.
    destruct (truncateObject config (JArr items)) as [ | | | | | items' | ] eqn:Ey;
      try (pose proof (truncateObject_isArray config (JArr items)) as Ha;
           rewrite Ey in Ha; discriminate Ha).
    destruct (Z.le_gt_cases (size (JArr items')) (maxResponseSizeOf config))
      as [Hfit|Hbig].
    + rewrite (enforceResponseSize_fits _ _ Hfit) in H.
      split; [exact H | now rewrite <- H].
    + rewrite (enforceResponseSize_array _ _ Hbig) in H. discriminate H.
  - intros [Hfix Hfit]. now apply Hback.
  - intros [Hoff|[Hshort Hplain]] Hfit; apply Hback; auto.
    + now apply truncateObject_disabled.
    + now apply truncateObject_shortStrings.
Qed.

Lemma short_sequence_identity_witness :
  let items := [JNum 1; JStr "two"; JArr [JNull]] in
  Z.of_nat (List.length items) <= maxResultsOf defaultConfig
  /\ limitResults (JArr items) (maxResultsOf defaultConfig) = JArr items
  /\ processResponse defaultConfig (JArr items) = JArr items.
Proof.
  intros items.
  assert (H : Z.of_nat (List.length items) <= maxResultsOf defaultConfig)
    by (vm_compute; discriminate).
  destruct (short_sequence_identity defaultConfig items H) as (H1 & _ & H3).
  split; [exact H | split; [exact H1 |]].
  apply H3; [right; split; reflexivity | vm_compute; discriminate].
Defined.

(** C6, as worded: the shortened string is not 1001 units plus the marker
    long.  For a string of 1001 units the result has 1015 units, the marker
    having 15. *)
Lemma truncated_length_not_1001 :
  let s := replicate 1001 "a" in
  enableTruncation defaultConfig = true
  /\ (1000 < String.length s)%nat
  /\ String.length (truncateString defaultConfig s MAX_STRING_LENGTH)
     <> (1001 + String.length TRUNCATION_MARKER)%nat.
Proof.
  intros s. split; [reflexivity|]. split.
  - subst s. rewrite replicate_length. lia.
  - vm_compute. discriminate.
Qed.

(** C6, amended.  With truncation enabled, a string longer than 1000 units
    becomes its first 1000 units followed by the marker: exactly 1000 units
    plus the 15 of the marker, 1015 in all. *)
Theorem truncateString_long_string (config : WhaleboneConfig) (s : string) :
  enableTruncation config = true ->
  (MAX_STRING_LENGTH < String.length s)%nat ->
  let out := truncateString config s MAX_STRING_LENGTH in
  out = Js.substring0 MAX_STRING_LENGTH s ++ TRUNCATION_MARKER
  /\ String.prefix (Js.substring0 MAX_STRING_LENGTH s) s = true
  /\ String.length (Js.substring0 MAX_STRING_LENGTH s) = MAX_STRING_LENGTH
  /\ String.length out
     = (MAX_STRING_LENGTH + String.length TRUNCATION_MARKER)%nat
  /\ String.length out = 1015%nat.
Proof.
  intros He Hlen out. subst out.
  rewrite (truncateString_long config s MAX_STRING_LENGTH He Hlen).
  assert (Hsub : String.length (Js.substring0 MAX_STRING_LENGTH s)
                 = MAX_STRING_LENGTH) by (apply substring0_length; lia).
  repeat split.
  - apply substring0_prefix.
  - exact Hsub.
  - now rewrite length_append, Hsub.
  - rewrite length_append, Hsub. reflexivity.
Qed.

Lemma truncateString_long_string_witness :
  let s := replicate 1234 "x" in
  enableTruncation defaultConfig = true
  /\ (MAX_STRING_LENGTH < String.length s)%nat
  /\ truncateString defaultConfig s MAX_STRING_LENGTH
     = replicate 1000 "x" ++ "... [truncated]"
  /\ String.length (truncateString defaultConfig s MAX_STRING_LENGTH)
     = 1015%nat.
Proof.
  intros s.
  assert (He : enableTruncation defaultConfig = true) by reflexivity.
  assert (Hl : (MAX_STRING_LENGTH < String.length s)%nat)
    by (subst s; rewrite replicate_length; unfold MAX_STRING_LENGTH; lia).
  destruct (truncateString_long_string defaultConfig s He Hl)
    as (Hout & _ & _ & _ & H1015).
  split; [exact He | split; [exact Hl | split; [| exact H1015]]].
  rewrite Hout. vm_compute. reflexivity.
Defined.

(** C7, at the failing input.  The top-level object
    [{"__proto__": [1, 2, 3]}] has a sequence directly under it, longer
    than a [maxResults] of 2.  The walk of one level replaces the sequence
    by its wrapper; [limitResults] returns the empty object, because
    [result["__proto__"] = ...] stores no entry in [result]. *)
Theorem limitResults_loses_proto_entry :
  let data := JObj [("__proto__", JArr [JNum 1; JNum 2; JNum 3])] in
  limitResults data 2 = JObj []
  /\ limitOneLevel data 2
     = JObj [("__proto__",
              wrapper [JNum 1; JNum 2] 3 2 (limitMessage 2 3))]
  /\ limitResults data 2 <> limitOneLevel data 2.
Proof.
  intros data. split; [reflexivity|]. split; [reflexivity|].
  intros H. discriminate H.
Qed.

(** C1, as worded: with truncation enabled the shaped response is not
    always within [maxResponseSize] short of an oversized single item.
    Under the default configuration take fifty elements, two rows of 25076
    units followed by forty-eight zeros, 50251 units in all.  Stage 3
    estimates 1005 units per element, keeps 39 elements, both rows among
    them, and the wrapper is 50373 units long: over the budget of 50000,
    with no preserved item larger than 25076 units. *)
Lemma twoLargeRows_over_budget :
  enableTruncation defaultConfig = true
  /\ ~ fitsOrHasOversizedItem defaultConfig twoLargeRows.
Proof.
  split; [reflexivity|].
  assert (Hsize : size (processResponse defaultConfig twoLargeRows) = 50373)
    by (vm_compute; reflexivity).
  assert (Hitems : forallb (fun item => size item <=? 25076)
                     (preservedItems (processResponse defaultConfig twoLargeRows))
                   = true)
    by (vm_compute; reflexivity).
  assert (Hmax : maxResponseSizeOf defaultConfig = 50000) by reflexivity.
  unfold fitsOrHasOversizedItem. cbv zeta. rewrite Hmax, Hsize.
  intros [Hfit | (item & Hin & Hbig)]; [lia|].
  rewrite forallb_forall in Hitems. specialize (Hitems item Hin).
  apply Z.leb_le in Hitems. lia.
Qed.

(** The same under the fallback of stage 3 for a value that is not a
    sequence: sixty strings of 1000 units in one object leave the shaper
    60711 units long, none of them over 1002 units. *)
Lemma sixtyNotes_over_budget :
  ~ fitsOrHasOversizedItem defaultConfig sixtyNotes.
Proof.
  assert (Hsize : size (processResponse defaultConfig sixtyNotes) = 60711)
    by (vm_compute; reflexivity).
  assert (Hitems : forallb (fun item => size item <=? 1002)
                     (preservedItems (processResponse defaultConfig sixtyNotes))
                   = true)
    by (vm_compute; reflexivity).
  assert (Hmax : maxResponseSizeOf defaultConfig = 50000) by reflexivity.
  unfold fitsOrHasOversizedItem. cbv zeta. rewrite Hmax, Hsize.
  intros [Hfit | (item & Hin & Hbig)]; [lia|].
  rewrite forallb_forall in Hitems. specialize (Hitems item Hin).
  apply Z.leb_le in Hitems. lia.
Qed.

(** C1, amended.  The shaped response is within [maxResponseSize] whenever
    the value stages 1 and 2 produce already is: stage 3 then returns that
    value.  When that value is larger and is not a sequence, stage 3
    runs the string truncation of stage 2 over it once more, which changes
    nothing: the response is that value, still over the budget.  When it
    is larger and is a sequence, stage 3 returns the wrapper around its
    first [max(1, maxItems)] elements, with no bound on the size of the
    wrapper. *)
Theorem processResponse_size_cases (config : WhaleboneConfig) (data : json) :
  let y := staged config data in
  let out := processResponse config data in
  (size y <= maxResponseSizeOf config ->
   out = y /\ size out <= maxResponseSizeOf config)
  /\ (maxResponseSizeOf config < size y -> isArray y = false ->
      out = truncateObject config y
      /\ out = y /\ maxResponseSizeOf config < size out)
  /\ (forall items,
        maxResponseSizeOf config < size y -> y = JArr items ->
        let shown :=
          Z.max 1 (maxItemsFor (maxResponseSizeOf config) (size y)
                               (Z.of_nat (List.length items))) in
        out = wrapper (Js.slice0 items shown)
                      (Z.of_nat (List.length items)) shown
                      (sizeMessage shown (Z.of_nat (List.length items)))).
Proof.
  intros y out. subst out. rewrite processResponse_staged. fold y.
  split; [| split].
  - intros Hfit. rewrite (enforceResponseSize_fits config y Hfit). auto.
  - intros Hbig Ha. rewrite (enforceResponseSize_other config y Hbig Ha).
    split; [reflexivity|].
    subst y. unfold staged. rewrite truncateObject_idempotent. auto.
  - intros items Hbig Ey. rewrite Ey in *.
    now rewrite (enforceResponseSize_array config items Hbig).
Qed.

(** C2, as worded: with truncation off the shaper is not stage 1 alone.
    Under the default limits fifty strings of 1100 units pass stage 1
    unchanged (fifty elements) and are 55151 units long when serialized, so
    stage 3 replaces the array by a wrapper. *)
Lemma truncation_off_still_enforces :
  enableTruncation truncationOff = false
  /\ processResponse truncationOff fiftyLongStrings
     <> limitResults fiftyLongStrings (maxResultsOf truncationOff).
Proof.
  split; [reflexivity|]. intros H.
  assert (E : isArray (processResponse truncationOff fiftyLongStrings)
              = isArray (limitResults fiftyLongStrings
                                      (maxResultsOf truncationOff)))
    by now rewrite H.
  vm_compute in E. discriminate E.
Qed.

(** C2, amended.  With truncation off, stage 2 is the identity on strings
    and on values, and so is the fallback of stage 3 for a value that is
    not a sequence; stage 1 still applies.  The shaper is then stage 3
    after stage 1: it returns the result of stage 1 when that fits
    [maxResponseSize] or is not a sequence, and the size wrapper around
    its first elements otherwise. *)
Theorem processResponse_truncation_off (config : WhaleboneConfig)
        (data : json) :
  enableTruncation config = false ->
  let limited := limitResults data (maxResultsOf config) in
  (forall s n, truncateString config s n = s)
  /\ (forall v, truncateObject config v = v)
  /\ processResponse config data = enforceResponseSize config limited
  /\ (size limited <= maxResponseSizeOf config \/ isArray limited = false ->
      processResponse config data = limited)
  /\ (forall items,
        maxResponseSizeOf config < size limited -> limited = JArr items ->
        let shown :=
          Z.max 1 (maxItemsFor (maxResponseSizeOf config) (size limited)
                               (Z.of_nat (List.length items))) in
        processResponse config data
        = wrapper (Js.slice0 items shown)
                  (Z.of_nat (List.length items)) shown
                  (sizeMessage shown (Z.of_nat (List.length items)))).
Proof.
  intros Hoff limited.
  assert (Hid : forall v, truncateObject config v = v)
    by (intros v; now apply truncateObject_disabled).
  assert (Hp : processResponse config data = enforceResponseSize config limited).
  { rewrite processResponse_staged. unfold staged. now rewrite Hid. }
  split; [intros s n; now apply truncateString_disabled|].
  split; [exact Hid|]. split; [exact Hp|]. split.
  - intros [Hfit|Ha]; rewrite Hp.
    + now apply enforceResponseSize_fits.
    + destruct (Z.le_gt_cases (size limited) (maxResponseSizeOf config))
        as [Hfit|Hbig].
      * now apply enforceResponseSize_fits.
      * rewrite enforceResponseSize_other; auto.
  - intros items Hbig Ey. rewrite Hp. rewrite Ey in *.
    now rewrite (enforceResponseSize_array config items Hbig).
Qed.

Lemma processResponse_truncation_off_witness :
  enableTruncation truncationOff = false
  /\ truncateObject truncationOff (JStr (replicate 1100 "a"))
     = JStr (replicate 1100 "a")
  /\ processResponse truncationOff sixtyNumbers
     = limitResults sixtyNumbers (maxResultsOf truncationOff).
Proof.
  assert (Hoff : enableTruncation truncationOff = false) by reflexivity.
  destruct (processResponse_truncation_off truncationOff sixtyNumbers Hoff)
    as (_ & Hid & _ & Hsame & _).
  split; [exact Hoff | split; [apply Hid |]].
  apply Hsame. right. reflexivity.
Defined.

(* ================================================================== *)
(** * Properties of the gateway *)
(* ================================================================== *)

Lemma addParam_pairsOf (sp : searchParams) (kv : string * arg) :
  addParam sp kv = (sp ++ pairsOf kv)%list.
Proof.
  destruct kv as [key [ | | v | items ]]; unfold pairsOf; simpl.
  - now rewrite app_nil_r.
  - now rewrite app_nil_r.
  - reflexivity.
  - revert sp. induction items as [|v items IH]; intros sp; simpl.
    + now rewrite app_nil_r.
    + rewrite IH. unfold append. now rewrite <- app_assoc.
Qed.

Lemma addParams_flat_map (sp : searchParams) (params : bag) :
  addParams sp params = (sp ++ flat_map pairsOf params)%list.
Proof.
  unfold addParams. revert sp.
  induction params as [|kv params IH]; intros sp; simpl.
  - now rewrite app_nil_r.
  - rewrite IH, addParam_pairsOf. now rewrite <- app_assoc.
Qed.

Lemma pairsOf_keys (kv : string * arg) (key : string) :
  In key (map fst (pairsOf kv)) ->
  fst kv = key /\ snd kv <> AUndefined /\ snd kv <> ANull.
Proof.
  destruct kv as [k [ | | v | items ]]; unfold pairsOf; simpl;
    try contradiction.
  - intros [E|[]]. repeat split; auto; discriminate.
  - rewrite map_map. simpl. intros H. apply in_map_iff in H.
    destruct H as (v & E & _). repeat split; auto; discriminate.
Qed.

(** C8. Query construction in [makeRequest].  The parameters appended are,
    argument after argument in the order of the bag: nothing for an absent
    or null value, one pair holding the string form for a scalar, one pair
    per element in element order for a sequence.  A key whose value is
    absent or null does not occur in the query.  For the bag
    [{domain: "example.com", device_id: ["a","b"], limit: undefined}] the
    query string is [domain=example.com&device_id=a&device_id=b], without a
    [limit] key. *)
Theorem makeRequest_query :
  (forall sp params,
      addParams sp params = (sp ++ flat_map pairsOf params)%list)
  /\ (forall key items,
        addParams [] [(key, ASeq items)]
        = map (fun v => (key, scalarToString v)) items)
  /\ (forall params key,
        (forall v, In (key, v) params -> v = AUndefined \/ v = ANull) ->
        ~ In key (map fst (addParams [] params)))
  /\ serializeParams (addParams [] exampleBag)
     = "domain=example.com&device_id=a&device_id=b"
  /\ ~ In "limit" (map fst (addParams [] exampleBag))
  /\ url (requestFor defaultConfig "/events/search" exampleBag)
     = "https://api.whalebone.io/whalebone/2/events/search?domain=example.com&device_id=a&device_id=b".
Proof.
  split; [exact addParams_flat_map|].
  split.
  { intros key items. rewrite addParams_flat_map. simpl.
    now rewrite app_nil_r. }
  split.
  { intros params key Hnone Hin. rewrite addParams_flat_map in Hin.
    simpl in Hin. apply in_map_iff in Hin. destruct Hin as ([k s] & Ek & Hin).
    apply in_flat_map in Hin. destruct Hin as ([k' v] & Hparam & Hpair).
    assert (Hk : In key (map fst (pairsOf (k', v)))).
    { apply in_map_iff. exists (k, s). auto. }
    apply pairsOf_keys in Hk. simpl in Hk. destruct Hk as (-> & Hu & Hn).
    destruct (Hnone v Hparam); contradiction. }
  split; [reflexivity|].
  split; [| reflexivity].
  vm_compute. intros [H|[H|[H|[]]]]; discriminate H.
Qed.

(* ================================================================== *)
(** * Properties of the tool-call handler *)
(* ================================================================== *)

Section Handler.

Variable config : WhaleboneConfig.
Variable net : network.

(** [makeRequest] step by step: the URL is constructed, then the one
    request is sent. *)
Lemma run_makeRequest (endpoint : string) (params : bag)
      (k : json -> prog json) :
  run net (bind (makeRequest config endpoint params) k) []
  = match newURL net (baseUrl config ++ endpoint) with
    | inl m => (Thrown m, [])
    | inr u =>
        let req := requestOf config u params in
        match net req with
        | inl m => (Thrown m, [req])
        | inr r =>
            if negb (ok r) then (Thrown (apiErrorMessage r), [req])
            else match body r with
                 | inl m => (Thrown m, [req])
                 | inr rawData =>
                     run net (k (processResponse config rawData)) [req]
                 end
        end
    end.
Proof.
  simpl. destruct (newURL net (baseUrl config ++ endpoint)) as [m|u];
    [reflexivity|].
  simpl. destruct (fetch net (requestOf config u params)) as [m|r];
    [reflexivity|].
  destruct (negb (ok r)); [reflexivity|].
  destruct (body r); reflexivity.
Qed.

Lemma run_makeRequest_outcome (endpoint : string) (params : bag) :
  run net (bind (makeRequest config endpoint params)
                (fun result => Ret (successPayload result))) []
  = match newURL net (baseUrl config ++ endpoint) with
    | inl m => (Thrown m, [])
    | inr u => (outcomeOf config (net (requestOf config u params)),
                [requestOf config u params])
    end.
Proof.
  rewrite run_makeRequest. unfold outcomeOf.
  destruct (newURL net (baseUrl config ++ endpoint)) as [m|u];
    [reflexivity|].
  cbv zeta. destruct (fetch net (requestOf config u params)) as [m|r];
    [reflexivity|].
  destruct (negb (ok r)); [reflexivity|].
  destruct (body r); reflexivity.
Qed.

(** The [try] block either sends nothing and throws, or sends the one
    request of one [makeRequest]. *)
Lemma tryBlock_cases (name : string) (args : option bag) :
  (exists m, run net (tryBlock config name args) [] = (Thrown m, []))
  \/ (exists u params,
        run net (tryBlock config name args) []
        = (outcomeOf config (net (requestOf config u params)),
           [requestOf config u params])).
Proof.
  assert (Hmake : forall endpoint params,
             (exists m,
                 run net (bind (makeRequest config endpoint params)
                               (fun result => Ret (successPayload result))) []
                 = (Thrown m, []))
             \/ (exists u params',
                   run net (bind (makeRequest config endpoint params)
                                 (fun result => Ret (successPayload result)))
                       []
                   = (outcomeOf config (net (requestOf config u params')),
                      [requestOf config u params']))).
  { intros endpoint params. rewrite run_makeRequest_outcome.
    destruct (newURL net (baseUrl config ++ endpoint)) as [m|u].
    - left. now exists m.
    - right. now exists u, params. }
  unfold tryBlock, dispatch.
  set (toolArgs := argumentsOrEmpty args). clearbody toolArgs.
  repeat match goal with
         | |- context [if String.eqb name ?s then _ else _] =>
             destruct (String.eqb name s)
         end;
    try apply Hmake.
  - destruct (negb (truthy _)).
    + left. eexists. reflexivity.
    + apply Hmake.
  - left. eexists. reflexivity.
Qed.

Lemma tryBlock_sent (name : string) (args : option bag) (req : request) :
  snd (run net (tryBlock config name args) []) = [req] ->
  run net (tryBlock config name args) [] = (outcomeOf config (net req), [req]).
Proof.
  intros Hlog.
  destruct (tryBlock_cases name args) as [(m & E) | (u & p & E)];
    rewrite E in *; simpl in Hlog.
  - discriminate Hlog.
  - injection Hlog as <-. reflexivity.
Qed.

(** The log of a call is the log of its [try] block. *)
Lemma callTool_log (name : string) (args : option bag) :
  snd (callTool config net name args)
  = snd (run net (tryBlock config name args) []).
Proof.
  unfold callTool.
  destruct (run net (tryBlock config name args) []) as [[r|m] l]; reflexivity.
Qed.

Lemma getArg_absent (key : string) (toolArgs : bag) :
  ~ In key (map fst toolArgs) -> getArg key toolArgs = AUndefined.
Proof.
  induction toolArgs as [|[k v] rest IH]; simpl; intros H; [reflexivity|].
  destruct (String.eqb_spec key k) as [->|_]; [tauto|].
  apply IH. tauto.
Qed.

End Handler.

(** The text of an error reply is the message, followed by the tip or by
    nothing. *)
Lemma helpfulError_suffix (errorMessage : string) :
  exists suffix,
    (suffix = EmptyString \/ suffix = TIP)
    /\ helpfulError errorMessage = errorMessage ++ suffix.
Proof.
  unfold helpfulError.
  destruct (Js.includes "too large" errorMessage
            || Js.includes "truncated" errorMessage).
  - exists TIP. auto.
  - exists EmptyString. split; [now left|].
    induction errorMessage as [|c s IH]; simpl; congruence.
Qed.

(** The error reply, item by item. *)
Lemma errorPayload_shape (errorMessage : string) :
  exists suffix,
    (suffix = EmptyString \/ suffix = TIP)
    /\ errorPayload errorMessage
       = JObj [ ("content",
                 JArr [ JObj [ ("type", JStr "text");
                               ("text", JStr ("Error: " ++ errorMessage
                                                ++ suffix)) ] ]);
                ("isError", JBool true) ].
Proof.
  destruct (helpfulError_suffix errorMessage) as (suffix & Hs & E).
  exists suffix. split; [exact Hs|].
  unfold errorPayload, textContent. now rewrite E.
Qed.

(** C9. A tool call whose request the remote API answers with a status
    outside 200..299: [makeRequest] throws the error whose message carries
    the status number and the status text, and the handler resolves, it
    does not throw, to the error reply.  The reply has two fields:
    [content], one text item whose text is [Error: Whalebone API error: ],
    the status number, a space and the status text, followed by the
    advisory tip or by nothing; and [isError], which is true.  It has no
    [results] field. *)
Theorem remote_error_reply (config : WhaleboneConfig) (net : network)
        (name : string) (args : option bag)
        (req : request) (resp : response) :
  snd (callTool config net name args) = [req] ->
  net req = inr resp ->
  status resp < 200 \/ 299 < status resp ->
  let reply := fst (callTool config net name args) in
  fst (run net (tryBlock config name args) [])
  = Thrown ("Whalebone API error: " ++ Js.numberToString (status resp)
              ++ " " ++ statusText resp)
  /\ (exists suffix,
        (suffix = EmptyString \/ suffix = TIP)
        /\ reply
           = JObj [ ("content",
                     JArr [ JObj [ ("type", JStr "text");
                                   ("text",
                                    JStr ("Error: Whalebone API error: "
                                            ++ Js.numberToString (status resp)
                                            ++ " " ++ statusText resp
                                            ++ suffix)) ] ]);
                    ("isError", JBool true) ])
  /\ field "isError" reply = Some (JBool true)
  /\ field "results" reply = None.
Proof.
  intros Hlog Hnet Hstatus reply.
  assert (Hok : ok resp = false).
  { unfold ok. destruct Hstatus as [H|H].
    - apply Z.leb_gt in H. now rewrite H.
    - apply Z.leb_gt in H. rewrite H. apply andb_false_r. }
  rewrite callTool_log in Hlog.
  pose proof (tryBlock_sent config net name args req Hlog) as Hrun.
  rewrite Hnet in Hrun. unfold outcomeOf in Hrun. rewrite Hok in Hrun.
  simpl negb in Hrun. cbv iota in Hrun.
  assert (Hreply : reply = errorPayload (apiErrorMessage resp)).
  { subst reply. unfold callTool. now rewrite Hrun. }
  split; [now rewrite Hrun|].
  destruct (errorPayload_shape (apiErrorMessage resp)) as (suffix & Hs & E).
  assert (Hshape :
            reply
            = JObj [ ("content",
                      JArr [ JObj [ ("type", JStr "text");
                                    ("text",
                                     JStr ("Error: Whalebone API error: "
                                             ++ Js.numberToString (status resp)
                                             ++ " " ++ statusText resp
                                             ++ suffix)) ] ]);
                     ("isError", JBool true) ]).
  { rewrite Hreply, E. unfold apiErrorMessage.
    now rewrite !append_assoc. }
  split; [exists suffix; split; [exact Hs | exact Hshape]|].
  rewrite Hshape. split; reflexivity.
Qed.

Lemma remote_error_reply_witness :
  let req := {| url := "https://api.whalebone.io/whalebone/2/ioc/count";
                method := "GET";
                headers := [ ("Wb-Access-Key", "");
                             ("Wb-Secret-Key", "");
                             ("Content-Type", "application/json") ] |} in
  let reply := fst (callTool defaultConfig unavailable "get_ioc_count" None) in
  snd (callTool defaultConfig unavailable "get_ioc_count" None) = [req]
  /\ reply
     = JObj [ ("content",
               JArr [ JObj [ ("type", JStr "text");
                             ("text",
                              JStr "Error: Whalebone API error: 503 Service Unavailable") ] ]);
              ("isError", JBool true) ]
  /\ field "results" reply = None.
Proof.
  intros req reply.
  assert (Hlog : snd (callTool defaultConfig unavailable "get_ioc_count" None)
                 = [req]) by reflexivity.
  assert (Hnet : unavailable req
                 = inr {| status := 503;
                          statusText := "Service Unavailable";
                          body := inl "Unexpected token" |}) by reflexivity.
  destruct (remote_error_reply defaultConfig unavailable "get_ioc_count" None
              req _ Hlog Hnet (or_intror eq_refl))
    as (_ & _ & _ & Hresults).
  split; [exact Hlog | split; [reflexivity | exact Hresults]].
Defined.

(** C10. A call of [analyze_domain] whose argument bag has no [fqdn] entry
    (an absent bag counts as empty) fails in the handler with the error
    [fqdn parameter is required]: the reply is the error reply with that
    message, and no request is sent to the network. *)
Theorem analyze_domain_requires_fqdn (config : WhaleboneConfig)
        (net : network) (args : option bag) :
  ~ In "fqdn" (map fst (argumentsOrEmpty args)) ->
  run net (tryBlock config "analyze_domain" args) []
  = (Thrown "fqdn parameter is required", [])
  /\ callTool config net "analyze_domain" args
     = (JObj [ ("content",
                textContent "Error: fqdn parameter is required");
               ("isError", JBool true) ],
        []).
Proof.
  intros Habsent.
  assert (Hrun : run net (tryBlock config "analyze_domain" args) []
                 = (Thrown "fqdn parameter is required", [])).
  { unfold tryBlock, dispatch. simpl.
    now rewrite (getArg_absent "fqdn" (argumentsOrEmpty args) Habsent). }
  split; [exact Hrun|].
  unfold callTool. rewrite Hrun. reflexivity.
Qed.

Lemma analyze_domain_requires_fqdn_witness :
  let args := Some [("domain", AScalar (SStr "example.com"))] in
  ~ In "fqdn" (map fst (argumentsOrEmpty args))
  /\ callTool defaultConfig unavailable "analyze_domain" args
     = (JObj [ ("content",
                textContent "Error: fqdn parameter is required");
               ("isError", JBool true) ],
        []).
Proof.
  intros args.
  assert (H : ~ In "fqdn" (map fst (argumentsOrEmpty args))).
  { simpl. intros [E|[]]. discriminate E. }
  split; [exact H|].
  exact (proj2 (analyze_domain_requires_fqdn defaultConfig unavailable args H)).
Defined.

(* ================================================================== *)
(** * Further properties of the response shaper *)
(* ================================================================== *)

(** X1. With truncation enabled a shortened string has exactly
    [maxLength] units and the marker, so no result is longer than
    [maxLength + 15]; a string of at most [maxLength] units is returned as
    it is.  The result is longer than the input exactly when the input has
    between [maxLength + 1] and [maxLength + 14] units. *)
Theorem truncateString_length (config : WhaleboneConfig) (s : string)
        (maxLength : nat) :
  enableTruncation config = true ->
  let out := truncateString config s maxLength in
  (String.length out <= maxLength + 15)%nat
  /\ ((String.length s <= maxLength)%nat -> out = s)
  /\ ((maxLength < String.length s)%nat ->
      String.length out = (maxLength + 15)%nat)
  /\ ((String.length s < String.length out)%nat
      <-> (maxLength < String.length s < maxLength + 15)%nat).
Proof.
  intros He out. subst out.
  destruct (Nat.le_gt_cases (String.length s) maxLength) as [Hs|Hl].
  - rewrite (truncateString_short config s maxLength Hs).
    split; [lia|]. split; [reflexivity|]. split; lia.
  - rewrite (truncateString_long config s maxLength He Hl).
    rewrite length_append, substring0_length by lia.
    change (String.length TRUNCATION_MARKER) with 15%nat.
    split; [lia|]. split; [lia|]. split; lia.
Qed.

Lemma truncateString_length_witness :
  let s := replicate 1005 "a" in
  enableTruncation defaultConfig = true
  /\ String.length s = 1005%nat
  /\ String.length (truncateString defaultConfig s MAX_STRING_LENGTH)
     = 1015%nat.
Proof.
  intros s.
  assert (He : enableTruncation defaultConfig = true) by reflexivity.
  assert (Hs : String.length s = 1005%nat) by apply replicate_length.
  destruct (truncateString_length defaultConfig s MAX_STRING_LENGTH He)
    as (_ & _ & Hlong & _).
  split; [exact He | split; [exact Hs |]].
  apply Hlong. rewrite Hs. unfold MAX_STRING_LENGTH. lia.
Defined.

(** X2. Stage 2 is idempotent, on strings and on values: running the
    string truncation over its own result changes nothing, because a
    shortened string starts with the same 1000 units. *)
Theorem truncation_idempotent (config : WhaleboneConfig) :
  (forall s n,
      truncateString config (truncateString config s n) n
      = truncateString config s n)
  /\ (forall v,
        truncateObject config (truncateObject config v)
        = truncateObject config v).
Proof.
  split.
  - intros s n. apply truncateString_idempotent.
  - intros v. apply truncateObject_idempotent.
Qed.

Lemma withoutProto_plainKeys (v : json) :
  plainKeys v = true -> withoutProto v = v.
Proof.
  induction v as [ | b | z | dm de | s | items IH | entries IH ]
    using json_induction; simpl; intros H; try reflexivity.
  - f_equal. rewrite <- (map_id items) at 2. apply map_ext_in.
    intros x Hx. rewrite Forall_forall in IH. rewrite forallb_forall in H.
    auto.
  - f_equal. rewrite forallb_forall in H. rewrite Forall_forall in IH.
    rewrite stored_plain.
    + rewrite <- (map_id entries) at 2. apply map_ext_in.
      intros [k x] Hx. simpl. f_equal.
      specialize (H _ Hx). apply andb_true_iff in H.
      apply (IH (k, x) Hx). apply H.
    + apply forallb_forall. intros kv Hin. apply in_map_iff in Hin.
      destruct Hin as (kv' & <- & Hin). simpl.
      specialize (H _ Hin). apply andb_true_iff in H. apply H.
Qed.

Lemma truncateObject_skeleton_enabled (config : WhaleboneConfig) (v : json) :
  enableTruncation config = true ->
  skeleton (truncateObject config v) = skeleton (withoutProto v).
Proof.
  intros He.
  induction v as [ | b | z | dm de | s | items IH | entries IH ]
    using json_induction;
    try (simpl; rewrite ?He; reflexivity).
  - rewrite truncateObject_array by exact He. simpl. f_equal.
    rewrite !map_map. apply map_ext_in.
    intros x Hx. rewrite Forall_forall in IH. now apply IH.
  - rewrite truncateObject_object by exact He. simpl. f_equal.
    rewrite (stored_map (truncateObject config)), (stored_map withoutProto).
    rewrite !map_map. apply map_ext_in.
    intros [k x] Hx. apply filter_In in Hx. destruct Hx as [Hx _].
    rewrite Forall_forall in IH. simpl. f_equal. exact (IH (k, x) Hx).
Qed.

(** X3. Stage 2 changes the content of strings and, in objects, drops the
    entries whose key is [__proto__]; it changes nothing else.  The kind of
    every value, the length of every array and the other keys of every
    object with their order are those of the input; numbers, booleans and
    null are the same, and keys are never shortened.  On a value without a
    key [__proto__] only the content of strings changes. *)
Theorem truncateObject_skeleton (config : WhaleboneConfig) (v : json) :
  skeleton (truncateObject config v)
  = skeleton (if enableTruncation config then withoutProto v else v)
  /\ (plainKeys v = true ->
      skeleton (truncateObject config v) = skeleton v)
  /\ truncateObject defaultConfig
       (JObj [("a", JObj [("__proto__", JNum 1); ("b", JStr "x")])])
     = JObj [("a", JObj [("b", JStr "x")])].
Proof.
  assert (H1 : skeleton (truncateObject config v)
               = skeleton (if enableTruncation config
                           then withoutProto v else v)).
  { destruct (enableTruncation config) eqn:He.
    - now apply truncateObject_skeleton_enabled.
    - now rewrite truncateObject_disabled. }
  split; [exact H1|]. split; [| reflexivity].
  intros Hp. rewrite H1, (withoutProto_plainKeys v Hp).
  now destruct (enableTruncation config).
Qed.

Lemma truncateObject_skeleton_witness :
  let v := JObj [("rows", JArr [JStr (replicate 1200 "q"); JNum 7]);
                 ("note", JNull)] in
  plainKeys v = true
  /\ skeleton (truncateObject defaultConfig v)
     = JObj [("rows", JArr [JStr EmptyString; JNum 7]); ("note", JNull)].
Proof.
  intros v.
  assert (Hp : plainKeys v = true) by reflexivity.
  split; [exact Hp|].
  rewrite (proj1 (proj2 (truncateObject_skeleton defaultConfig v)) Hp).
  reflexivity.
Defined.

Lemma truncateString_length_le (config : WhaleboneConfig) (s : string)
      (maxLength : nat) :
  enableTruncation config = true ->
  (String.length (truncateString config s maxLength) <= maxLength + 15)%nat.
Proof.
  intros He.
  destruct (Nat.le_gt_cases (String.length s) maxLength) as [Hs|Hl].
  - rewrite (truncateString_short config s maxLength Hs). lia.
  - rewrite (truncateString_long config s maxLength He Hl).
    rewrite length_append, substring0_length by lia.
    change (String.length TRUNCATION_MARKER) with 15%nat. lia.
Qed.

Lemma stringsWithin_truncateObject (config : WhaleboneConfig) (v : json) :
  enableTruncation config = true ->
  stringsWithin MARKED_LENGTH (truncateObject config v) = true.
Proof.
  intros He.
  induction v as [ | b | z | dm de | s | items IH | entries IH ] using json_induction;
    try (simpl; rewrite ?He; reflexivity).
  - simpl. rewrite He. simpl. apply Nat.leb_le.
    pose proof (truncateString_length_le config s MAX_STRING_LENGTH He) as Hle.
    unfold MARKED_LENGTH. change (String.length TRUNCATION_MARKER) with 15%nat.
    exact Hle.
  - rewrite truncateObject_array by exact He. simpl.
    rewrite forallb_forall. intros x Hx. apply in_map_iff in Hx.
    destruct Hx as (y & <- & Hy). rewrite Forall_forall in IH. now apply IH.
  - rewrite truncateObject_object by exact He. simpl.
    rewrite forallb_forall. intros [k x] Hx. apply stored_map_In in Hx.
    destruct Hx as (_ & y & Hy & ->).
    rewrite Forall_forall in IH. exact (IH (k, y) Hy).
Qed.

(** X4. With truncation enabled, after stage 2 no string value anywhere in
    the response is longer than 1015 units (1000 and the marker). *)
Theorem truncateObject_bounds_strings (config : WhaleboneConfig) (v : json) :
  enableTruncation config = true ->
  stringsWithin MARKED_LENGTH (truncateObject config v) = true.
Proof. apply stringsWithin_truncateObject. Qed.

Lemma truncateObject_bounds_strings_witness :
  let v := JObj [("payload", JArr [JStr (replicate 5000 "z"); JNum 7])] in
  enableTruncation defaultConfig = true
  /\ stringsWithin 1015 (truncateObject defaultConfig v) = true
  /\ stringsWithin 1015 v = false.
Proof.
  intros v.
  assert (He : enableTruncation defaultConfig = true) by reflexivity.
  split; [exact He | split].
  - exact (truncateObject_bounds_strings defaultConfig v He).
  - vm_compute. reflexivity.
Defined.

(** X27. Stage 1 walks exactly one level.  On a value whose top-level
    object has no key [__proto__] it is the one-level function
    [limitOneLevel]; in general it is that function on the entries whose
    key is not [__proto__].  The limiting rule is applied to a top-level
    sequence and to every sequence that is directly a value of the
    top-level object, and to nothing else.  What the rule keeps of a
    sequence is a prefix of it, element for element, so a sequence inside
    a sequence is never limited; a value of the top-level object that is
    not a sequence is copied as it is, so a sequence inside an object
    inside an object is never limited either. *)
Theorem limitResults_one_level (maxResults : Z) :
  (forall data,
      limitResults data maxResults
      = limitOneLevel (ownEntries data) maxResults)
  /\ (forall data,
        plainTop data = true ->
        limitResults data maxResults = limitOneLevel data maxResults)
  /\ (forall items,
        exists n,
          limitSequence items maxResults = JArr (firstn n items)
          \/ exists total returned message,
               limitSequence items maxResults
               = wrapper (firstn n items) total returned message)
  /\ (forall key inner,
        key <> "__proto__" ->
        limitResults (JObj [(key, JArr inner)]) maxResults
        = JObj [(key, limitSequence inner maxResults)])
  /\ (forall key key' inner,
        key <> "__proto__" ->
        limitResults (JObj [(key, JObj [(key', JArr inner)])]) maxResults
        = JObj [(key, JObj [(key', JArr inner)])])
  /\ (forall inner,
        1 <= maxResults ->
        limitResults (JArr [JArr inner]) maxResults = JArr [JArr inner]).
Proof.
  assert (Hown : forall key, key <> "__proto__" -> ownKey key = true).
  { intros key Hk. unfold ownKey.
    destruct (String.eqb_spec key "__proto__"); [contradiction | reflexivity]. }
  split; [| split; [| split; [| split; [| split]]]].
  - intros data.
    destruct data as [ | b | z | dm de | s | items | entries ];
      try reflexivity.
    rewrite limitResults_object. unfold ownEntries.
    rewrite limitOneLevel_object.
    now rewrite (stored_map (limitValue maxResults)).
  - intros data. apply limitResults_limitOneLevel.
  - intros items. unfold limitSequence, Js.slice0.
    match goal with |- context [firstn ?k items] => exists k end.
    destruct (Z.of_nat (List.length items) >? maxResults).
    + right. eauto.
    + left. reflexivity.
  - intros key inner Hk. rewrite limitResults_object.
    unfold stored. simpl. now rewrite (Hown key Hk).
  - intros key key' inner Hk. rewrite limitResults_object.
    unfold stored. simpl. now rewrite (Hown key Hk).
  - intros inner H1. apply withinCount_limitResults; [simpl; lia | reflexivity].
Qed.

Lemma limitResults_one_level_witness :
  let data := JObj [ ("buckets", JArr [JNum 1; JNum 2; JNum 3]);
                     ("meta", JObj [("ids", JArr [JNum 1; JNum 2; JNum 3])]) ] in
  plainTop data = true
  /\ limitResults data 2
     = JObj [ ("buckets",
               wrapper [JNum 1; JNum 2] 3 2 (limitMessage 2 3));
              ("meta", JObj [("ids", JArr [JNum 1; JNum 2; JNum 3])]) ].
Proof.
  intros data.
  assert (Hp : plainTop data = true) by reflexivity.
  split; [exact Hp|].
  rewrite (proj1 (proj2 (limitResults_one_level 2)) data Hp).
  reflexivity.
Defined.

(** X5. For a non-negative [maxResults] stage 1 is idempotent, and in its
    result no sequence at the top or directly under the top-level object
    has more than [maxResults] elements. *)
Theorem limitResults_idempotent (data : json) (maxResults : Z) :
  0 <= maxResults ->
  withinCount maxResults (limitResults data maxResults)
  /\ limitResults (limitResults data maxResults) maxResults
     = limitResults data maxResults.
Proof.
  intros H0.
  pose proof (limitResults_withinCount data maxResults H0) as Hc.
  split; [exact Hc|].
  apply withinCount_limitResults; [exact Hc | apply limitResults_plainTop].
Qed.

Lemma limitResults_idempotent_witness :
  let data := JObj [("buckets", JArr (map JNum [1; 2; 3; 4; 5]))] in
  0 <= 2
  /\ limitResults data 2
     = JObj [("buckets",
              wrapper (map JNum [1; 2]) 5 2 (limitMessage 2 5))]
  /\ limitResults (limitResults data 2) 2 = limitResults data 2.
Proof.
  intros data.
  assert (H0 : 0 <= 2) by lia.
  split; [exact H0 | split; [reflexivity |]].
  exact (proj2 (limitResults_idempotent data 2 H0)).
Defined.

(** X6. A negative [maxResults] (the configuration accepts one) makes
    stage 1 wrap every sequence, the empty one included: [results] loses
    the last [-maxResults] elements, [returned] is what is left, and a
    second pass wraps the wrapper's [results] again. *)
Theorem limitResults_negative_maxResults (items : list json)
        (maxResults : Z) :
  maxResults < 0 ->
  let len := Z.of_nat (List.length items) in
  limitResults (JArr items) maxResults
  = wrapper (firstn (Z.to_nat (len + maxResults)) items)
            len
            (Z.max 0 (len + maxResults))
            (limitMessage maxResults len)
  /\ limitResults (limitResults (JArr items) maxResults) maxResults
     <> limitResults (JArr items) maxResults.
Proof.
  intros Hneg len.
  assert (E : limitResults (JArr items) maxResults
              = wrapper (firstn (Z.to_nat (len + maxResults)) items)
                        len (Z.max 0 (len + maxResults))
                        (limitMessage maxResults len)).
  { rewrite limitResults_array. unfold limitSequence.
    destruct (Z.gtb_spec (Z.of_nat (List.length items)) maxResults); [|lia].
    assert (Hs : Js.slice0 items maxResults
                 = firstn (Z.to_nat (len + maxResults)) items).
    { unfold Js.slice0. destruct (Z.ltb_spec maxResults 0); [|lia].
      fold len. f_equal. lia. }
    rewrite Hs. rewrite length_firstn. fold len. f_equal. f_equal.
    unfold len. lia. }
  split; [exact E|].
  rewrite E. intros H.
  assert (Hf : field "results"
                 (limitResults
                    (wrapper (firstn (Z.to_nat (len + maxResults)) items)
                       len (Z.max 0 (len + maxResults))
                       (limitMessage maxResults len)) maxResults)
               = Some (JArr (firstn (Z.to_nat (len + maxResults)) items)))
    by now rewrite H.
  simpl in Hf.
  destruct (Z.gtb_spec
              (Z.of_nat (List.length
                           (firstn (Z.to_nat (len + maxResults)) items)))
              maxResults) as [_|Hle]; [discriminate Hf | lia].
Qed.

Lemma limitResults_negative_maxResults_witness :
  let items := map JNum [1; 2; 3; 4; 5] in
  -2 < 0
  /\ field "results" (limitResults (JArr items) (-2))
     = Some (JArr (map JNum [1; 2; 3]))
  /\ field "returned" (limitResults (JArr []) (-2)) = Some (JNum 0).
Proof.
  intros items.
  assert (Hneg : -2 < 0) by lia.
  destruct (limitResults_negative_maxResults items (-2) Hneg) as [E _].
  destruct (limitResults_negative_maxResults [] (-2) Hneg) as [E0 _].
  split; [exact Hneg | split].
  - rewrite E. reflexivity.
  - rewrite E0. reflexivity.
Defined.

(** X7. The wrapper stage 3 builds for an oversized array: [returned] is
    at least 1 and at most [max(1, maxResponseSize)], [total_available] is
    the length of the array, and [results] is its prefix of
    [min(returned, total_available)] elements.  [returned] is the budget,
    not the number of results: it can be larger than [total_available]. *)
Theorem enforceResponseSize_wrapper_counts (config : WhaleboneConfig)
        (items : list json) :
  maxResponseSizeOf config < size (JArr items) ->
  exists shown,
    1 <= shown <= Z.max 1 (maxResponseSizeOf config)
    /\ enforceResponseSize config (JArr items)
       = wrapper (firstn (Z.to_nat shown) items)
                 (Z.of_nat (List.length items))
                 shown
                 (sizeMessage shown (Z.of_nat (List.length items)))
    /\ Z.of_nat (List.length (firstn (Z.to_nat shown) items))
       = Z.min shown (Z.of_nat (List.length items)).
Proof.
  intros Hbig.
  rewrite (enforceResponseSize_array config items Hbig). cbv zeta.
  set (shown := Z.max 1 (maxItemsFor _ _ _)).
  exists shown.
  assert (Hshown : 1 <= shown <= Z.max 1 (maxResponseSizeOf config)).
  { subst shown. split; [lia|].
    apply maxItemsFor_bound; unfold size; lia. }
  split; [exact Hshown|]. split.
  - rewrite slice0_nonneg by lia. reflexivity.
  - rewrite length_firstn. lia.
Qed.

Lemma enforceResponseSize_wrapper_counts_witness :
  maxResponseSizeOf tinyBudget < size (JArr tenNumbers)
  /\ field "returned" (enforceResponseSize tinyBudget (JArr tenNumbers))
     = Some (JNum 11)
  /\ field "total_available"
       (enforceResponseSize tinyBudget (JArr tenNumbers))
     = Some (JNum 10)
  /\ field "results" (enforceResponseSize tinyBudget (JArr tenNumbers))
     = Some (JArr tenNumbers).
Proof.
  assert (Hbig : maxResponseSizeOf tinyBudget < size (JArr tenNumbers))
    by (vm_compute; reflexivity).
  destruct (enforceResponseSize_wrapper_counts tinyBudget tenNumbers Hbig)
    as (shown & _ & E & _).
  split; [exact Hbig|].
  assert (Hshown : field "returned"
                     (enforceResponseSize tinyBudget (JArr tenNumbers))
                   = Some (JNum 11)) by (vm_compute; reflexivity).
  rewrite E in *. simpl in Hshown. injection Hshown as ->.
  split; [reflexivity | split; reflexivity].
Defined.

(** X8. The average element size stage 3 divides by is never zero: a
    serialized array of [n >= 1] elements has at least [2 n + 1] units, so
    the estimate is at least 2, and the item budget is at most two fifths
    of [maxResponseSize]. *)
Theorem enforceResponseSize_item_estimate (config : WhaleboneConfig)
        (items : list json) :
  items <> [] ->
  let n := Z.of_nat (List.length items) in
  2 * n + 1 <= size (JArr items)
  /\ 2 <= size (JArr items) / n
  /\ maxItemsFor (maxResponseSizeOf config) (size (JArr items)) n
     <= Z.max 0 (2 * maxResponseSizeOf config / 5).
Proof.
  intros Hne n.
  pose proof (array_size_lower_bound items) as Hlow. fold n in Hlow.
  assert (Hn : 0 < n) by (subst n; destruct items; [congruence | simpl; lia]).
  assert (Hi : 2 <= size (JArr items) / n)
    by (apply Z.div_le_lower_bound; lia).
  split; [exact Hlow | split; [exact Hi |]].
  unfold maxItemsFor. destruct (Z.eqb_spec n 0) as [E|_]; [lia|].
  set (i := size (JArr items) / n) in *.
  set (m := maxResponseSizeOf config).
  destruct (Z.le_gt_cases 0 m) as [Hm|Hm].
  - assert (4 * m / (5 * i) <= 2 * m / 5); [|lia].
    apply Z.div_le_lower_bound; [lia|].
    assert (Hq : 5 * i * (4 * m / (5 * i)) <= 4 * m)
      by (apply Z.mul_div_le; lia).
    assert (Hq0 : 0 <= 4 * m / (5 * i)) by (apply Z.div_pos; lia).
    nia.
  - assert (4 * m / (5 * i) < 0); [|lia].
    apply Z.div_lt_upper_bound; lia.
Qed.

Lemma enforceResponseSize_item_estimate_witness :
  tenNumbers <> []
  /\ 2 <= size (JArr tenNumbers) / Z.of_nat (List.length tenNumbers).
Proof.
  assert (Hne : tenNumbers <> []) by discriminate.
  split; [exact Hne|].
  exact (proj1 (proj2 (enforceResponseSize_item_estimate tinyBudget
                         tenNumbers Hne))).
Defined.

(* ================================================================== *)
(** * Further properties of the pipeline *)
(* ================================================================== *)

Lemma enforceResponseSize_not_array (config : WhaleboneConfig) (y : json) :
  isArray y = false -> truncateObject config y = y ->
  enforceResponseSize config y = y.
Proof.
  intros Ha Hfix.
  destruct (Z.le_gt_cases (size y) (maxResponseSizeOf config)) as [Hf|Hb].
  - now apply enforceResponseSize_fits.
  - now rewrite enforceResponseSize_other.
Qed.

Lemma limitResults_not_array (data : json) (maxResults : Z) :
  isArray data = false -> isArray (limitResults data maxResults) = false.
Proof. destruct data; simpl; intros H; auto; discriminate. Qed.

(** X9. Stage 3 never changes a response that is not a top-level array:
    for an object or a scalar the shaper is stage 1 followed by stage 2,
    whatever [maxResponseSize] is.  So null, booleans and numbers come back
    as they are, and a top-level string comes back as [truncateString]
    leaves it. *)
Theorem processResponse_not_array (config : WhaleboneConfig) :
  (forall data,
      isArray data = false ->
      processResponse config data
      = truncateObject config (limitResults data (maxResultsOf config)))
  /\ processResponse config JNull = JNull
  /\ (forall b, processResponse config (JBool b) = JBool b)
  /\ (forall z, processResponse config (JNum z) = JNum z)
  /\ (forall s, processResponse config (JStr s)
                = JStr (truncateString config s MAX_STRING_LENGTH)).
Proof.
  assert (H : forall data,
             isArray data = false ->
             processResponse config data
             = truncateObject config (limitResults data (maxResultsOf config))).
  { intros data Ha. rewrite processResponse_staged. unfold staged.
    apply enforceResponseSize_not_array.
    - rewrite truncateObject_isArray. now apply limitResults_not_array.
    - apply truncateObject_idempotent. }
  split; [exact H|].
  split; [rewrite H by reflexivity; simpl;
          destruct (enableTruncation config); reflexivity|].
  split; [intros b; rewrite H by reflexivity; simpl;
          destruct (enableTruncation config); reflexivity|].
  split; [intros z; rewrite H by reflexivity; simpl;
          destruct (enableTruncation config); reflexivity|].
  intros s. rewrite H by reflexivity. simpl.
  destruct (enableTruncation config) eqn:He; simpl; [reflexivity|].
  now rewrite truncateString_disabled.
Qed.

Lemma stringsWithin_slice0 (n : nat) (items : list json) (e : Z) :
  forallb (stringsWithin n) items = true ->
  forallb (stringsWithin n) (Js.slice0 items e) = true.
Proof.
  intros H. rewrite forallb_forall in *. intros x Hx.
  apply H. now apply slice0_In in Hx.
Qed.

(** X10. With truncation enabled and usable limits, no string value
    anywhere in the shaper's output is longer than 1015 units, the
    messages of the wrappers included. *)
Theorem processResponse_bounds_strings (config : WhaleboneConfig)
        (data : json) :
  enableTruncation config = true ->
  usableLimits config ->
  stringsWithin MARKED_LENGTH (processResponse config data) = true.
Proof.
  intros He Hu.
  assert (H0 : 0 <= maxResultsOf config) by (destruct Hu as [[? ?] ?]; lia).
  destruct (staged_settled config data H0) as [Hcount Hfix].
  pose proof (stringsWithin_truncateObject config
                (limitResults data (maxResultsOf config)) He) as Hy.
  fold (staged config data) in Hy.
  rewrite processResponse_staged.
  destruct (Z.le_gt_cases (size (staged config data)) (maxResponseSizeOf config))
    as [Hf|Hb].
  - now rewrite enforceResponseSize_fits.
  - destruct (staged config data) as [ | b | z | dm de | s | items | entries ] eqn:Ey.
    6: {
      rewrite (enforceResponseSize_array config items Hb). cbv zeta.
      set (shown := Z.max 1 (maxItemsFor _ _ _)).
      assert (Hshown : 1 <= shown <= MAX_SAFE_INTEGER).
      { subst shown. split; [lia|].
        pose proof (maxItemsFor_bound (maxResponseSizeOf config)
                      (size (JArr items)) (Z.of_nat (List.length items))).
        destruct Hu as [_ HS]. unfold size in *. unfold MAX_SAFE_INTEGER in *.
        lia. }
      simpl in Hcount. destruct Hu as [[_ HM] _].
      pose proof (sizeMessage_length shown (Z.of_nat (List.length items))
                    ltac:(lia) ltac:(lia)) as Hmsg.
      simpl in Hy. unfold wrapper. cbn [stringsWithin forallb snd].
      rewrite (stringsWithin_slice0 _ _ _ Hy).
      cbn [andb]. rewrite andb_true_r. apply Nat.leb_le.
      unfold MARKED_LENGTH, MAX_STRING_LENGTH in *. lia. }
    all: rewrite enforceResponseSize_other by (auto; lia);
      rewrite Hfix; exact Hy.
Qed.

Lemma processResponse_bounds_strings_witness :
  enableTruncation defaultConfig = true
  /\ usableLimits defaultConfig
  /\ stringsWithin 1015 (processResponse defaultConfig fiftyLongStrings)
     = true.
Proof.
  assert (He : enableTruncation defaultConfig = true) by reflexivity.
  assert (Hu : usableLimits defaultConfig)
    by (repeat split; vm_compute; (reflexivity || discriminate)).
  split; [exact He | split; [exact Hu |]].
  exact (processResponse_bounds_strings defaultConfig fiftyLongStrings He Hu).
Defined.

(** X11. For a top-level array and a non-negative [maxResults], the shaper
    returns either an array of the same length or a wrapper whose
    [total_available] is the length of the original array and whose
    [truncated] is true, whichever stage built the wrapper. *)
Theorem processResponse_array_total (config : WhaleboneConfig)
        (items : list json) :
  0 <= maxResultsOf config ->
  let out := processResponse config (JArr items) in
  (exists items', out = JArr items'
                  /\ List.length items' = List.length items)
  \/ (field "total_available" out
      = Some (JNum (Z.of_nat (List.length items)))
      /\ field "truncated" out = Some (JBool true)).
Proof.
  intros H0 out. subst out.
  destruct (Z.le_gt_cases (Z.of_nat (List.length items)) (maxResultsOf config))
    as [Hle|Hgt].
  - rewrite processResponse_staged. unfold staged.
    rewrite (withinCount_limitResults (JArr items) _ Hle eq_refl).
    assert (Hy : exists items', truncateObject config (JArr items) = JArr items'
                                /\ List.length items' = List.length items).
    { simpl. destruct (enableTruncation config); simpl.
      - eexists. split; [reflexivity | apply length_map].
      - eexists. split; reflexivity. }
    destruct Hy as (items' & -> & Hlen).
    destruct (Z.le_gt_cases (size (JArr items')) (maxResponseSizeOf config))
      as [Hf|Hb].
    + left. exists items'. split; [now apply enforceResponseSize_fits | exact Hlen].
    + right. rewrite (enforceResponseSize_array config items' Hb). cbv zeta.
      rewrite Hlen. split; reflexivity.
  - right. rewrite processResponse_long_array by lia.
    rewrite truncateObject_wrapper_shape. split; reflexivity.
Qed.

Lemma processResponse_array_total_witness :
  0 <= maxResultsOf defaultConfig
  /\ field "total_available" (processResponse defaultConfig fiftyLongStrings)
     = Some (JNum 50)
  /\ field "total_available" (processResponse defaultConfig sixtyNumbers)
     = Some (JNum 60).
Proof.
  assert (H0 : 0 <= maxResultsOf defaultConfig) by (vm_compute; discriminate).
  split; [exact H0 | split].
  - destruct fiftyLongStrings as [ | | | | | items | ] eqn:E; try discriminate E.
    destruct (processResponse_array_total defaultConfig items H0)
      as [(items' & Hout & _) | [Ht _]].
    + rewrite <- E in Hout.
      assert (Ha : isArray (processResponse defaultConfig fiftyLongStrings)
                   = true) by now rewrite Hout.
      vm_compute in Ha. discriminate Ha.
    + rewrite Ht. injection E as <-. reflexivity.
  - vm_compute. reflexivity.
Defined.

(** X12. For usable limits the count bound always holds on the output: no
    sequence at the top of the shaped response or directly under its
    top-level object has more than [maxResults] elements. *)
Theorem processResponse_withinCount (config : WhaleboneConfig) (data : json) :
  usableLimits config ->
  withinCount (maxResultsOf config) (processResponse config data).
Proof.
  intros Hu.
  assert (H0 : 0 <= maxResultsOf config) by (destruct Hu as [[? ?] ?]; lia).
  destruct (staged_settled config data H0) as [Hcount Hfix].
  rewrite processResponse_staged.
  exact (proj1 (enforceResponseSize_settled config (staged config data)
                  Hu Hcount Hfix)).
Qed.

Lemma processResponse_withinCount_witness :
  usableLimits defaultConfig
  /\ withinCount (maxResultsOf defaultConfig)
       (processResponse defaultConfig sixtyNumbers).
Proof.
  assert (Hu : usableLimits defaultConfig)
    by (repeat split; vm_compute; (reflexivity || discriminate)).
  split; [exact Hu |].
  exact (processResponse_withinCount defaultConfig sixtyNumbers Hu).
Defined.

(* ================================================================== *)
(** * Further properties of the gateway and of the handler *)
(* ================================================================== *)

Lemma append_empty_r (s : string) : (s ++ "")%string = s.
Proof. induction s as [|c s IH]; simpl; congruence. Qed.

Lemma serializeParams_nonempty (kv : string * string) (sp : searchParams) :
  serializeParams (kv :: sp) <> EmptyString.
Proof.
  unfold serializeParams. destruct kv as [k v]. intros H.
  apply (f_equal String.length) in H.
  destruct sp as [|kv' sp]; simpl in H.
  - rewrite !length_append in H. simpl in H. lia.
  - rewrite !length_append in H. simpl in H. lia.
Qed.

(** A URL nothing is appended to is serialized as it was parsed. *)
Lemma urlToString_unchanged (u : parsedUrl) :
  urlToString u (pairs u)
  = beforeQuery u
      ++ match query u with Some q => "?" ++ q | None => "" end
      ++ match fragment u with Some f => "#" ++ f | None => "" end.
Proof.
  unfold urlToString, queryWith. now rewrite Nat.leb_refl.
Qed.

(** The URL of a request whose URL object was taken as written. *)
Lemma urlToString_literal (input : string) (sp : searchParams) :
  urlToString (literalUrl input) sp
  = input ++ match sp with
             | [] => ""
             | _ => "?" ++ serializeParams sp
             end.
Proof.
  unfold urlToString, queryWith. simpl pairs. simpl fragment.
  simpl beforeQuery. simpl query.
  destruct sp as [|kv sp]; simpl List.length; cbv iota.
  - reflexivity.
  - change (S (List.length sp) <=? 0)%nat with false. cbv iota.
    destruct (String.eqb_spec (serializeParams (kv :: sp)) "") as [E|_].
    + now apply serializeParams_nonempty in E.
    + now rewrite append_empty_r.
Qed.

(** X13. [makeRequest] sends no request when [new URL] refuses the base
    URL followed by the endpoint, and the error of [new URL] is thrown.
    Otherwise it sends exactly one request whatever the network answers,
    success, error status, unparseable body or rejected fetch: no retry,
    no second request.  The request is a GET carrying the two keys of the
    configuration; its URL is the parsed URL with one pair appended to its
    query for every argument value.  When the URL is taken as it is
    written, that is the base URL followed by the endpoint, and by a
    question mark and the serialized pairs when there are any. *)
Theorem makeRequest_one_request (config : WhaleboneConfig) (net : network)
        (endpoint : string) (params : bag) :
  let input := baseUrl config ++ endpoint in
  let result := run net (makeRequest config endpoint params) [] in
  (forall m, newURL net input = inl m -> result = (Thrown m, []))
  /\ (forall u,
        newURL net input = inr u ->
        exists req,
          snd result = [req]
          /\ method req = "GET"
          /\ headers req = [ ("Wb-Access-Key", accessKey config);
                             ("Wb-Secret-Key", secretKey config);
                             ("Content-Type", "application/json") ]
          /\ url req
             = urlToString u (pairs u ++ flat_map pairsOf params)%list)
  /\ (newURL net input = inr (literalUrl input) ->
      exists req,
        snd result = [req]
        /\ url req = input ++ match flat_map pairsOf params with
                              | [] => ""
                              | sp => "?" ++ serializeParams sp
                              end).
Proof.
  intros input result.
  assert (Hsent : forall u,
             newURL net input = inr u ->
             snd result = [requestOf config u params]).
  { intros u Hu. subst result input. simpl. rewrite Hu. simpl.
    destruct (fetch net (requestOf config u params)) as [m|r];
      [reflexivity|].
    destruct (negb (ok r)); [reflexivity|].
    destruct (body r); reflexivity. }
  split; [| split].
  - intros m Hm. subst result input. simpl. now rewrite Hm.
  - intros u Hu. exists (requestOf config u params).
    split; [now apply Hsent|]. split; [reflexivity|].
    split; [reflexivity|].
    simpl. now rewrite addParams_flat_map.
  - intros Hu. exists (requestOf config (literalUrl input) params).
    split; [now apply Hsent|].
    simpl url. rewrite addParams_flat_map. simpl pairs.
    rewrite app_nil_l, urlToString_literal.
    now destruct (flat_map pairsOf params).
Qed.

Lemma makeRequest_one_request_witness :
  let noScheme := {| accessKey := ""; secretKey := "";
                     baseUrl := "api.whalebone.io/whalebone/2";
                     maxResults := Some 50;
                     maxResponseSize := Some 50000;
                     enableTruncation := true |} in
  run unavailable (makeRequest noScheme "/ioc/count" []) []
  = (Thrown "Invalid URL", [])
  /\ exists req,
       snd (run unavailable
              (makeRequest defaultConfig "/events/search" exampleBag) [])
       = [req]
       /\ url req
          = "https://api.whalebone.io/whalebone/2/events/search?domain=example.com&device_id=a&device_id=b".
Proof.
  intros noScheme. split.
  - exact (proj1 (makeRequest_one_request noScheme unavailable
                    "/ioc/count" []) "Invalid URL" eq_refl).
  - destruct (proj2 (proj2 (makeRequest_one_request defaultConfig unavailable
                              "/events/search" exampleBag)) eq_refl)
      as (req & Hlog & Hurl).
    exists req. split; [exact Hlog | exact Hurl].
Defined.

(** X14. A call whose request is answered with a status in 200..299 and a
    parseable body resolves to the success reply: an object with the one
    field [content], which holds one item of type [text] whose text is the
    shaped body printed with two-space indentation.  There is no [isError]
    field. *)
Theorem successful_call_reply (config : WhaleboneConfig) (net : network)
        (name : string) (args : option bag)
        (req : request) (resp : response) (rawData : json) :
  snd (callTool config net name args) = [req] ->
  net req = inr resp ->
  200 <= status resp <= 299 ->
  body resp = inr rawData ->
  let reply := fst (callTool config net name args) in
  reply
  = JObj [ ("content",
            JArr [ JObj [ ("type", JStr "text");
                          ("text",
                           JStr (stringifyPretty
                                   (processResponse config rawData))) ] ]) ]
  /\ field "isError" reply = None.
Proof.
  intros Hlog Hnet Hstatus Hbody reply.
  rewrite callTool_log in Hlog.
  assert (Hok : ok resp = true).
  { unfold ok. apply andb_true_intro. split; apply Z.leb_le; lia. }
  assert (E : reply
              = JObj [ ("content",
                        JArr [ JObj [ ("type", JStr "text");
                                      ("text",
                                       JStr (stringifyPretty
                                               (processResponse config
                                                  rawData))) ] ]) ]).
  { subst reply. unfold callTool.
    rewrite (tryBlock_sent config net name args req Hlog).
    rewrite Hnet. unfold outcomeOf. rewrite Hok, Hbody. reflexivity. }
  split; [exact E | rewrite E; reflexivity].
Qed.

Lemma successful_call_reply_witness :
  let net := answering (JObj [("malware", JNum 3)]) in
  let req := {| url := "https://api.whalebone.io/whalebone/2/ioc/count";
                method := "GET";
                headers := [ ("Wb-Access-Key", "");
                             ("Wb-Secret-Key", "");
                             ("Content-Type", "application/json") ] |} in
  let newline := String "010" "" in
  let quoted := String dquote ("malware" ++ String dquote "") in
  snd (callTool defaultConfig net "get_ioc_count" None) = [req]
  /\ fst (callTool defaultConfig net "get_ioc_count" None)
     = JObj [ ("content",
               JArr [ JObj [ ("type", JStr "text");
                             ("text",
                              JStr ("{" ++ newline ++ "  " ++ quoted
                                        ++ ": 3" ++ newline ++ "}")) ] ]) ].
Proof.
  intros net req newline quoted.
  assert (Hlog : snd (callTool defaultConfig net "get_ioc_count" None) = [req])
    by reflexivity.
  split; [exact Hlog|].
  destruct (successful_call_reply defaultConfig net "get_ioc_count" None req
              {| status := 200; statusText := "OK";
                 body := inr (JObj [("malware", JNum 3)]) |}
              (JObj [("malware", JNum 3)])
              Hlog eq_refl ltac:(simpl; lia) eq_refl) as [E _].
  rewrite E. reflexivity.
Defined.

(** X15. The two other failures of a sent request end in the error reply
    as well: a rejected [fetch] (no connection) and a 2xx answer whose
    body does not parse.  The reply has the field [content], one item of
    type [text] whose text is [Error: ] and the message of the thrown
    error, followed by the advisory tip or by nothing, and the field
    [isError], which is true. *)
Theorem failed_call_reply (config : WhaleboneConfig) (net : network)
        (name : string) (args : option bag) (req : request) :
  snd (callTool config net name args) = [req] ->
  let reply := fst (callTool config net name args) in
  let failing m :=
    net req = inl m
    \/ exists resp, net req = inr resp /\ 200 <= status resp <= 299
                    /\ body resp = inl m in
  forall m,
    failing m ->
    exists suffix,
      (suffix = EmptyString \/ suffix = TIP)
      /\ reply
         = JObj [ ("content",
                   JArr [ JObj [ ("type", JStr "text");
                                 ("text",
                                  JStr ("Error: " ++ m ++ suffix)) ] ]);
                  ("isError", JBool true) ].
Proof.
  intros Hlog reply failing m Hm.
  rewrite callTool_log in Hlog.
  assert (E : reply = match outcomeOf config (net req) with
                      | Returned r => r
                      | Thrown m => errorPayload m
                      end).
  { subst reply. unfold callTool.
    rewrite (tryBlock_sent config net name args req Hlog).
    destruct (outcomeOf config (net req)); reflexivity. }
  assert (Hreply : reply = errorPayload m).
  { rewrite E. destruct Hm as [Hnet | (resp & Hnet & Hstatus & Hbody)];
      rewrite Hnet; unfold outcomeOf; [reflexivity|].
    assert (Hok : ok resp = true).
    { unfold ok. apply andb_true_intro. split; apply Z.leb_le; lia. }
    rewrite Hok, Hbody. reflexivity. }
  rewrite Hreply. apply errorPayload_shape.
Qed.

Lemma failed_call_reply_witness :
  let req := {| url := "https://api.whalebone.io/whalebone/2/events/search?domain=example.com&device_id=a&device_id=b";
                method := "GET";
                headers := [ ("Wb-Access-Key", "");
                             ("Wb-Secret-Key", "");
                             ("Content-Type", "application/json") ] |} in
  snd (callTool defaultConfig unreachable "search_events" (Some exampleBag))
  = [req]
  /\ fst (callTool defaultConfig unreachable "search_events"
            (Some exampleBag))
     = JObj [ ("content",
               JArr [ JObj [ ("type", JStr "text");
                             ("text", JStr "Error: fetch failed") ] ]);
              ("isError", JBool true) ]
  /\ exists suffix,
       (suffix = EmptyString \/ suffix = TIP)
       /\ fst (callTool defaultConfig unreachable "search_events"
                 (Some exampleBag))
          = JObj [ ("content",
                    JArr [ JObj [ ("type", JStr "text");
                                  ("text",
                                   JStr ("Error: " ++ "fetch failed"
                                           ++ suffix)) ] ]);
                   ("isError", JBool true) ].
Proof.
  intros req.
  assert (Hlog : snd (callTool defaultConfig unreachable "search_events"
                        (Some exampleBag)) = [req]) by reflexivity.
  split; [exact Hlog | split; [reflexivity|]].
  exact (failed_call_reply defaultConfig unreachable "search_events"
           (Some exampleBag) req Hlog "fetch failed" (or_introl eq_refl)).
Defined.

(** X16. A tool call never sends more than one request, whatever the
    name, the arguments and the network. *)
Theorem callTool_at_most_one_request (config : WhaleboneConfig)
        (net : network) (name : string) (args : option bag) :
  (List.length (snd (callTool config net name args)) <= 1)%nat.
Proof.
  rewrite callTool_log.
  destruct (tryBlock_cases config net name args) as [(m & E) | (u & p & E)];
    rewrite E; simpl; lia.
Qed.

(** X17. [get_ioc_count] ignores its arguments: whatever bag the caller
    passes, the reply and the requests sent are those of the call without
    arguments.  When [new URL] accepts the base URL followed by
    [/ioc/count], the one request goes to that URL as [new URL] serializes
    it, with nothing appended to its query; when it refuses, no request is
    sent. *)
Theorem get_ioc_count_ignores_arguments (config : WhaleboneConfig)
        (net : network) (args : option bag) :
  let input := baseUrl config ++ "/ioc/count" in
  callTool config net "get_ioc_count" args
  = callTool config net "get_ioc_count" None
  /\ (forall u,
        newURL net input = inr u ->
        exists req,
          snd (callTool config net "get_ioc_count" args) = [req]
          /\ url req
             = beforeQuery u
                 ++ match query u with Some q => "?" ++ q | None => "" end
                 ++ match fragment u with
                    | Some f => "#" ++ f
                    | None => ""
                    end)
  /\ (forall m,
        newURL net input = inl m ->
        snd (callTool config net "get_ioc_count" args) = []).
Proof.
  intros input.
  assert (E : run net (tryBlock config "get_ioc_count" args) []
              = match newURL net input with
                | inl m => (Thrown m, [])
                | inr u => (outcomeOf config (net (requestOf config u [])),
                            [requestOf config u []])
                end).
  { unfold tryBlock, dispatch. simpl String.eqb. cbv iota.
    unfold getIocCount. apply run_makeRequest_outcome. }
  split; [reflexivity|]. split.
  - intros u Hu. exists (requestOf config u []).
    rewrite callTool_log, E, Hu. split; [reflexivity|].
    simpl url. unfold addParams. simpl fold_left.
    apply urlToString_unchanged.
  - intros m Hm. now rewrite callTool_log, E, Hm.
Qed.

Lemma get_ioc_count_ignores_arguments_witness :
  callTool defaultConfig unavailable "get_ioc_count" (Some exampleBag)
  = callTool defaultConfig unavailable "get_ioc_count" None
  /\ exists req,
       snd (callTool defaultConfig unavailable "get_ioc_count"
              (Some exampleBag)) = [req]
       /\ url req = "https://api.whalebone.io/whalebone/2/ioc/count".
Proof.
  pose proof (get_ioc_count_ignores_arguments defaultConfig unavailable
                (Some exampleBag)) as (Hsame & Hsent & _).
  split; [exact Hsame|].
  destruct (Hsent _ eq_refl) as (req & Hlog & Hurl).
  exists req. split; [exact Hlog | exact Hurl].
Defined.



(** X19. A name that is not in the catalogue is rejected in the handler:
    the reply is the error reply for [Unknown tool: <name>] and no request
    is sent. *)
Theorem unknown_tool_rejected (config : WhaleboneConfig) (net : network)
        (name : string) (args : option bag) :
  ~ In name Catalogue.toolNames ->
  callTool config net name args
  = (errorPayload ("Unknown tool: " ++ name), []).
Proof.
  intros Hnot.
  assert (Hnames : Catalogue.toolNames
                   = [ "search_events"; "get_events_timeline";
                       "get_events_stats"; "get_dns_timeline";
                       "get_dnssec_timeline"; "get_ioc_count";
                       "get_resolver_metrics"; "analyze_domain" ])
    by (vm_compute; reflexivity).
  rewrite Hnames in Hnot. simpl in Hnot.
  unfold callTool, tryBlock, dispatch.
  repeat match goal with
         | |- context [String.eqb name ?s] =>
             destruct (String.eqb_spec name s) as [->|_]; [tauto|]
         end.
  reflexivity.
Qed.

Lemma unknown_tool_rejected_witness :
  ~ In "get_audit_logs" Catalogue.toolNames
  /\ callTool defaultConfig unavailable "get_audit_logs" None
     = (JObj [ ("content",
                textContent "Error: Unknown tool: get_audit_logs");
               ("isError", JBool true) ],
        []).
Proof.
  assert (Hnot : ~ In "get_audit_logs" Catalogue.toolNames).
  { vm_compute. intros H.
    repeat (destruct H as [H|H]; [discriminate H|]). exact H. }
  split; [exact Hnot|].
  rewrite (unknown_tool_rejected defaultConfig unavailable
             "get_audit_logs" None Hnot).
  reflexivity.
Defined.

Lemma toolNames_listed :
  Catalogue.toolNames
  = [ "search_events"; "get_events_timeline"; "get_events_stats";
      "get_dns_timeline"; "get_dnssec_timeline"; "get_ioc_count";
      "get_resolver_metrics"; "analyze_domain" ].
Proof. vm_compute. reflexivity. Qed.

Lemma dispatch_unlisted (config : WhaleboneConfig) (name : string)
      (toolArgs : bag) :
  ~ In name Catalogue.toolNames ->
  dispatch config name toolArgs = Throw ("Unknown tool: " ++ name).
Proof.
  rewrite toolNames_listed. simpl. intros Hnot. unfold dispatch.
  repeat match goal with
         | |- context [String.eqb name ?s] =>
             destruct (String.eqb_spec name s) as [->|_]; [tauto|]
         end.
  reflexivity.
Qed.

(** X20. The catalogue and the handler agree on the tool names: every
    tool of the catalogue has a name, no name occurs twice, and a name is
    in the catalogue exactly when the [switch] of the handler has a case
    for it, that is, when the call is never answered [Unknown tool]. *)
Theorem catalogue_matches_dispatch (config : WhaleboneConfig) :
  List.length Catalogue.toolNames = List.length Catalogue.tools
  /\ NoDup Catalogue.toolNames
  /\ (forall name,
        In name Catalogue.toolNames
        <-> forall toolArgs,
              dispatch config name toolArgs
              <> Throw ("Unknown tool: " ++ name)).
Proof.
  split; [vm_compute; reflexivity|]. split.
  { rewrite toolNames_listed.
    repeat (constructor;
            [simpl; intros H;
             repeat (destruct H as [H|H]; [discriminate H|]); exact H|]).
    constructor. }
  intros name. split.
  - rewrite toolNames_listed. simpl.
    intros H toolArgs.
    repeat (destruct H as [<-|H]; [
      unfold dispatch; simpl String.eqb; cbv iota;
      first
        [ unfold searchEvents, getEventsTimeline, getEventsStats,
            getDnsTimeline, getDnssecTimeline, getIocCount,
            getResolverMetrics, makeRequest; discriminate
        | destruct (negb (truthy _));
          [ intros E; injection E as E; discriminate E
          | unfold getDomainAnalysis, makeRequest; discriminate ] ] |]).
    contradiction.
  - intros H.
    destruct (in_dec string_dec name Catalogue.toolNames) as [Hin|Hnot];
      [exact Hin|].
    exfalso. apply (H []). now apply dispatch_unlisted.
Qed.

Lemma catalogue_requirements :
  map (fun tool => (Catalogue.toolName tool, Catalogue.requiredOf tool))
      Catalogue.tools
  = [ (Some "search_events", []); (Some "get_events_timeline", []);
      (Some "get_events_stats", []); (Some "get_dns_timeline", []);
      (Some "get_dnssec_timeline", []); (Some "get_ioc_count", []);
      (Some "get_resolver_metrics", []);
      (Some "analyze_domain", ["fqdn"]) ].
Proof. vm_compute. reflexivity. Qed.

(** X21. The handler enforces what the catalogue declares as required, no
    more and no less: a call of a catalogued tool gets as far as
    [makeRequest] exactly when every argument the tool's schema lists under
    [required] is present with a truthy value, and is refused with
    [<key> parameter is required] otherwise.  So, when [new URL] accepts
    the base URL followed by every endpoint, the call reaches the network
    exactly in that case.  Only [analyze_domain] lists a required
    argument. *)
Theorem required_arguments_enforced (config : WhaleboneConfig)
        (net : network) (tool : json) (name : string) (toolArgs : bag) :
  In tool Catalogue.tools ->
  Catalogue.toolName tool = Some name ->
  let complete :=
    forall key, In key (Catalogue.requiredOf tool) ->
                truthy (getArg key toolArgs) = true in
  (complete
   <-> exists endpoint params,
         dispatch config name toolArgs = makeRequest config endpoint params)
  /\ (~ complete
      <-> exists key,
            In key (Catalogue.requiredOf tool)
            /\ dispatch config name toolArgs
               = Throw (key ++ " parameter is required"))
  /\ ((forall endpoint,
          exists u, newURL net (baseUrl config ++ endpoint) = inr u) ->
      (complete
       <-> List.length (snd (callTool config net name (Some toolArgs)))
           = 1%nat)).
Proof.
  intros Hin Hname complete.
  assert (Hpair : In (Catalogue.toolName tool, Catalogue.requiredOf tool)
                     (map (fun tool => (Catalogue.toolName tool,
                                        Catalogue.requiredOf tool))
                          Catalogue.tools))
    by (apply in_map_iff; exists tool; auto).
  rewrite catalogue_requirements, Hname in Hpair. simpl in Hpair.
  assert (Hsent : forall endpoint params,
             (forall endpoint,
                 exists u, newURL net (baseUrl config ++ endpoint) = inr u) ->
             List.length
               (snd (run net (bind (makeRequest config endpoint params)
                                   (fun result => Ret (successPayload result)))
                         [])) = 1%nat).
  { intros e p Haccept. rewrite run_makeRequest_outcome.
    destruct (Haccept e) as [u ->]. reflexivity. }
  assert (Hfree : forall endpoint params,
             Catalogue.requiredOf tool = [] ->
             dispatch config name toolArgs
             = makeRequest config endpoint params ->
             (complete
              <-> exists endpoint params,
                    dispatch config name toolArgs
                    = makeRequest config endpoint params)
             /\ (~ complete
                 <-> exists key,
                       In key (Catalogue.requiredOf tool)
                       /\ dispatch config name toolArgs
                          = Throw (key ++ " parameter is required"))
             /\ ((forall endpoint,
                     exists u,
                       newURL net (baseUrl config ++ endpoint) = inr u) ->
                 (complete
                  <-> List.length
                        (snd (callTool config net name (Some toolArgs)))
                      = 1%nat))).
  { intros e p Hreq Hd.
    assert (Hc : complete) by (intros key Hk; rewrite Hreq in Hk; elim Hk).
    split; [| split].
    - split; [intros _; now exists e, p | intros _; exact Hc].
    - split; [intros Hn; elim (Hn Hc)|].
      intros (key & Hk & _). rewrite Hreq in Hk. elim Hk.
    - intros Haccept. split; [| intros _; exact Hc].
      intros _. rewrite callTool_log. unfold tryBlock.
      simpl argumentsOrEmpty. rewrite Hd. now apply Hsent. }
  destruct Hpair as [E|[E|[E|[E|[E|[E|[E|[E|[]]]]]]]]];
    injection E as Hn Hr; subst name; symmetry in Hr;
    try (eapply Hfree; [exact Hr | reflexivity]).
  assert (Hiff : complete <-> truthy (getArg "fqdn" toolArgs) = true).
  { subst complete. rewrite Hr. split.
    - intros H. apply H. now left.
    - intros H key [<-|[]]. exact H. }
  assert (Hd : dispatch config "analyze_domain" toolArgs
               = if truthy (getArg "fqdn" toolArgs)
                 then makeRequest config "/domain/analysis"
                        [("fqdn", getArg "fqdn" toolArgs)]
                 else Throw "fqdn parameter is required").
  { unfold dispatch. simpl String.eqb. cbv iota.
    now destruct (truthy (getArg "fqdn" toolArgs)). }
  split; [| split].
  - rewrite Hiff, Hd. destruct (truthy (getArg "fqdn" toolArgs)).
    + split; [intros _; eexists; eexists; reflexivity | reflexivity].
    + split; [discriminate|]. intros (e & p & H). discriminate H.
  - rewrite Hiff, Hd, Hr. destruct (truthy (getArg "fqdn" toolArgs)).
    + split; [intros H; now elim H|].
      intros (key & _ & H). discriminate H.
    + split; [| intros _; discriminate].
      intros _. exists "fqdn". split; [now left | reflexivity].
  - intros Haccept. rewrite Hiff, callTool_log. unfold tryBlock.
    simpl argumentsOrEmpty. rewrite Hd.
    destruct (truthy (getArg "fqdn" toolArgs)).
    + split; [intros _; now apply Hsent | reflexivity].
    + split; [discriminate | simpl; discriminate].
Qed.

Lemma required_arguments_enforced_witness :
  exists tool,
    In tool Catalogue.tools
    /\ Catalogue.toolName tool = Some "analyze_domain"
    /\ Catalogue.requiredOf tool = ["fqdn"]
    /\ List.length
         (snd (callTool defaultConfig unavailable "analyze_domain"
                 (Some [("fqdn", AScalar (SStr "example.com"))])))
       = 1%nat
    /\ dispatch defaultConfig "analyze_domain"
         [("domain", AScalar (SStr "example.com"))]
       = Throw "fqdn parameter is required".
Proof.
  exists (nth 7 Catalogue.tools JNull).
  assert (Hin : In (nth 7 Catalogue.tools JNull) Catalogue.tools)
    by (apply nth_In; vm_compute; lia).
  assert (Hname : Catalogue.toolName (nth 7 Catalogue.tools JNull)
                  = Some "analyze_domain") by (vm_compute; reflexivity).
  assert (Hreq : Catalogue.requiredOf (nth 7 Catalogue.tools JNull)
                 = ["fqdn"]) by (vm_compute; reflexivity).
  split; [exact Hin | split; [exact Hname | split; [exact Hreq | split]]].
  - apply (proj2 (proj2 (required_arguments_enforced defaultConfig
                           unavailable _ "analyze_domain"
                           [("fqdn", AScalar (SStr "example.com"))]
                           Hin Hname))).
    + intros endpoint. exists (literalUrl (baseUrl defaultConfig ++ endpoint)).
      reflexivity.
    + rewrite Hreq. intros key [<-|[]]. reflexivity.
  - reflexivity.
Defined.

Lemma prefix_spec (needle hay : string) :
  String.prefix needle hay = true <-> exists after, hay = needle ++ after.
Proof.
  revert hay. induction needle as [|c needle IH]; intros hay.
  - split; [intros _; now exists hay | intros _; destruct hay; reflexivity].
  - destruct hay as [|d hay]; simpl.
    + split; [discriminate | intros [after E]; discriminate E].
    + destruct (ascii_dec c d) as [->|Hne].
      * rewrite IH. split; intros [after E]; exists after.
        -- now rewrite E.
        -- now injection E.
      * split; [discriminate|]. intros [after E]. injection E as E1 _.
        congruence.
Qed.

Lemma includes_spec (needle hay : string) :
  Js.includes needle hay = true <-> contains needle hay.
Proof.
  unfold contains. induction hay as [|c hay IH].
  - change (Js.includes needle EmptyString)
      with (String.prefix needle EmptyString || false).
    rewrite orb_false_r, prefix_spec. split.
    + intros [after E]. exists EmptyString, after. exact E.
    + intros (before & after & E). destruct before as [|b before].
      * now exists after.
      * discriminate E.
  - change (Js.includes needle (String c hay))
      with (String.prefix needle (String c hay) || Js.includes needle hay).
    rewrite orb_true_iff, prefix_spec, IH. split.
    + intros [[after E] | (before & after & E)].
      * exists EmptyString, after. exact E.
      * exists (String c before), after. simpl. now rewrite E.
    + intros (before & after & E). destruct before as [|b before].
      * left. now exists after.
      * right. simpl in E. injection E as _ E. now exists before, after.
Qed.

(** X22. The advisory tip is appended to an error message exactly when the
    message holds the substring [too large] or the substring [truncated]
    (in lower case), wherever the message comes from: an API status text,
    a rejected fetch or a tool name.  Otherwise the reply carries the
    message as it is. *)
Theorem helpfulError_tip (errorMessage : string) :
  (contains "too large" errorMessage \/ contains "truncated" errorMessage ->
   helpfulError errorMessage = errorMessage ++ TIP)
  /\ (~ contains "too large" errorMessage ->
      ~ contains "truncated" errorMessage ->
      helpfulError errorMessage = errorMessage)
  /\ helpfulError "Whalebone API error: 413 Payload Too Large"
     = "Whalebone API error: 413 Payload Too Large"
  /\ helpfulError "Unknown tool: truncated"
     = "Unknown tool: truncated" ++ TIP.
Proof.
  split; [| split; [| split; reflexivity]].
  - intros H. unfold helpfulError.
    assert (E : Js.includes "too large" errorMessage
                || Js.includes "truncated" errorMessage = true).
    { apply orb_true_iff. destruct H as [H|H]; [left | right];
        now apply includes_spec. }
    now rewrite E.
  - intros H1 H2. unfold helpfulError.
    destruct (Js.includes "too large" errorMessage) eqn:E1;
      [elim H1; now apply includes_spec|].
    destruct (Js.includes "truncated" errorMessage) eqn:E2;
      [elim H2; now apply includes_spec|].
    reflexivity.
Qed.

(* ================================================================== *)
(** * The server without the shaper, compared with the server with it *)
(* ================================================================== *)

Section PlainFacts.

Variable config : WhaleboneConfig.
Variable net : network.

Lemma plain_requestOf (u : parsedUrl) (params : bag) :
  Plain.requestOf (Plain.ofConfig config) u params
  = requestOf config u params.
Proof. reflexivity. Qed.

Lemma makeRequest_shapes_plain (endpoint : string) (params : bag) :
  run net (makeRequest config endpoint params) []
  = shapedOutcome config
      (run net (Plain.makeRequest (Plain.ofConfig config) endpoint params) []).
Proof.
  simpl.
  change (Plain.baseUrl (Plain.ofConfig config)) with (baseUrl config).
  destruct (newURL net (baseUrl config ++ endpoint)) as [m|u];
    [reflexivity|].
  rewrite plain_requestOf.
  destruct (fetch net (requestOf config u params)) as [m|r];
    [reflexivity|].
  destruct (negb (ok r)); [reflexivity|].
  destruct (body r); reflexivity.
Qed.

(** What the plain [makeRequest] sends. *)
Lemma plain_makeRequest_log (endpoint : string) (params : bag)
      (k : json -> prog json) :
  (forall rawData log, snd (run net (k rawData) log) = log) ->
  snd (run net (bind (Plain.makeRequest (Plain.ofConfig config)
                        endpoint params) k) [])
  = match newURL net (baseUrl config ++ endpoint) with
    | inl _ => []
    | inr u => [requestOf config u params]
    end.
Proof.
  intros Hk. simpl.
  change (Plain.baseUrl (Plain.ofConfig config)) with (baseUrl config).
  destruct (newURL net (baseUrl config ++ endpoint)) as [m|u];
    [reflexivity|].
  rewrite plain_requestOf.
  destruct (fetch net (requestOf config u params)) as [m|r];
    [reflexivity|].
  destruct (negb (ok r)); [reflexivity|].
  destruct (body r); [reflexivity | apply Hk].
Qed.

End PlainFacts.

(** X23. The shaper is the only difference between the two servers on the
    eight tools they share: for every such call the server with the
    shaper sends the same requests as the server without it, throws the
    same error when that one throws, and returns [processResponse] of the
    value that one returns. *)
Theorem shaped_client_is_plain_then_processResponse
        (config : WhaleboneConfig) (net : network) (name : string)
        (toolArgs : bag) :
  name <> "get_audit_logs" ->
  name <> "get_idp_incidents" ->
  run net (dispatch config name toolArgs) []
  = shapedOutcome config
      (run net (Plain.dispatch (Plain.ofConfig config) name toolArgs) []).
Proof.
  intros Ha Hi. unfold dispatch, Plain.dispatch.
  repeat match goal with
         | |- context [if String.eqb name ?s then _ else _] =>
             destruct (String.eqb_spec name s) as [E|_];
             [ try (elim Ha; exact E); try (elim Hi; exact E) | ]
         end;
    try apply makeRequest_shapes_plain; try reflexivity.
  destruct (negb (truthy _)); [reflexivity | apply makeRequest_shapes_plain].
Qed.

Lemma shaped_client_is_plain_then_processResponse_witness :
  let net := answering sixtyNumbers in
  "search_events" <> "get_audit_logs"
  /\ "search_events" <> "get_idp_incidents"
  /\ fst (run net (Plain.dispatch (Plain.ofConfig defaultConfig)
                     "search_events" exampleBag) [])
     = Returned sixtyNumbers
  /\ fst (run net (dispatch defaultConfig "search_events" exampleBag) [])
     = Returned (processResponse defaultConfig sixtyNumbers).
Proof.
  intros net.
  assert (Ha : "search_events" <> "get_audit_logs") by discriminate.
  assert (Hi : "search_events" <> "get_idp_incidents") by discriminate.
  split; [exact Ha | split; [exact Hi | split; [reflexivity |]]].
  rewrite (shaped_client_is_plain_then_processResponse defaultConfig net
             "search_events" exampleBag Ha Hi).
  reflexivity.
Defined.

(** X24. The two privacy-sensitive tools exist only in the server without
    the shaper.  There [get_audit_logs] and [get_idp_incidents] construct
    the URL of [/audit/logs] and of [/idp/incidents] and, when [new URL]
    accepts it, send one request to it with the caller's arguments
    appended to its query; when [new URL] refuses it they send nothing.
    The server with the shaper rejects both names as unknown and sends
    nothing. *)
Theorem privacy_tools_only_in_plain_server (config : WhaleboneConfig)
        (net : network) (args : option bag) :
  let sent name :=
    snd (Plain.callTool (Plain.ofConfig config) net name args) in
  let requestTo endpoint :=
    match newURL net (baseUrl config ++ endpoint) with
    | inl _ => []
    | inr u =>
        [ {| url := urlToString u
                      (pairs u
                         ++ flat_map pairsOf (argumentsOrEmpty args))%list;
             method := "GET";
             headers := [ ("Wb-Access-Key", accessKey config);
                          ("Wb-Secret-Key", secretKey config);
                          ("Content-Type", "application/json") ] |} ]
    end in
  let unknown name :=
    (JObj [ ("content",
             JArr [ JObj [ ("type", JStr "text");
                           ("text", JStr ("Error: Unknown tool: " ++ name)) ] ]);
            ("isError", JBool true) ],
     @nil request) in
  sent "get_audit_logs" = requestTo "/audit/logs"
  /\ sent "get_idp_incidents" = requestTo "/idp/incidents"
  /\ callTool config net "get_audit_logs" args = unknown "get_audit_logs"
  /\ callTool config net "get_idp_incidents" args
     = unknown "get_idp_incidents".
Proof.
  intros sent requestTo unknown.
  assert (Hplain : forall name endpoint,
             Plain.dispatch (Plain.ofConfig config) name
                            (argumentsOrEmpty args)
             = Plain.makeRequest (Plain.ofConfig config) endpoint
                                 (argumentsOrEmpty args) ->
             sent name = requestTo endpoint).
  { intros name endpoint Hd. subst sent requestTo. cbv beta.
    assert (Hlog : snd (Plain.callTool (Plain.ofConfig config) net name args)
                   = snd (run net (Plain.tryBlock (Plain.ofConfig config)
                                     name args) [])).
    { unfold Plain.callTool.
      destruct (run net (Plain.tryBlock _ name args) []) as [[r|m] l];
        reflexivity. }
    rewrite Hlog. unfold Plain.tryBlock. rewrite Hd.
    rewrite plain_makeRequest_log by reflexivity.
    destruct (newURL net (baseUrl config ++ endpoint)) as [m|u];
      [reflexivity|].
    unfold requestOf. now rewrite addParams_flat_map. }
  split; [now apply Hplain|]. split; [now apply Hplain|].
  split; reflexivity.
Qed.

Lemma privacy_tools_only_in_plain_server_witness :
  snd (Plain.callTool (Plain.ofConfig defaultConfig) unavailable
         "get_audit_logs" (Some [("days", AScalar (SNum 7))]))
  = [ {| url := "https://api.whalebone.io/whalebone/2/audit/logs?days=7";
         method := "GET";
         headers := [ ("Wb-Access-Key", "");
                      ("Wb-Secret-Key", "");
                      ("Content-Type", "application/json") ] |} ]
  /\ snd (callTool defaultConfig unavailable "get_audit_logs"
            (Some [("days", AScalar (SNum 7))])) = [].
Proof.
  pose proof (privacy_tools_only_in_plain_server defaultConfig unavailable
                (Some [("days", AScalar (SNum 7))])) as (Ha & _ & Hu & _).
  split.
  - rewrite Ha. reflexivity.
  - rewrite Hu. reflexivity.
Defined.

(* ================================================================== *)
(** * The measured size and the text of the reply *)
(* ================================================================== *)





(* ================================================================== *)
(** * What the shaper reads of the configuration *)
(* ================================================================== *)

Lemma truncateString_flag (c1 c2 : WhaleboneConfig) (s : string) (n : nat) :
  enableTruncation c1 = enableTruncation c2 ->
  truncateString c1 s n = truncateString c2 s n.
Proof. intros He. unfold truncateString. now rewrite He. Qed.

Lemma truncateObject_flag (c1 c2 : WhaleboneConfig) (v : json) :
  enableTruncation c1 = enableTruncation c2 ->
  truncateObject c1 v = truncateObject c2 v.
Proof.
  intros He.
  destruct (enableTruncation c1) eqn:He1;
    [| now rewrite !truncateObject_disabled].
  symmetry in He.
  induction v as [ | b | z | dm de | s | items IH | entries IH ] using json_induction;
    try (simpl; rewrite ?He, ?He1; reflexivity).
  - simpl. rewrite He, He1. simpl. f_equal.
    apply truncateString_flag. congruence.
  - rewrite !truncateObject_array by assumption.
    f_equal. apply map_ext_in. intros x Hx.
    rewrite Forall_forall in IH. now apply IH.
  - rewrite !truncateObject_object by assumption.
    do 2 f_equal. apply map_ext_in. intros [k x] Hx.
    rewrite Forall_forall in IH. simpl. f_equal. exact (IH (k, x) Hx).
Qed.

(** X26. The shaper reads three things of the configuration: the
    effective [maxResults], the effective [maxResponseSize] and the
    truncation flag; two configurations that agree on them shape every
    response alike, whatever their keys and base URL.  The effective
    limits are never 0: a limit configured as 0, or one that did not parse
    as a number, stands for the default 50 or 50000, so neither limit can
    be switched off. *)
Theorem processResponse_reads_effective_limits (c1 c2 : WhaleboneConfig) :
  maxResultsOf c1 = maxResultsOf c2 ->
  maxResponseSizeOf c1 = maxResponseSizeOf c2 ->
  enableTruncation c1 = enableTruncation c2 ->
  (forall data, processResponse c1 data = processResponse c2 data)
  /\ maxResultsOf c1 <> 0
  /\ maxResponseSizeOf c1 <> 0
  /\ (maxResults c1 = Some 0 \/ maxResults c1 = None ->
      maxResultsOf c1 = DEFAULT_MAX_RESULTS)
  /\ (maxResponseSize c1 = Some 0 \/ maxResponseSize c1 = None ->
      maxResponseSizeOf c1 = DEFAULT_MAX_RESPONSE_SIZE).
Proof.
  intros HM HS He. split; [| repeat split].
  - intros data. unfold processResponse, enforceResponseSize.
    rewrite HM, HS.
    rewrite (truncateObject_flag c1 c2 _ He).
    destruct (_ <=? _); [reflexivity|].
    destruct (truncateObject c2 (limitResults data (maxResultsOf c2)));
      try reflexivity; apply truncateObject_flag; exact He.
  - unfold maxResultsOf, Js.numberOr, DEFAULT_MAX_RESULTS.
    destruct (maxResults c1) as [[|p|p]|]; discriminate.
  - unfold maxResponseSizeOf, Js.numberOr, DEFAULT_MAX_RESPONSE_SIZE.
    destruct (maxResponseSize c1) as [[|p|p]|]; discriminate.
  - intros [E|E]; unfold maxResultsOf; rewrite E; reflexivity.
  - intros [E|E]; unfold maxResponseSizeOf; rewrite E; reflexivity.
Qed.

Lemma processResponse_reads_effective_limits_witness :
  let zeroLimits :=
    {| accessKey := "key"; secretKey := "secret";
       baseUrl := "https://example.org";
       maxResults := Some 0; maxResponseSize := None;
       enableTruncation := true |} in
  maxResultsOf zeroLimits = maxResultsOf defaultConfig
  /\ processResponse zeroLimits sixtyNumbers
     = processResponse defaultConfig sixtyNumbers.
Proof.
  intros zeroLimits.
  assert (HM : maxResultsOf zeroLimits = maxResultsOf defaultConfig)
    by reflexivity.
  split; [exact HM|].
  exact (proj1 (processResponse_reads_effective_limits zeroLimits
                  defaultConfig HM eq_refl eq_refl) sixtyNumbers).
Defined.
